(** * Organizational monitoring: the three Lambda handlers

    A shallow embedding of
      - [devops/lambda/investigation_monitor/index.py] (client side poller),
      - [devops/lambda/simple_routing/index.py]        (deterministic router),
      - [devops/lambda/pattern_detector/index.py]      (pattern correlator),
    followed by the properties of the routing / state / correlation core.

    Conventions of the embedding.
      - A Python [str] is a [string]; one [ascii] stands for one character
        (code points 0..255).  Texts with characters beyond that range are
        outside the model.
      - A value decoded from JSON (and every [dict]/[list] built from such
        values) is a [json]; [None] is [JNull].  JSON floats are not
        modelled.
      - An instant is an integer number of microseconds since the epoch
        (the resolution of [datetime]).  The ISO-8601 text of a naive UTC
        [datetime] is ordered, as a string, like its instant, so [max] over
        such texts is [Z.max] over instants.
      - A Python [float] is an IEEE 754 binary64 number, with the
        arithmetic of the Standard Library's [SpecFloat]: the product
        [timestamp() * 1000] of the poller is rounded as Python rounds
        it.
      - [json.loads], [json.dumps], [str()] and the [re] engine are
        library code: they enter as the fields of a record [Lib].  What the
        AWS services answer during one invocation enters as the fields of a
        record [Env].
      - Code that raises lives in a state-and-exception monad; [print] and
        the calls made on the AWS clients are recorded in the state. *)

From Stdlib Require Import List String Ascii ZArith Bool Lia Arith DecimalString
  SpecFloat.
Import ListNotations.
Set Warnings "-register-all".
Open Scope string_scope.
Open Scope Z_scope.
Open Scope list_scope.

(** String concatenation, kept apart from list append. *)
Infix "+++" := String.append (at level 60, right associativity).

(* ===================================================================== *)
(** * Python values, exceptions and the effect monad                      *)
(* ===================================================================== *)

Module Py.

(** The exception classes the three handlers can meet. *)
Inductive exn : Type :=
| ValueError (msg : string)
| KeyError (key : string)
| TypeError (msg : string)
| AttributeError (msg : string)
| IndexError (msg : string)
| JSONDecodeError (msg : string)
| ResourceNotFoundException (msg : string)
| ParameterNotFound (msg : string)
| ClientError (msg : string)
| Exception (msg : string).

(** [str(e)].  A [KeyError] carries its key and shows the [repr] of it:
    for the keys these handlers subscript with (literals of the code,
    without quotes or escapes) that is the key between single quotes. *)
Definition str_exn (e : exn) : string :=
  match e with
  | KeyError key => "'" +++ key +++ "'"
  | ValueError m | TypeError m | AttributeError m
  | IndexError m | JSONDecodeError m | ResourceNotFoundException m
  | ParameterNotFound m | ClientError m | Exception m => m
  end.

Definition is_JSONDecodeError (e : exn) : bool :=
  match e with JSONDecodeError _ => true | _ => false end.

Definition is_ResourceNotFoundException (e : exn) : bool :=
  match e with ResourceNotFoundException _ => true | _ => false end.

Definition is_ParameterNotFound (e : exn) : bool :=
  match e with ParameterNotFound _ => true | _ => false end.

(** Values: what [json.loads] returns, and what the handlers build. *)
Inductive json : Type :=
| JNull
| JBool (b : bool)
| JNum (n : Z)
| JStr (s : string)
| JArr (items : list json)
| JObj (fields : list (string * json)).

(** A pure computation that may raise. *)
Definition result (A : Type) : Type := (exn + A)%type.

Notation "'let?' x ':=' e 'in' k" :=
  (match e with inl err => inl err | inr x => k end)
  (at level 10, x name, e at level 100, k at level 200).

(** ** Dictionaries

    A dict is the list of its entries in insertion order; the dicts met
    here come from [json.loads] or from dict displays with distinct keys,
    so a key occurs once. *)

Fixpoint dict_lookup (d : list (string * json)) (k : string) : option json :=
  match d with
  | [] => None
  | (k', v) :: d' => if String.eqb k' k then Some v else dict_lookup d' k
  end.

(** [d.get(k, default)] on a dict. *)
Definition dict_get (d : list (string * json)) (k : string) (default : json) : json :=
  match dict_lookup d k with Some v => v | None => default end.

(** [v.get(k, default)] on an arbitrary value: only a dict has [get]. *)
Definition py_get (v : json) (k : string) (default : json) : result json :=
  match v with
  | JObj d => inr (dict_get d k default)
  | _ => inl (AttributeError "object has no attribute 'get'")
  end.

(** [v[k]] with a string key. *)
Definition py_getitem (v : json) (k : string) : result json :=
  match v with
  | JObj d => match dict_lookup d k with
              | Some x => inr x
              | None => inl (KeyError k)
              end
  | JStr _ => inl (TypeError "string indices must be integers")
  | JArr _ => inl (TypeError "list indices must be integers or slices, not str")
  | _ => inl (TypeError "object is not subscriptable")
  end.

(** [v[0]]. *)
Definition py_getitem0 (v : json) : result json :=
  match v with
  | JArr (x :: _) => inr x
  | JArr [] => inl (IndexError "list index out of range")
  | JStr (String c _) => inr (JStr (String c EmptyString))
  | JStr EmptyString => inl (IndexError "string index out of range")
  | JObj d => inl (KeyError "0")
  | _ => inl (TypeError "object is not subscriptable")
  end.

(** Truth value of a value, as [if v:] takes it. *)
Definition truthy (v : json) : bool :=
  match v with
  | JNull => false
  | JBool b => b
  | JNum n => negb (n =? 0)
  | JStr s => negb (String.eqb s EmptyString)
  | JArr l => match l with [] => false | _ => true end
  | JObj d => match d with [] => false | _ => true end
  end.

(** [v == s] for a string literal [s]. *)
Definition eq_str (v : json) (s : string) : bool :=
  match v with JStr t => String.eqb t s | _ => false end.

(** ** Strings *)

(** [sub in s]. *)
Fixpoint str_in (sub s : string) : bool :=
  if String.prefix sub s then true
  else match s with
       | EmptyString => false
       | String _ s' => str_in sub s'
       end.

(** [c.lower()] on code points 0..255: A-Z and the Latin-1 capitals
    (U+00C0..U+00DE without the multiplication sign U+00D7). *)
Definition lower_char (c : ascii) : ascii :=
  let n := nat_of_ascii c in
  if ((65 <=? n) && (n <=? 90))%nat then ascii_of_nat (n + 32)
  else if ((192 <=? n) && (n <=? 222) && negb (n =? 215))%nat then ascii_of_nat (n + 32)
  else c.

Fixpoint lower (s : string) : string :=
  match s with
  | EmptyString => EmptyString
  | String c s' => String (lower_char c) (lower s')
  end.

(** [c.upper()] restricted to ASCII letters. *)
Definition upper_char (c : ascii) : ascii :=
  let n := nat_of_ascii c in
  if ((97 <=? n) && (n <=? 122))%nat then ascii_of_nat (n - 32) else c.

Fixpoint upper (s : string) : string :=
  match s with
  | EmptyString => EmptyString
  | String c s' => String (upper_char c) (upper s')
  end.

(** [s[:n]]. *)
Fixpoint str_take (n : nat) (s : string) : string :=
  match n, s with
  | O, _ => EmptyString
  | S n', EmptyString => EmptyString
  | S n', String c s' => String c (str_take n' s')
  end.

(** [s[n:]]. *)
Fixpoint str_drop (n : nat) (s : string) : string :=
  match n, s with
  | O, _ => s
  | S n', EmptyString => EmptyString
  | S n', String _ s' => str_drop n' s'
  end.

(** ** The monad: a state [S], and a result or a raised exception *)

Section Monad.
Context {S : Type}.

Definition M (A : Type) : Type := S -> result A * S.

Definition ret {A} (a : A) : M A := fun s => (inr a, s).

Definition raise {A} (e : exn) : M A := fun s => (inl e, s).

Definition bind {A B} (c : M A) (k : A -> M B) : M B :=
  fun s => match c s with
           | (inr a, s') => k a s'
           | (inl e, s') => (inl e, s')
           end.

(** [try: c  except <sel>: h]; an exception [sel] rejects goes on up. *)
Definition try_except {A} (c : M A) (sel : exn -> bool) (h : exn -> M A) : M A :=
  fun s => match c s with
           | (inr a, s') => (inr a, s')
           | (inl e, s') => if sel e then h e s' else (inl e, s')
           end.

Definition lift {A} (r : result A) : M A := fun s => (r, s).

Definition modify (f : S -> S) : M unit := fun s => (inr tt, f s).

Definition gets {A} (f : S -> A) : M A := fun s => (inr (f s), s).
End Monad.

Arguments M : clear implicits.

(** [wp c s Q]: running [c] from [s] ends in a result and a state that
    satisfy [Q]. *)
Definition wp {S A : Type} (c : M S A) (s : S) (Q : result A -> S -> Prop) : Prop :=
  Q (fst (c s)) (snd (c s)).

Definition any_exception (_ : exn) : bool := true.

End Py.

Import Py.

Notation "x <- c ;; k" := (bind c (fun x => k))
  (at level 61, c at next level, right associativity).
Notation "c ;;; k" := (bind c (fun _ => k))
  (at level 61, right associativity).

(** [for x in l: body(x)]. *)
Fixpoint for_each {S A : Type} (l : list A) (body : A -> M S unit) : M S unit :=
  match l with
  | [] => ret tt
  | x :: l' => body x ;;; for_each l' body
  end.

(** Run [c] on the second component of a pair state: the first component
    holds a local mutable object of the enclosing function. *)
Definition on_snd {L S A : Type} (c : M S A) : M (L * S) A :=
  fun ls => let '(r, s') := c (snd ls) in (r, (fst ls, s')).

(** Allocate a local mutable object, run [c], and drop the object. *)
Definition with_local {L S A : Type} (init : L) (c : M (L * S) A) : M S A :=
  fun s => let '(r, ls) := c (init, s) in (r, snd ls).

(** The items [for x in v] goes through. *)
Definition py_iter (v : json) : result (list json) :=
  match v with
  | JArr l => inr l
  | JStr s => inr (map (fun c => JStr (String c EmptyString)) (list_ascii_of_string s))
  | JObj d => inr (map (fun kv => JStr (fst kv)) d)
  | _ => inl (TypeError "object is not iterable")
  end.

(** [str(n)] for a natural number. *)
Definition str_nat (n : nat) : string := NilZero.string_of_uint (Nat.to_uint n).

(** [str(n)] for an integer. *)
Definition str_Z (n : Z) : string := NilZero.string_of_int (Z.to_int n).

(** [len(s)] as an integer. *)
Definition len (s : string) : Z := Z.of_nat (String.length s).

(** Handlers answer with a status code and a body; [body] is the object
    the code hands to [json.dumps]. *)
Record response : Type := { statusCode : Z; body : json }.

(* ===================================================================== *)
(** * Python floats                                                       *)
(* ===================================================================== *)

(** A Python [float] is an IEEE 754 binary64 number.  Its arithmetic is
    taken from the Standard Library's specification of floating-point
    arithmetic ([SpecFloat]) at precision 53 and [emax] 1024: every
    operation rounds to the nearest float, ties to even. *)
Module Float64.

Definition prec : Z := 53.
Definition emax : Z := 1024.

(** [float(n)] for an integer [n]. *)
Definition of_Z (n : Z) : spec_float := binary_normalize prec emax n 0 false.

Definition add : spec_float -> spec_float -> spec_float := SFadd prec emax.
Definition mul : spec_float -> spec_float -> spec_float := SFmul prec emax.
Definition div : spec_float -> spec_float -> spec_float := SFdiv prec emax.

(** [int(x)]: the integer part, cut towards zero.  (Python raises on an
    infinity or a NaN; no instant of a [datetime] gives one.) *)
Definition to_Z (x : spec_float) : Z :=
  match x with
  | S754_finite s m e =>
      cond_Zopp s (match e with
                   | Z0 => Zpos m
                   | Zpos _ => Zpos m * 2 ^ e
                   | Zneg p => Zpos m / 2 ^ Zpos p
                   end)
  | _ => 0
  end.



End Float64.




(* ===================================================================== *)
(** * lambda/investigation_monitor/index.py                               *)
(* ===================================================================== *)

Module InvestigationMonitor.

(** Module-level configuration read from [os.environ]. *)
Record Config : Type := {
  CLIENT_NAME : string;
  CLIENT_ACCOUNT_ID : string;
  CENTRAL_EVENT_BUS_ARN : string;
  DEVOPS_AGENT_SPACE_ID : string;
  AWS_REGION : string;
  STATE_PARAMETER_NAME : string;
  TAGS : list (string * json)
}.

(** The three compiled regular expressions. *)
Inductive pattern : Type := IP_PATTERN | EMAIL_PATTERN | SECRET_PATTERN.

(** Library functions the module calls. *)
Record Lib : Type := {
  json_loads : string -> option json;        (* [None]: JSONDecodeError *)
  json_dumps : json -> string;
  py_str : json -> string;                   (* [str(v)] in an f-string *)
  isoformat : Z -> string;                   (* instant to ISO-8601 text *)
  re_sub : pattern -> string -> string -> string;  (* [P.sub(repl, text)] *)
  filter_matches : string -> bool            (* CloudWatch filter pattern
                                                'investigation_completed' *)
}.

(** One record of the CloudWatch log group: [timestamp] in milliseconds. *)
Record log_event : Type := { timestamp : Z; message : string }.

(** What the log group [/aws/devops-agent/investigations] is at the time
    of the call. *)
Inductive log_source : Type :=
| LogGroupMissing
| LogsFault (e : exn)
| LogGroup (events : list log_event).

(** What [events_client.put_events] answers. *)
Inductive put_reply : Type :=
| PutAccepted                         (* FailedEntryCount = 0 *)
| PutFailedEntry (error_code : string) (* FailedEntryCount > 0 *)
| PutException (e : exn).              (* the call itself raised *)

(** The outside world during one invocation.  [put_events_reply n] is the
    answer to the [n]-th call of [put_events] (counting from 0). *)
Record Env : Type := {
  now : Z;
  logs : log_source;
  put_events_reply : nat -> put_reply;
  ssm_get_fault : option string;   (* [get_parameter] fails with this error *)
  ssm_put_fault : option string    (* [put_parameter] fails with this error *)
}.

(** Lines written by [print]. *)
Inductive line : Type :=
| Triggered
| LastProcessedTime (t : Z)
| NoNewFound
| Found (n : nat)
| ErrorProcessing (investigation_id : json) (e : exn)
| ErrorInMonitor (e : exn)
| CouldNotParse (message : string)
| LogGroupNotFound
| ExpectedIfNoLogsYet
| ErrorQuerying (e : exn)
| WarningLarge (event_size : Z)
| SentToCentral (investigation_id : json)
| EventSize (n : Z).

(** State across and within an invocation: the SSM parameter (the
    watermark), the calls made on the bus with their answers, the output. *)
Record State : Type := {
  ssm_param : option Z;
  bus : list (string * put_reply);
  out : list line
}.

(** The state after one more printed line. *)
Definition logged (l : line) (st : State) : State :=
  {| ssm_param := ssm_param st; bus := bus st; out := out st ++ [l] |}.

Definition print (l : line) : M State unit := modify (logged l).

(** The dict appended by [get_completed_investigations]. *)
Record investigation : Type := {
  investigation_id : json;
  severity : json;
  root_cause : json;
  affected_resources : json;
  completed_at : Z;
  duration_minutes : json
}.

(** ** State management *)

Definition ssm_get_parameter (env : Env) : M State Z :=
  fun st => match ssm_get_fault env with
            | Some msg => (inl (ClientError msg), st)
            | None => match ssm_param st with
                      | Some v => (inr v, st)
                      | None => (inl (ParameterNotFound "ParameterNotFound"), st)
                      end
            end.

Definition ssm_put_parameter (env : Env) (v : Z) : M State unit :=
  fun st => match ssm_put_fault env with
            | Some msg => (inl (ClientError msg), st)
            | None => (inr tt, {| ssm_param := Some v; bus := bus st; out := out st |})
            end.

Definition one_hour : Z := 3600 * 1000000.

Definition get_last_processed_time (env : Env) : M State Z :=
  try_except (ssm_get_parameter env) is_ParameterNotFound
    (fun _ => ret (now env - one_hour)).

Definition update_last_processed_time (env : Env) (timestamp : Z) : M State unit :=
  ssm_put_parameter env timestamp.

(** ** Polling *)

(** [logs_client.filter_log_events(logGroupName, startTime, filterPattern)]:
    the events of the group whose timestamp is not before [startTime]
    (CloudWatch Logs leaves out the events with a timestamp before it) and
    whose message matches the filter pattern.  The code reads the first
    page of the answer only; the model takes the answer as one page. *)
Definition filter_log_events (L : Lib) (env : Env) (startTime : Z)
  : result (list log_event) :=
  match logs env with
  | LogGroupMissing => inl (ResourceNotFoundException "log group does not exist")
  | LogsFault e => inl e
  | LogGroup events =>
      inr (filter (fun ev => (startTime <=? timestamp ev) && filter_matches L (message ev))
                  events)
  end.

(** [int(datetime.fromisoformat(since_time.replace('Z', '')).timestamp()
    * 1000)], with the process clock on UTC as in Lambda.  [timestamp()]
    of a naive [datetime] is the float sum of its whole seconds since the
    epoch and [microsecond / 1e6]; the product with 1000 is a float again,
    and [int] cuts it towards zero.  (A stored text that is not ISO-8601
    is outside the model.) *)
Definition since_timestamp_of (since_time : Z) : Z :=
  let seconds := since_time / 1000000 in
  let microsecond := since_time mod 1000000 in
  Float64.to_Z
    (Float64.mul
       (Float64.add (Float64.of_Z seconds)
                    (Float64.div (Float64.of_Z microsecond) (Float64.of_Z 1000000)))
       (Float64.of_Z 1000)).

(** [datetime.utcfromtimestamp(ts / 1000).isoformat()].  The float
    quotient is rounded to whole microseconds, which gives back the
    milliseconds of [ts] as long as the quotient stays below [2^33]
    seconds (the year 2242); later timestamps are outside the model. *)
Definition completed_at_of (ts : Z) : Z := ts * 1000.

Definition append_investigation (inv : investigation)
  : M (list investigation * State) unit :=
  modify (fun ls => (fst ls ++ [inv], snd ls)).

(** Body of [for event in response.get('events', [])]. *)
Definition scan_event (L : Lib) (event : log_event)
  : M (list investigation * State) unit :=
  let message := message event in
  try_except
    (investigation_data <-
       match json_loads L message with
       | Some v => ret v
       | None => raise (JSONDecodeError "Expecting value")
       end ;;
     status <- lift (py_get investigation_data "status" JNull) ;;
     if eq_str status "COMPLETED" then
       match investigation_data with
       | JObj d =>
           append_investigation
             {| investigation_id := dict_get d "investigation_id" JNull;
                severity := dict_get d "severity" (JStr "MEDIUM");
                root_cause := dict_get d "root_cause" (JStr EmptyString);
                affected_resources := dict_get d "affected_resources" (JArr []);
                completed_at := completed_at_of (timestamp event);
                duration_minutes := dict_get d "duration_minutes" (JNum 0) |}
       | _ => raise (AttributeError "object has no attribute 'get'")
       end
     else ret tt)
    is_JSONDecodeError
    (fun _ => on_snd (print (CouldNotParse message))).

Definition get_completed_investigations (L : Lib) (env : Env) (since_time : Z)
  : M State (list investigation) :=
  with_local []
    (try_except
       (let since_timestamp := since_timestamp_of since_time in
        events <- lift (filter_log_events L env since_timestamp) ;;
        for_each events (scan_event L))
       any_exception
       (fun e =>
          if is_ResourceNotFoundException e then
            on_snd (print LogGroupNotFound) ;;; on_snd (print ExpectedIfNoLogsYet)
          else on_snd (print (ErrorQuerying e))) ;;;
     gets fst).

(** ** Event formatting *)

(** [s.split(sep)] for a one-character separator. *)
Fixpoint split_on (sep : ascii) (s : string) : list string :=
  match s with
  | EmptyString => [EmptyString]
  | String c s' =>
      if Ascii.eqb c sep then EmptyString :: split_on sep s'
      else match split_on sep s' with
           | [] => [String c EmptyString]
           | p :: ps => String c p :: ps
           end
  end.

(** [s.replace(c, by)] for a one-character [c]. *)
Fixpoint replace_char (c : ascii) (by_ : string) (s : string) : string :=
  match s with
  | EmptyString => EmptyString
  | String a s' =>
      if Ascii.eqb a c then by_ +++ replace_char c by_ s'
      else String a (replace_char c by_ s')
  end.

(** [v[:n]]. *)
Definition py_slice_to (n : nat) (v : json) : result json :=
  match v with
  | JArr l => inr (JArr (firstn n l))
  | JStr s => inr (JStr (str_take n s))
  | JObj _ => inl (TypeError "unhashable type: 'slice'")
  | _ => inl (TypeError "object is not subscriptable")
  end.

Definition set_add (x : string) (types : list string) : list string :=
  if existsb (String.eqb x) types then types else types ++ [x].

(** One turn of the loop of [extract_resource_types]. *)
Definition add_resource_type (types : list string) (resource : json) : list string :=
  match resource with
  | JStr r =>
      if String.prefix "arn:" r then
        let parts := split_on ":" r in
        if (6 <=? List.length parts)%nat then
          let service := nth 2 parts EmptyString in
          set_add (upper service) types
        else types
      else types
  | _ => types
  end.

(** The set is listed in insertion order (Python leaves the order of
    [list(types)] unspecified). *)
Definition extract_resource_types (resources : json) : result json :=
  let? items := py_iter resources in
  inr (JArr (map JStr (fold_left add_resource_type items []))).

Definition any_keyword_in (keywords : list string) (text : string) : bool :=
  existsb (fun keyword => str_in keyword text) keywords.

Definition categorize_root_cause (root_cause : string) : string :=
  let root_cause_lower := lower root_cause in
  if any_keyword_in ["connection"; "timeout"; "network"] root_cause_lower then
    "network_connectivity"
  else if any_keyword_in ["memory"; "cpu"; "disk"; "capacity"] root_cause_lower then
    "resource_exhaustion"
  else if any_keyword_in ["permission"; "access"; "denied"; "unauthorized"] root_cause_lower then
    "permissions_issue"
  else if any_keyword_in ["deployment"; "version"; "rollout"] root_cause_lower then
    "deployment_issue"
  else if any_keyword_in ["dependency"; "service"; "downstream"] root_cause_lower then
    "dependency_failure"
  else
    "unknown".

Definition redact_sensitive_data (L : Lib) (text : string) : string :=
  let text := re_sub L IP_PATTERN "REDACTED_IP" text in
  let text := re_sub L EMAIL_PATTERN "REDACTED_EMAIL" text in
  let text := re_sub L SECRET_PATTERN "\1: REDACTED" text in
  text.

Definition generate_devops_agent_link (cfg : Config) (L : Lib) (investigation_id : json)
  : string :=
  "https://devops-agent.console.aws.amazon.com/spaces/" +++ DEVOPS_AGENT_SPACE_ID cfg
  +++ "/investigations/" +++ py_str L investigation_id +++ "?region=" +++ AWS_REGION cfg.

Definition generate_cloudwatch_logs_link (cfg : Config) : string :=
  let log_group := "/aws/devops-agent/investigations" in
  "https://console.aws.amazon.com/cloudwatch/home?region=" +++ AWS_REGION cfg
  +++ "#logsV2:log-groups/log-group/" +++ replace_char "/" "$252F" log_group.

(** The methods of [str] used on the root cause; any other value raises. *)
Definition as_str (method : string) (v : json) : result string :=
  match v with
  | JStr s => inr s
  | _ => inl (AttributeError ("object has no attribute '" +++ method +++ "'"))
  end.

(** The dict [event] built by [format_investigation_event], before the
    size check. *)
Definition build_event (cfg : Config) (L : Lib) (inv : investigation) : result json :=
  let investigation_id := investigation_id inv in
  let? first5 := py_slice_to 5 (affected_resources inv) in
  let? resource_types := extract_resource_types (affected_resources inv) in
  let? root_cause_text := as_str "lower" (root_cause inv) in
  let root_cause_category := categorize_root_cause root_cause_text in
  let root_cause_brief := redact_sensitive_data L (str_take 200 root_cause_text) in
  let summary :=
    JObj [ ("affected_resources", first5);
           ("resource_types", resource_types);
           ("duration_minutes", duration_minutes inv);
           ("root_cause_category", JStr root_cause_category);
           ("root_cause_brief", JStr root_cause_brief);
           ("mitigation_status", JStr "plan_generated") ] in
  let links :=
    JObj [ ("devops_agent_investigation",
              JStr (generate_devops_agent_link cfg L investigation_id));
           ("cloudwatch_logs", JStr (generate_cloudwatch_logs_link cfg));
           ("affected_application", dict_get (TAGS cfg) "application_url" (JStr EmptyString)) ] in
  inr (JObj [ ("event_type", JStr "investigation_completed");
              ("investigation_id", investigation_id);
              ("client_account_id", JStr (CLIENT_ACCOUNT_ID cfg));
              ("client_name", JStr (CLIENT_NAME cfg));
              ("timestamp", JStr (isoformat L (completed_at inv)));
              ("severity", severity inv);
              ("status", JStr "ROOT_CAUSE_FOUND");
              ("summary", summary);
              ("links", links);
              ("tags", JObj (TAGS cfg)) ]).

(** [json.dumps] escapes everything beyond ASCII, so the number of
    characters of its output is the number of bytes of its UTF-8
    encoding. *)
Definition WARN_SIZE : Z := 200000.
Definition MAX_SIZE : Z := 256000.

Definition format_investigation_event (cfg : Config) (L : Lib) (inv : investigation)
  : M State json :=
  event <- lift (build_event cfg L inv) ;;
  let event_size := len (json_dumps L event) in
  (if WARN_SIZE <? event_size then print (WarningLarge event_size) else ret tt) ;;;
  (if MAX_SIZE <? event_size
   then raise (ValueError ("Event size " +++ str_Z event_size
                           +++ " bytes exceeds EventBridge limit"))
   else ret tt) ;;;
  ret event.

(** ** Sending *)

(** [events_client.put_events(Entries=[{..., 'Detail': detail, ...}])]:
    the call is recorded with its answer. *)
Definition put_events (env : Env) (detail : string) : M State put_reply :=
  fun st =>
    let reply := put_events_reply env (List.length (bus st)) in
    (inr reply, {| ssm_param := ssm_param st;
                   bus := bus st ++ [(detail, reply)];
                   out := out st |}).

Definition send_to_central_eventbridge (L : Lib) (env : Env) (event : json)
  : M State unit :=
  reply <- put_events env (json_dumps L event) ;;
  match reply with
  | PutException e => raise e
  | PutFailedEntry code => raise (Exception ("Failed to send events: " +++ code))
  | PutAccepted =>
      id <- lift (py_getitem event "investigation_id") ;;
      print (SentToCentral id) ;;;
      print (EventSize (len (json_dumps L event)))
  end.

(** ** Handler *)

(** The loop of step 3; [processed_count] is threaded through. *)
Fixpoint process_investigations (cfg : Config) (L : Lib) (env : Env)
    (completed_investigations : list investigation) (processed_count : nat)
  : M State nat :=
  match completed_investigations with
  | [] => ret processed_count
  | investigation :: rest =>
      processed_count' <-
        try_except
          (formatted_event <- format_investigation_event cfg L investigation ;;
           send_to_central_eventbridge L env formatted_event ;;;
           ret (S processed_count))
          any_exception
          (fun e =>
             print (ErrorProcessing (investigation_id investigation) e) ;;;
             ret processed_count) ;;
      process_investigations cfg L env rest processed_count'
  end.

(** [max(inv['completed_at'] for inv in completed_investigations)] on a
    non-empty list. *)
Definition max_completed_at (first : investigation) (rest : list investigation) : Z :=
  fold_left Z.max (map completed_at rest) (completed_at first).

Definition handler (cfg : Config) (L : Lib) (env : Env) : M State response :=
  print Triggered ;;;
  try_except
    (last_processed_time <- get_last_processed_time env ;;
     print (LastProcessedTime last_processed_time) ;;;
     completed_investigations <- get_completed_investigations L env last_processed_time ;;
     match completed_investigations with
     | [] =>
         print NoNewFound ;;;
         ret {| statusCode := 200;
                body := JObj [ ("message", JStr "No new investigations");
                               ("client", JStr (CLIENT_NAME cfg)) ] |}
     | first :: rest =>
         print (Found (List.length completed_investigations)) ;;;
         processed_count <-
           process_investigations cfg L env completed_investigations 0 ;;
         (let latest_time := max_completed_at first rest in
          update_last_processed_time env latest_time) ;;;
         ret {| statusCode := 200;
                body := JObj [ ("message", JStr ("Processed " +++ str_nat processed_count
                                                  +++ " investigations"));
                               ("client", JStr (CLIENT_NAME cfg));
                               ("processed_count", JNum (Z.of_nat processed_count)) ] |}
     end)
    any_exception
    (fun e => print (ErrorInMonitor e) ;;; raise e).

(** The details the bus accepted. *)
Definition forwarded (st : State) : list string :=
  map fst (filter (fun c => match snd c with PutAccepted => true | _ => false end)
                  (bus st)).

(** The answer of a cycle that found nothing. *)
Definition no_new_investigations (cfg : Config) : response :=
  {| statusCode := 200;
     body := JObj [ ("message", JStr "No new investigations");
                    ("client", JStr (CLIENT_NAME cfg)) ] |}.

(** The log query did not come back with events. *)
Definition query_failed (env : Env) : bool :=
  match logs env with LogGroup _ => false | _ => true end.

(** An instant that is a whole number of milliseconds, as every
    [completed_at] is. *)
Definition whole_ms (t : Z) : Prop := exists k, t = k * 1000.





(** Order on the content of the parameter: absent, then by instant. *)
Definition watermark_le (a b : option Z) : Prop :=
  match a, b with
  | None, _ => True
  | Some x, Some y => x <= y
  | Some _, None => False
  end.


(** ** Vocabulary of the properties *)

(** What a step leaves alone: the parameter and the bus. *)
Definition same_store (st st' : State) : Prop :=
  ssm_param st' = ssm_param st /\ bus st' = bus st.

(** An investigation completed at a whole millisecond not before [start]
    (milliseconds). *)
Definition after_ms (start : Z) (inv : investigation) : Prop :=
  start * 1000 <= completed_at inv /\ whole_ms (completed_at inv).

(** Every investigation gathered so far stems from a log event not
    before [start]. *)
Definition gathered_from (start : Z) (st0 : State) (ls : list investigation * State)
  : Prop :=
  same_store st0 (snd ls) /\ Forall (after_ms start) (fst ls).

(** The state after the [try] statement of the poller. *)
Definition polled (env : Env) (start : Z) (st0 : State)
    (ls : list investigation * State) : Prop :=
  gathered_from start st0 ls /\ (query_failed env = true -> fst ls = []).

(** The calls a state has recorded beyond those of an earlier state, all
    of them with a detail within the limit. *)
Definition bus_extends (st st' : State) : Prop :=
  ssm_param st' = ssm_param st /\
  exists calls, bus st' = bus st ++ calls /\
                Forall (fun c => len (fst c) <= MAX_SIZE) calls.

(** What one invocation does to the parameter and to the bus. *)
Definition cycle_outcome (cfg : Config) (env : Env) (st : State)
    (r : result response) (st' : State) : Prop :=
  (exists calls, bus st' = bus st ++ calls /\
                 Forall (fun c => len (fst c) <= MAX_SIZE) calls) /\
  (ssm_param st' = ssm_param st \/
   exists since first rest,
     match ssm_param st with
     | Some v => since = v
     | None => since = now env - one_hour
     end /\
     Forall (after_ms (since_timestamp_of since)) (first :: rest) /\
     ssm_param st' = Some (max_completed_at first rest)) /\
  (query_failed env = true ->
   ssm_param st' = ssm_param st /\ bus st' = bus st /\
   (ssm_get_fault env = None -> r = inr (no_new_investigations cfg))).


End InvestigationMonitor.

(* ===================================================================== *)
(** * Helpers shared by the two central-side handlers                     *)
(* ===================================================================== *)

Module Text.

(** [chr(10)] and the double quote. *)
Definition nl : string := String (ascii_of_nat 10) EmptyString.
Definition dq : string := String (ascii_of_nat 34) EmptyString.

(** [sep.join(parts)]. *)
Fixpoint join (sep : string) (parts : list string) : string :=
  match parts with
  | [] => EmptyString
  | [p] => p
  | p :: ps => p +++ sep +++ join sep ps
  end.

(** The items of a value when every one of them is a [str]. *)
Fixpoint all_str (items : list json) : result (list string) :=
  match items with
  | [] => inr []
  | JStr s :: items' => let? ss := all_str items' in inr (s :: ss)
  | _ :: _ => inl (TypeError "sequence item: expected str instance")
  end.

(** [sep.join(v)] on an arbitrary value. *)
Definition py_join (sep : string) (v : json) : result string :=
  let? items := py_iter v in
  let? ss := all_str items in
  inr (join sep ss).

(** Characters [str.strip()] removes, among code points 0..255. *)
Definition is_space (c : ascii) : bool :=
  let n := nat_of_ascii c in
  (((9 <=? n) && (n <=? 13)) || ((28 <=? n) && (n <=? 32))
   || (n =? 133) || (n =? 160))%nat.

Fixpoint lstrip (s : string) : string :=
  match s with
  | EmptyString => EmptyString
  | String c s' => if is_space c then lstrip s' else s
  end.

Fixpoint rev_str (s acc : string) : string :=
  match s with
  | EmptyString => acc
  | String c s' => rev_str s' (String c acc)
  end.

Definition rstrip (s : string) : string :=
  rev_str (lstrip (rev_str s EmptyString)) EmptyString.

Definition strip (s : string) : string := rstrip (lstrip s).

Definition startswith (s pre : string) : bool := String.prefix pre s.

Definition endswith (s suf : string) : bool :=
  String.prefix (rev_str suf EmptyString) (rev_str s EmptyString).

(** [s[:-n]]. *)
Definition drop_last (n : nat) (s : string) : string :=
  str_take (String.length s - n) s.

End Text.

Import Text.

(* ===================================================================== *)
(** * lambda/simple_routing/index.py                                      *)
(* ===================================================================== *)

Module SimpleRouting.

Record Config : Type := {
  INVESTIGATIONS_TABLE_NAME : string;
  ALERT_TOPIC_ARN : string;
  PAGERDUTY_SECRET_NAME : string;
  JIRA_SECRET_NAME : string;
  ENVIRONMENT : string
}.

Record Lib : Type := {
  json_loads : string -> option json;    (* [None]: JSONDecodeError *)
  py_str : json -> string                (* [str(v)] in an f-string *)
}.

(** The outside world during one invocation. *)
Record Env : Type := {
  utcnow : string;                               (* utcnow().isoformat() *)
  put_item_fault : option exn;                   (* DynamoDB write *)
  get_secret_value : string -> result string;    (* the SecretString *)
  sns_publish_fault : option exn
}.

(** Calls made on the AWS clients, in order. *)
Inductive call : Type :=
| PutItem (item : json)
| GetSecretValue (secret_id : string)
| SnsPublish (topic_arn subject message : string).

Inductive line : Type :=
| Triggered
| EventLine (event : json)
| Stored (investigation_id : json)
| WouldPage (service_id investigation_id : json)
| SeverityLine (severity : json)
| ClientLine (client_name : json)
| ErrorPaging (e : exn)
| WouldCreateTicket (project_key investigation_id : json)
| SummaryLine (root_cause_brief : json)
| ErrorCreatingTicket (e : exn)
| SentAlert (investigation_id : json)
| RoutingComplete (investigation_id : json) (actions_taken : list string)
| ErrorInRouting (e : exn).

Record State : Type := { calls : list call; out : list line }.

Definition print (l : line) : M State unit :=
  modify (fun st => {| calls := calls st; out := out st ++ [l] |}).

Definition record (c : call) : M State unit :=
  modify (fun st => {| calls := calls st ++ [c]; out := out st |}).

Definition fail_if (fault : option exn) : M State unit :=
  match fault with Some e => raise e | None => ret tt end.

(** The [item] dict of [store_investigation]. *)
Definition build_item (cfg : Config) (env : Env) (investigation : json) : result json :=
  let? investigation_id := py_getitem investigation "investigation_id" in
  let? timestamp := py_getitem investigation "timestamp" in
  let? client_account_id := py_getitem investigation "client_account_id" in
  let? client_name := py_getitem investigation "client_name" in
  let? severity := py_getitem investigation "severity" in
  let? status := py_getitem investigation "status" in
  let? summary := py_getitem investigation "summary" in
  let? links := py_getitem investigation "links" in
  let? tags := py_get investigation "tags" (JObj []) in
  inr (JObj [ ("investigation_id", investigation_id);
              ("timestamp", timestamp);
              ("client_account_id", client_account_id);
              ("client_name", client_name);
              ("severity", severity);
              ("status", status);
              ("summary", summary);
              ("links", links);
              ("tags", tags);
              ("processed_at", JStr (utcnow env));
              ("environment", JStr (ENVIRONMENT cfg)) ]).

Definition store_investigation (cfg : Config) (env : Env) (investigation : json)
  : M State unit :=
  item <- lift (build_item cfg env investigation) ;;
  record (PutItem item) ;;;
  fail_if (put_item_fault env) ;;;
  id <- lift (py_getitem investigation "investigation_id") ;;
  print (Stored id).

(** [json.loads(secretsmanager_client.get_secret_value(SecretId=name)
    ['SecretString'])]. *)
Definition load_secret (L : Lib) (env : Env) (name : string) : M State json :=
  record (GetSecretValue name) ;;;
  secret_string <- lift (get_secret_value env name) ;;
  match json_loads L secret_string with
  | Some v => ret v
  | None => raise (JSONDecodeError "Expecting value")
  end.

Definition page_engineer (cfg : Config) (L : Lib) (env : Env) (investigation : json)
  : M State unit :=
  try_except
    (pagerduty_config <- load_secret L env (PAGERDUTY_SECRET_NAME cfg) ;;
     api_key <- lift (py_getitem pagerduty_config "api_key") ;;
     service_id <- lift (py_getitem pagerduty_config "service_id") ;;
     id <- lift (py_getitem investigation "investigation_id") ;;
     print (WouldPage service_id id) ;;;
     severity <- lift (py_getitem investigation "severity") ;;
     print (SeverityLine severity) ;;;
     client_name <- lift (py_getitem investigation "client_name") ;;
     print (ClientLine client_name))
    any_exception
    (fun e => print (ErrorPaging e)).

Definition create_jira_ticket (cfg : Config) (L : Lib) (env : Env) (investigation : json)
  : M State unit :=
  try_except
    (jira_config <- load_secret L env (JIRA_SECRET_NAME cfg) ;;
     api_token <- lift (py_getitem jira_config "api_token") ;;
     project_key <- lift (py_getitem jira_config "project_key") ;;
     id <- lift (py_getitem investigation "investigation_id") ;;
     print (WouldCreateTicket project_key id) ;;;
     summary <- lift (py_getitem investigation "summary") ;;
     brief <- lift (py_getitem summary "root_cause_brief") ;;
     print (SummaryLine brief))
    any_exception
    (fun e => print (ErrorCreatingTicket e)).

(** The two f-strings of [send_sns_alert]. *)
Definition alert_texts (L : Lib) (investigation : json) : result (string * string) :=
  let str := py_str L in
  let? severity := py_getitem investigation "severity" in
  let? client_name := py_getitem investigation "client_name" in
  let subject := "[" +++ str severity +++ "] Investigation Alert - " +++ str client_name in
  let? client_name := py_getitem investigation "client_name" in
  let? severity := py_getitem investigation "severity" in
  let? investigation_id := py_getitem investigation "investigation_id" in
  let? summary := py_getitem investigation "summary" in
  let? root_cause_brief := py_getitem summary "root_cause_brief" in
  let? resource_types := py_getitem summary "resource_types" in
  let? affected := py_join ", " resource_types in
  let? duration_minutes := py_getitem summary "duration_minutes" in
  let? links := py_getitem investigation "links" in
  let? devops_agent_investigation := py_getitem links "devops_agent_investigation" in
  let? cloudwatch_logs := py_getitem links "cloudwatch_logs" in
  let? timestamp := py_getitem investigation "timestamp" in
  let message :=
    nl +++ "Investigation Alert" +++ nl
    +++ "==================" +++ nl
    +++ nl
    +++ "Client: " +++ str client_name +++ nl
    +++ "Severity: " +++ str severity +++ nl
    +++ "Investigation ID: " +++ str investigation_id +++ nl
    +++ nl
    +++ "Root Cause: " +++ str root_cause_brief +++ nl
    +++ nl
    +++ "Affected Resources: " +++ affected +++ nl
    +++ "Duration: " +++ str duration_minutes +++ " minutes" +++ nl
    +++ nl
    +++ "Links:" +++ nl
    +++ "- DevOps Agent: " +++ str devops_agent_investigation +++ nl
    +++ "- CloudWatch Logs: " +++ str cloudwatch_logs +++ nl
    +++ nl
    +++ "Timestamp: " +++ str timestamp +++ nl in
  inr (subject, message).

Definition send_sns_alert (cfg : Config) (L : Lib) (env : Env) (investigation : json)
  : M State unit :=
  texts <- lift (alert_texts L investigation) ;;
  record (SnsPublish (ALERT_TOPIC_ARN cfg) (fst texts) (snd texts)) ;;;
  fail_if (sns_publish_fault env) ;;;
  id <- lift (py_getitem investigation "investigation_id") ;;
  print (SentAlert id).

Definition nonempty (s : string) : bool := negb (String.eqb s EmptyString).

Definition handler (cfg : Config) (L : Lib) (env : Env) (event : json)
  : M State response :=
  print Triggered ;;;
  print (EventLine event) ;;;
  try_except
    (detail <- lift (py_get event "detail" (JObj [])) ;;
     investigation_id <- lift (py_get detail "investigation_id" JNull) ;;
     severity <- lift (py_get detail "severity" (JStr "MEDIUM")) ;;
     client_name <- lift (py_get detail "client_name" (JStr "Unknown")) ;;
     (if negb (truthy investigation_id)
      then raise (ValueError "No investigation_id in event")
      else ret tt) ;;;
     store_investigation cfg env detail ;;;
     actions_taken <-
       (if eq_str severity "CRITICAL" || eq_str severity "HIGH" then
          a1 <- (if nonempty (PAGERDUTY_SECRET_NAME cfg)
                 then page_engineer cfg L env detail ;;; ret ["paged_engineer"]
                 else ret []) ;;
          a2 <- (if nonempty (JIRA_SECRET_NAME cfg)
                 then create_jira_ticket cfg L env detail ;;; ret (a1 ++ ["created_ticket"])
                 else ret a1) ;;
          send_sns_alert cfg L env detail ;;;
          ret (a2 ++ ["sent_alert"])
        else if eq_str severity "MEDIUM" then
          (if nonempty (JIRA_SECRET_NAME cfg)
           then create_jira_ticket cfg L env detail ;;; ret ["created_ticket"]
           else ret [])
        else ret []) ;;
     print (RoutingComplete investigation_id actions_taken) ;;;
     ret {| statusCode := 200;
            body := JObj [ ("message", JStr "Routing successful");
                           ("investigation_id", investigation_id);
                           ("actions", JArr (map JStr actions_taken)) ] |})
    any_exception
    (fun e => print (ErrorInRouting e) ;;; raise e).

(** The kinds of call, to speak of which channels were tried. *)
Definition is_put_item (c : call) : bool :=
  match c with PutItem _ => true | _ => false end.

Definition is_sns_publish (c : call) : bool :=
  match c with SnsPublish _ _ _ => true | _ => false end.

(** The secret look-ups and the actions of the paging and ticketing
    channels that the configuration enables for a CRITICAL or HIGH event. *)
Definition channel_calls (cfg : Config) : list call :=
  (if nonempty (PAGERDUTY_SECRET_NAME cfg)
   then [GetSecretValue (PAGERDUTY_SECRET_NAME cfg)] else [])
  ++ (if nonempty (JIRA_SECRET_NAME cfg)
      then [GetSecretValue (JIRA_SECRET_NAME cfg)] else []).

Definition channel_actions (cfg : Config) : list string :=
  (if nonempty (PAGERDUTY_SECRET_NAME cfg) then ["paged_engineer"] else [])
  ++ (if nonempty (JIRA_SECRET_NAME cfg) then ["created_ticket"] else []).

Definition routing_successful (investigation_id : json) (actions : list string)
  : response :=
  {| statusCode := 200;
     body := JObj [ ("message", JStr "Routing successful");
                    ("investigation_id", investigation_id);
                    ("actions", JArr (map JStr actions)) ] |}.

End SimpleRouting.

(* ===================================================================== *)
(** * lambda/pattern_detector/index.py                                    *)
(* ===================================================================== *)

Module PatternDetector.

Record Config : Type := {
  INVESTIGATIONS_TABLE_NAME : string;
  ALERT_TOPIC_ARN : string;
  BEDROCK_MODEL_ID : string;
  ENVIRONMENT : string
}.

Record Lib : Type := {
  json_loads : string -> option json;    (* [None]: JSONDecodeError *)
  json_dumps : json -> string;
  json_dumps_indent2 : json -> string;   (* [json.dumps(v, indent=2)] *)
  py_str : json -> string;               (* [str(v)] in an f-string *)
  isoformat : Z -> string                (* instant to ISO-8601 text *)
}.

(** The outside world during one invocation: the items of the
    investigation table, and what Bedrock and SNS answer.
    [invoke_model_reply request] is [response['body'].read()] for the
    request body [request], or the exception the call raises. *)
Record Env : Type := {
  now : Z;
  table : list json;
  scan_fault : option exn;
  invoke_model_reply : string -> result string;
  sns_publish_fault : option exn
}.

Inductive call : Type :=
| Scan (cutoff : string)
| InvokeModel (model_id request : string)
| SnsPublish (topic_arn subject message : string).

Inductive line : Type :=
| Triggered
| FoundRecent (n : nat)
| NotEnough
| ErrorCallingBedrock (e : exn)
| ErrorParsing (e : exn)
| ResponseText (response_text : json)
| SentPatternAlert
| ErrorInDetection (e : exn).

Record State : Type := { calls : list call; out : list line }.

Definition print (l : line) : M State unit :=
  modify (fun st => {| calls := calls st; out := out st ++ [l] |}).

Definition record (c : call) : M State unit :=
  modify (fun st => {| calls := calls st ++ [c]; out := out st |}).

Definition fail_if (fault : option exn) : M State unit :=
  match fault with Some e => raise e | None => ret tt end.

Definition hours (n : Z) : Z := n * 3600 * 1000000.

(** The filter expression [#ts >= :cutoff] on one item: the attribute must
    be there and be a string, and strings compare by code point. *)
Definition ts_not_before (cutoff : string) (item : json) : bool :=
  match item with
  | JObj d => match dict_lookup d "timestamp" with
              | Some (JStr ts) => String.leb cutoff ts
              | _ => false
              end
  | _ => false
  end.

(** One [scan] call (the code reads a single page of results). *)
Definition query_recent_investigations (L : Lib) (env : Env) (hours_ : Z)
  : M State (list json) :=
  let cutoff_time := isoformat L (now env - hours hours_) in
  record (Scan cutoff_time) ;;;
  fail_if (scan_fault env) ;;;
  ret (filter (ts_not_before cutoff_time) (table env)).

(** One entry of [investigations_summary]. *)
Definition summary_entry (inv : json) : result json :=
  let? client := py_getitem inv "client_name" in
  let? severity := py_getitem inv "severity" in
  let? summary := py_getitem inv "summary" in
  let? root_cause_category := py_getitem summary "root_cause_category" in
  let? summary' := py_getitem inv "summary" in
  let? resource_types := py_getitem summary' "resource_types" in
  let? timestamp := py_getitem inv "timestamp" in
  inr (JObj [ ("client", client);
              ("severity", severity);
              ("root_cause_category", root_cause_category);
              ("resource_types", resource_types);
              ("timestamp", timestamp) ]).

Fixpoint summarize_all (investigations : list json) : result (list json) :=
  match investigations with
  | [] => inr []
  | inv :: rest =>
      let? entry := summary_entry inv in
      let? entries := summarize_all rest in
      inr (entry :: entries)
  end.

Definition prompt_intro : string :=
  "You are a senior cloud engineer analyzing incidents across multiple clients."
  +++ nl +++ nl +++ "Recent investigations (last 24 hours):" +++ nl.

Definition prompt_tasks : string :=
  nl +++ nl +++ "Tasks:" +++ nl
  +++ "1. Identify if multiple clients are affected by the same underlying issue" +++ nl
  +++ "2. Detect common patterns in root causes" +++ nl
  +++ "3. Assess if this indicates a broader AWS service issue or regional problem" +++ nl
  +++ "4. Provide actionable recommendations" +++ nl
  +++ nl
  +++ "Respond in JSON format:" +++ nl
  +++ "{" +++ nl
  +++ "    " +++ dq +++ "patterns_detected" +++ dq +++ ": boolean," +++ nl
  +++ "    " +++ dq +++ "pattern_description" +++ dq +++ ": " +++ dq +++ "string" +++ dq
      +++ "," +++ nl
  +++ "    " +++ dq +++ "affected_clients" +++ dq +++ ": [" +++ dq
      +++ "list of client names" +++ dq +++ "]," +++ nl
  +++ "    " +++ dq +++ "recommended_actions" +++ dq +++ ": [" +++ dq
      +++ "list of actions" +++ dq +++ "]," +++ nl
  +++ "    " +++ dq +++ "escalation_needed" +++ dq +++ ": boolean," +++ nl
  +++ "    " +++ dq +++ "confidence" +++ dq +++ ": " +++ dq +++ "HIGH|MEDIUM|LOW" +++ dq +++ nl
  +++ "}".

Definition build_analysis_prompt (L : Lib) (investigations : list json) : result string :=
  let? investigations_summary := summarize_all investigations in
  inr (prompt_intro +++ json_dumps_indent2 L (JArr investigations_summary) +++ prompt_tasks).

(** The analysis returned when the response text is not JSON. *)
Definition parse_failure : json :=
  JObj [ ("patterns_detected", JBool false);
         ("error", JStr "Failed to parse Bedrock response") ].

(** The analysis returned when the [try] block of
    [analyze_patterns_with_bedrock] raises [e]. *)
Definition call_failure (e : exn) : json :=
  JObj [ ("patterns_detected", JBool false); ("error", JStr (str_exn e)) ].

Definition FENCE_JSON : string := "```json".
Definition FENCE : string := "```".

(** The text handed to [json.loads]: the response text without the
    markdown code fence. *)
Definition clean_response_text (text : string) : string :=
  let cleaned := strip text in
  let cleaned := if startswith cleaned FENCE_JSON then str_drop 7 cleaned else cleaned in
  let cleaned := if endswith cleaned FENCE then drop_last 3 cleaned else cleaned in
  strip cleaned.

Definition parse_bedrock_response (L : Lib) (response_text : json) : M State json :=
  try_except
    (text <- lift (match response_text with
                   | JStr s => inr s
                   | _ => inl (AttributeError "object has no attribute 'strip'")
                   end) ;;
     match json_loads L (clean_response_text text) with
     | Some analysis => ret analysis
     | None => raise (JSONDecodeError "Expecting value")
     end)
    is_JSONDecodeError
    (fun e =>
       print (ErrorParsing e) ;;;
       print (ResponseText response_text) ;;;
       ret parse_failure).

(** The request body handed to [bedrock.invoke_model]. *)
Definition request_body (L : Lib) (prompt : string) : string :=
  json_dumps L
    (JObj [ ("anthropic_version", JStr "bedrock-2023-05-31");
            ("max_tokens", JNum 2000);
            ("messages", JArr [ JObj [ ("role", JStr "user");
                                       ("content", JStr prompt) ] ]) ]).

Definition invoke_model (cfg : Config) (env : Env) (request : string) : M State string :=
  record (InvokeModel (BEDROCK_MODEL_ID cfg) request) ;;;
  lift (invoke_model_reply env request).

(** The [try] block of [analyze_patterns_with_bedrock]. *)
Definition call_and_parse (cfg : Config) (L : Lib) (env : Env) (prompt : string)
  : M State json :=
  response <- invoke_model cfg env (request_body L prompt) ;;
  response_body <- match json_loads L response with
                   | Some v => ret v
                   | None => raise (JSONDecodeError "Expecting value")
                   end ;;
  content <- lift (py_getitem response_body "content") ;;
  first <- lift (py_getitem0 content) ;;
  analysis_text <- lift (py_getitem first "text") ;;
  analysis <- parse_bedrock_response L analysis_text ;;
  ret analysis.

Definition analyze_patterns_with_bedrock (cfg : Config) (L : Lib) (env : Env)
    (investigations : list json) : M State json :=
  prompt <- lift (build_analysis_prompt L investigations) ;;
  try_except
    (call_and_parse cfg L env prompt)
    any_exception
    (fun e => print (ErrorCallingBedrock e) ;;; ret (call_failure e)).

(** One [f"- {action}"] per recommended action. *)
Definition action_lines (L : Lib) (actions : json) : result (list string) :=
  let? items := py_iter actions in
  inr (map (fun action => "- " +++ py_str L action) items).

(** The message of [alert_senior_engineer]. *)
Definition pattern_alert_message (L : Lib) (analysis : json) : result string :=
  let str := py_str L in
  let? pattern_description := py_get analysis "pattern_description" (JStr "Unknown") in
  let? affected_clients := py_get analysis "affected_clients" (JArr []) in
  let? clients := py_join ", " affected_clients in
  let? recommended_actions := py_get analysis "recommended_actions" (JArr []) in
  let? actions := action_lines L recommended_actions in
  let? escalation_needed := py_get analysis "escalation_needed" (JBool false) in
  let? confidence := py_get analysis "confidence" (JStr "UNKNOWN") in
  inr (nl +++ "Pattern Detection Alert" +++ nl
       +++ "=======================" +++ nl
       +++ nl
       +++ "Pattern: " +++ str pattern_description +++ nl
       +++ nl
       +++ "Affected Clients: " +++ clients +++ nl
       +++ nl
       +++ "Recommended Actions:" +++ nl
       +++ join nl actions +++ nl
       +++ nl
       +++ "Escalation Needed: " +++ str escalation_needed +++ nl
       +++ "Confidence: " +++ str confidence +++ nl
       +++ nl
       +++ "This indicates a potential broader issue affecting multiple clients." +++ nl
       +++ "Please review the investigations and coordinate response." +++ nl).

Definition alert_senior_engineer (cfg : Config) (L : Lib) (env : Env) (analysis : json)
  : M State unit :=
  let subject := "[PATTERN DETECTED] Multiple Client Incident Correlation" in
  message <- lift (pattern_alert_message L analysis) ;;
  record (SnsPublish (ALERT_TOPIC_ARN cfg) subject message) ;;;
  fail_if (sns_publish_fault env) ;;;
  print SentPatternAlert.

Definition insufficient_data : response :=
  {| statusCode := 200;
     body := JObj [ ("message", JStr "Insufficient data for pattern detection") ] |}.

Definition handler (cfg : Config) (L : Lib) (env : Env) (event : json)
  : M State response :=
  print Triggered ;;;
  try_except
    (detail <- lift (py_get event "detail" (JObj [])) ;;
     investigation_id <- lift (py_get detail "investigation_id" JNull) ;;
     (if negb (truthy investigation_id)
      then raise (ValueError "No investigation_id in event")
      else ret tt) ;;;
     recent_investigations <- query_recent_investigations L env 24 ;;
     print (FoundRecent (List.length recent_investigations)) ;;;
     if (List.length recent_investigations <? 3)%nat then
       print NotEnough ;;;
       ret insufficient_data
     else
       analysis <- analyze_patterns_with_bedrock cfg L env recent_investigations ;;
       detected <- lift (py_get analysis "patterns_detected" JNull) ;;
       (if truthy detected then alert_senior_engineer cfg L env analysis else ret tt) ;;;
       patterns_detected <- lift (py_get analysis "patterns_detected" (JBool false)) ;;
       ret {| statusCode := 200;
              body := JObj [ ("message", JStr "Pattern analysis complete");
                             ("patterns_detected", patterns_detected);
                             ("investigation_id", investigation_id) ] |})
    any_exception
    (fun e => print (ErrorInDetection e) ;;; raise e).

Definition is_invoke_model (c : call) : bool :=
  match c with InvokeModel _ _ => true | _ => false end.

(** The number of classifier calls recorded in a state. *)
Definition classifier_calls (st : State) : nat :=
  List.length (filter is_invoke_model (calls st)).

(** The outcome of the [try] block of [analyze_patterns_with_bedrock] for
    a prompt, read off the answers of the environment. *)
Definition classify (L : Lib) (env : Env) (prompt : string) : result json :=
  let? response := invoke_model_reply env (request_body L prompt) in
  let? response_body := match json_loads L response with
                        | Some v => inr v
                        | None => inl (JSONDecodeError "Expecting value")
                        end in
  let? content := py_getitem response_body "content" in
  let? first := py_getitem0 content in
  let? analysis_text := py_getitem first "text" in
  match analysis_text with
  | JStr text => match json_loads L (clean_response_text text) with
                 | Some analysis => inr analysis
                 | None => inr parse_failure
                 end
  | _ => inl (AttributeError "object has no attribute 'strip'")
  end.

(** The analysis handed back for an outcome of the [try] block. *)
Definition analysis_of (outcome : result json) : json :=
  match outcome with
  | inr analysis => analysis
  | inl e => call_failure e
  end.

(** The two analyses that stand for a failed classifier call or parse. *)
Definition degraded (analysis : json) : Prop :=
  analysis = parse_failure \/ exists e, analysis = call_failure e.

(** The records of the trailing 24 hours. *)
Definition recent (L : Lib) (env : Env) : list json :=
  filter (ts_not_before (isoformat L (now env - hours 24))) (table env).

Definition analysis_complete (patterns_detected investigation_id : json) : response :=
  {| statusCode := 200;
     body := JObj [ ("message", JStr "Pattern analysis complete");
                    ("patterns_detected", patterns_detected);
                    ("investigation_id", investigation_id) ] |}.

(** What a pass does on an event with investigation id [id], depending on
    the number of recent records. *)
Definition pass_outcome (cfg : Config) (L : Lib) (env : Env) (id : json) (st : State)
    (r : result response) (st' : State) : Prop :=
  let scan := Scan (isoformat L (now env - hours 24)) in
  ((List.length (recent L env) < 3)%nat ->
   r = inr insufficient_data /\ calls st' = calls st ++ [scan])
  /\ ((3 <= List.length (recent L env))%nat ->
      forall prompt,
        build_analysis_prompt L (recent L env) = inr prompt ->
        let invoke := InvokeModel (BEDROCK_MODEL_ID cfg) (request_body L prompt) in
        (exists rest, calls st' = calls st ++ [scan; invoke] ++ rest
                      /\ Forall (fun c => is_invoke_model c = false) rest)
        /\ (degraded (analysis_of (classify L env prompt)) ->
            r = inr (analysis_complete (JBool false) id)
            /\ calls st' = calls st ++ [scan; invoke])).

End PatternDetector.

(* ===================================================================== *)
(** * The categorization rule as the design states it                     *)
(* ===================================================================== *)

Module Design.

(** The five categories in their fixed order, each with its keywords. *)
Definition CATEGORY_TABLE : list (string * list string) :=
  [ ("network_connectivity", ["connection"; "timeout"; "network"]);
    ("resource_exhaustion", ["memory"; "cpu"; "disk"; "capacity"]);
    ("permissions_issue", ["permission"; "access"; "denied"; "unauthorized"]);
    ("deployment_issue", ["deployment"; "version"; "rollout"]);
    ("dependency_failure", ["dependency"; "service"; "downstream"]) ].

(** A category matches a text when one of its keywords occurs in the text,
    letter case aside. *)
Definition category_matches (text : string) (row : string * list string) : bool :=
  InvestigationMonitor.any_keyword_in (snd row) (lower text).

(** First matching category in table order; [unknown] when none matches. *)
Definition categorize (text : string) : string :=
  match find (category_matches text) CATEGORY_TABLE with
  | Some row => fst row
  | None => "unknown"
  end.

End Design.

(* ===================================================================== *)
(** * Sample inputs                                                       *)
(* ===================================================================== *)

Module Sample.

(** A plain JSON printer and a decoder for the sample documents; they
    stand for [json.dumps] and [json.loads] in the examples. *)
Fixpoint dumps (v : json) : string :=
  match v with
  | JNull => "null"
  | JBool true => "true"
  | JBool false => "false"
  | JNum n => str_Z n
  | JStr s => dq +++ s +++ dq
  | JArr l => "[" +++ join ", " (map dumps l) +++ "]"
  | JObj d =>
      "{" +++ join ", " (map (fun kv => let '(k, x) := kv in
                                        dq +++ k +++ dq +++ ": " +++ dumps x) d)
      +++ "}"
  end.

Definition loads_from (documents : list json) (text : string) : option json :=
  find (fun v => String.eqb (dumps v) text) documents.

Definition py_str (v : json) : string :=
  match v with
  | JStr s => s
  | JNull => "None"
  | JBool true => "True"
  | JBool false => "False"
  | _ => dumps v
  end.

(** [doubled k s] is [s] repeated [2^k] times. *)
Fixpoint doubled (k : nat) (s : string) : string :=
  match k with
  | O => s
  | S k' => let t := doubled k' s in t +++ t
  end.

(** Instants used below, in microseconds: 2024-05-01 12:00:00 UTC and
    one minute later; and in milliseconds, as CloudWatch stamps events. *)
Definition noon : Z := 1714564800000000.
Definition noon_ms : Z := 1714564800000.
Definition noon_01_ms : Z := 1714564860000.

(** ISO-8601 text of the instants used below. *)
Definition iso (t : Z) : string :=
  if t =? noon then "2024-05-01T12:00:00"
  else if t =? noon + 60000000 then "2024-05-01T12:01:00"
  else if t =? noon - 86400000000 + 300000000 then "2024-04-30T12:05:00"
  else str_Z t.

(** ** Investigation monitor *)

Definition document (id severity : string) : json :=
  JObj [ ("event", JStr "investigation_completed");
         ("status", JStr "COMPLETED");
         ("investigation_id", JStr id);
         ("severity", JStr severity);
         ("root_cause", JStr "Connection timeout to database");
         ("affected_resources",
            JArr [JStr "arn:aws:lambda:us-east-1:111122223333:function:foo"]);
         ("duration_minutes", JNum 12) ].

Definition doc1 : json := document "inv-1" "HIGH".
Definition doc2 : json := document "inv-2" "MEDIUM".

Definition monitor_cfg : InvestigationMonitor.Config :=
  {| InvestigationMonitor.CLIENT_NAME := "acme";
     InvestigationMonitor.CLIENT_ACCOUNT_ID := "111122223333";
     InvestigationMonitor.CENTRAL_EVENT_BUS_ARN :=
       "arn:aws:events:us-east-1:999999999999:event-bus/client-investigations-dev";
     InvestigationMonitor.DEVOPS_AGENT_SPACE_ID := "space-1";
     InvestigationMonitor.AWS_REGION := "us-east-1";
     InvestigationMonitor.STATE_PARAMETER_NAME := "/devops/acme/last-processed";
     InvestigationMonitor.TAGS := [] |}.

Definition monitor_lib : InvestigationMonitor.Lib :=
  {| InvestigationMonitor.json_loads := loads_from [doc1; doc2];
     InvestigationMonitor.json_dumps := dumps;
     InvestigationMonitor.py_str := py_str;
     InvestigationMonitor.isoformat := iso;
     InvestigationMonitor.re_sub := fun _ _ text => text;
     InvestigationMonitor.filter_matches := str_in "investigation_completed" |}.

Definition log_of (ts : Z) (doc : json) : InvestigationMonitor.log_event :=
  {| InvestigationMonitor.timestamp := ts; InvestigationMonitor.message := dumps doc |}.

(** The store holds the watermark 12:00:00 and nothing was sent yet. *)
Definition monitor_start : InvestigationMonitor.State :=
  {| InvestigationMonitor.ssm_param := Some noon;
     InvestigationMonitor.bus := [];
     InvestigationMonitor.out := [] |}.

Definition monitor_env (source : InvestigationMonitor.log_source)
    (reply : nat -> InvestigationMonitor.put_reply) : InvestigationMonitor.Env :=
  {| InvestigationMonitor.now := noon + 5 * 60 * 1000000;
     InvestigationMonitor.logs := source;
     InvestigationMonitor.put_events_reply := reply;
     InvestigationMonitor.ssm_get_fault := None;
     InvestigationMonitor.ssm_put_fault := None |}.

(** One investigation completed at 12:01:00; the bus rejects the entry. *)
Definition env_bus_rejects : InvestigationMonitor.Env :=
  monitor_env (InvestigationMonitor.LogGroup [log_of noon_01_ms doc1])
              (fun _ => InvestigationMonitor.PutFailedEntry "InternalFailure").

(** The log query is refused. *)
Definition env_logs_denied : InvestigationMonitor.Env :=
  monitor_env (InvestigationMonitor.LogsFault (ClientError "AccessDeniedException"))
              (fun _ => InvestigationMonitor.PutAccepted).


(** Two investigations, at 12:00:00 and 12:01:00, both accepted. *)
Definition env_two : InvestigationMonitor.Env :=
  monitor_env (InvestigationMonitor.LogGroup [log_of noon_ms doc1; log_of noon_01_ms doc2])
              (fun _ => InvestigationMonitor.PutAccepted).

(** Two investigations, at 12:00:00 and 12:01:00; the bus rejects the
    first entry handed to it and accepts the next. *)
Definition env_first_rejected : InvestigationMonitor.Env :=
  monitor_env (InvestigationMonitor.LogGroup [log_of noon_ms doc1; log_of noon_01_ms doc2])
              (fun n => match n with
                        | O => InvestigationMonitor.PutFailedEntry "InternalFailure"
                        | S _ => InvestigationMonitor.PutAccepted
                        end).



(** 2038-08-07T03:14:08.002, stored as the watermark, while the log holds
    one investigation completed one millisecond earlier. *)
Definition in_2038 : Z := 2164763648002000.

Definition start_2038 : InvestigationMonitor.State :=
  {| InvestigationMonitor.ssm_param := Some in_2038;
     InvestigationMonitor.bus := [];
     InvestigationMonitor.out := [] |}.

Definition env_2038 : InvestigationMonitor.Env :=
  {| InvestigationMonitor.now := in_2038 + 5 * 60 * 1000000;
     InvestigationMonitor.logs := InvestigationMonitor.LogGroup [log_of 2164763648001 doc1];
     InvestigationMonitor.put_events_reply := fun _ => InvestigationMonitor.PutAccepted;
     InvestigationMonitor.ssm_get_fault := None;
     InvestigationMonitor.ssm_put_fault := None |}.

Definition inv_huge : InvestigationMonitor.investigation :=
  {| InvestigationMonitor.investigation_id := JStr "inv-huge";
     InvestigationMonitor.severity := JStr (doubled 18 "x");
     InvestigationMonitor.root_cause := JStr "Connection timeout to database";
     InvestigationMonitor.affected_resources :=
       JArr [JStr "arn:aws:lambda:us-east-1:111122223333:function:foo"];
     InvestigationMonitor.completed_at := noon;
     InvestigationMonitor.duration_minutes := JNum 12 |}.

Definition inv_small : InvestigationMonitor.investigation :=
  {| InvestigationMonitor.investigation_id := JStr "inv-2";
     InvestigationMonitor.severity := JStr "MEDIUM";
     InvestigationMonitor.root_cause := JStr "Connection timeout to database";
     InvestigationMonitor.affected_resources :=
       JArr [JStr "arn:aws:lambda:us-east-1:111122223333:function:foo"];
     InvestigationMonitor.completed_at := noon + 60000000;
     InvestigationMonitor.duration_minutes := JNum 12 |}.

(** The event formatted from [inv_huge]. *)
Definition event_huge : json :=
  match InvestigationMonitor.build_event monitor_cfg monitor_lib inv_huge with
  | inr event => event
  | inl _ => JNull
  end.

(** ** Deterministic router *)

Definition pagerduty_secret : json :=
  JObj [ ("api_key", JStr "pd-key"); ("service_id", JStr "PSVC1") ].

Definition jira_secret : json :=
  JObj [ ("api_token", JStr "jira-token"); ("project_key", JStr "OPS") ].

Definition router_lib : SimpleRouting.Lib :=
  {| SimpleRouting.json_loads := loads_from [pagerduty_secret; jira_secret];
     SimpleRouting.py_str := py_str |}.

Definition router_cfg (pagerduty jira : string) : SimpleRouting.Config :=
  {| SimpleRouting.INVESTIGATIONS_TABLE_NAME := "investigation-tracker-dev";
     SimpleRouting.ALERT_TOPIC_ARN :=
       "arn:aws:sns:us-east-1:999999999999:investigation-critical-alerts-dev";
     SimpleRouting.PAGERDUTY_SECRET_NAME := pagerduty;
     SimpleRouting.JIRA_SECRET_NAME := jira;
     SimpleRouting.ENVIRONMENT := "dev" |}.

(** The detail of a summary event as the monitor formats it. *)
Definition detail_of (id severity : string) : json :=
  JObj [ ("event_type", JStr "investigation_completed");
         ("investigation_id", JStr id);
         ("client_account_id", JStr "111122223333");
         ("client_name", JStr "acme");
         ("timestamp", JStr "2024-05-01T12:01:00");
         ("severity", JStr severity);
         ("status", JStr "ROOT_CAUSE_FOUND");
         ("summary",
            JObj [ ("affected_resources",
                      JArr [JStr "arn:aws:lambda:us-east-1:111122223333:function:foo"]);
                   ("resource_types", JArr [JStr "LAMBDA"]);
                   ("duration_minutes", JNum 12);
                   ("root_cause_category", JStr "network_connectivity");
                   ("root_cause_brief", JStr "Connection timeout to database");
                   ("mitigation_status", JStr "plan_generated") ]);
         ("links",
            JObj [ ("devops_agent_investigation", JStr "https://devops-agent.example/inv");
                   ("cloudwatch_logs", JStr "https://console.example/logs");
                   ("affected_application", JStr EmptyString) ]);
         ("tags", JObj []) ].

Definition event_of (id severity : string) : json :=
  JObj [ ("source", JStr "devops.investigation");
         ("detail-type", JStr "InvestigationCompleted");
         ("detail", detail_of id severity) ].

Definition secrets (name : string) : result string :=
  if String.eqb name "pagerduty/api-key" then inr (dumps pagerduty_secret)
  else if String.eqb name "jira/api-key" then inr (dumps jira_secret)
  else inl (ClientError "ResourceNotFoundException").

Definition router_env (sns_fault : option exn) : SimpleRouting.Env :=
  {| SimpleRouting.utcnow := "2024-05-01T12:05:00";
     SimpleRouting.put_item_fault := None;
     SimpleRouting.get_secret_value := secrets;
     SimpleRouting.sns_publish_fault := sns_fault |}.

Definition router_start : SimpleRouting.State :=
  {| SimpleRouting.calls := []; SimpleRouting.out := [] |}.

(** ** Pattern correlator *)

Definition record_at (id client ts : string) : json :=
  JObj [ ("investigation_id", JStr id);
         ("timestamp", JStr ts);
         ("client_account_id", JStr "111122223333");
         ("client_name", JStr client);
         ("severity", JStr "HIGH");
         ("status", JStr "ROOT_CAUSE_FOUND");
         ("summary",
            JObj [ ("resource_types", JArr [JStr "LAMBDA"]);
                   ("root_cause_category", JStr "network_connectivity");
                   ("root_cause_brief", JStr "Connection timeout to database") ]);
         ("links", JObj []);
         ("tags", JObj []) ].

(** The classifier answers with prose instead of JSON. *)
Definition garbled_response : json :=
  JObj [ ("content", JArr [ JObj [ ("type", JStr "text");
                                   ("text", JStr "I could not decide.") ] ]) ].

(** The classifier answers with JSON that is a list, not an object. *)
Definition list_response : json :=
  JObj [ ("content", JArr [ JObj [ ("type", JStr "text"); ("text", JStr "[]") ] ]) ].

Definition pattern_lib : PatternDetector.Lib :=
  {| PatternDetector.json_loads := loads_from [garbled_response; list_response; JArr []];
     PatternDetector.json_dumps := dumps;
     PatternDetector.json_dumps_indent2 := dumps;
     PatternDetector.py_str := py_str;
     PatternDetector.isoformat := iso |}.

Definition pattern_cfg : PatternDetector.Config :=
  {| PatternDetector.INVESTIGATIONS_TABLE_NAME := "investigation-tracker-dev";
     PatternDetector.ALERT_TOPIC_ARN :=
       "arn:aws:sns:us-east-1:999999999999:investigation-critical-alerts-dev";
     PatternDetector.BEDROCK_MODEL_ID := "anthropic.claude-3-sonnet";
     PatternDetector.ENVIRONMENT := "dev" |}.

(** It is 12:05:00 on 2024-05-01; the window starts 2024-04-30T12:05:00. *)
Definition pattern_env (items : list json) (reply : string -> result string)
  : PatternDetector.Env :=
  {| PatternDetector.now := noon + 300000000;
     PatternDetector.table := items;
     PatternDetector.scan_fault := None;
     PatternDetector.invoke_model_reply := reply;
     PatternDetector.sns_publish_fault := None |}.

(** Two records inside the window and one before it. *)
Definition two_recent : list json :=
  [ record_at "inv-1" "acme" "2024-05-01T12:01:00";
    record_at "inv-0" "acme" "2024-04-29T08:00:00";
    record_at "inv-2" "globex" "2024-05-01T09:30:00" ].

Definition three_recent : list json :=
  [ record_at "inv-1" "acme" "2024-05-01T12:01:00";
    record_at "inv-2" "globex" "2024-05-01T09:30:00";
    record_at "inv-3" "initech" "2024-04-30T18:00:00" ].

Definition env_two_recent : PatternDetector.Env :=
  pattern_env two_recent (fun _ => inl (ClientError "ThrottlingException")).

Definition env_classifier_down : PatternDetector.Env :=
  pattern_env three_recent (fun _ => inl (ClientError "ThrottlingException")).

Definition env_classifier_garbled : PatternDetector.Env :=
  pattern_env three_recent (fun _ => inr (dumps garbled_response)).

Definition env_classifier_list : PatternDetector.Env :=
  pattern_env three_recent (fun _ => inr (dumps list_response)).

Definition pattern_start : PatternDetector.State :=
  {| PatternDetector.calls := []; PatternDetector.out := [] |}.

End Sample.


(* ===================================================================== *)
(** * Descriptions of what the handlers do, used by the properties        *)
(* ===================================================================== *)

Module MonitorOutcome.
Import InvestigationMonitor.

(** The service named by a resource identifier: the third of at least six
    colon-separated segments of a text that starts with [arn:], in upper
    case. *)
Definition resource_type_of (resource : string) : option string :=
  if String.prefix "arn:" resource then
    let parts := split_on ":" resource in
    if (6 <=? List.length parts)%nat then Some (upper (nth 2 parts EmptyString))
    else None
  else None.

(** Values that [v[:5]] accepts; values that have [lower]. *)
Definition is_list_or_str (v : json) : bool :=
  match v with JArr _ | JStr _ => true | _ => false end.

Definition is_str (v : json) : bool :=
  match v with JStr _ => true | _ => false end.

(** The investigation read from the decoded message [d] of a log event
    stamped [ts] (milliseconds). *)
Definition investigation_of (d : list (string * json)) (ts : Z) : investigation :=
  {| investigation_id := dict_get d "investigation_id" JNull;
     severity := dict_get d "severity" (JStr "MEDIUM");
     root_cause := dict_get d "root_cause" (JStr EmptyString);
     affected_resources := dict_get d "affected_resources" (JArr []);
     completed_at := completed_at_of ts;
     duration_minutes := dict_get d "duration_minutes" (JNum 0) |}.

(** What the scan of the log events gathers, in log order: a message that
    is not JSON is passed over, an object contributes when its status is
    COMPLETED, and a message that decodes to anything but an object ends
    the scan with what was gathered before it. *)
Fixpoint gather (L : Lib) (events : list log_event) (acc : list investigation)
  : list investigation :=
  match events with
  | [] => acc
  | event :: rest =>
      match json_loads L (message event) with
      | None => gather L rest acc
      | Some (JObj d) =>
          if eq_str (dict_get d "status" JNull) "COMPLETED"
          then gather L rest (acc ++ [investigation_of d (timestamp event)])
          else gather L rest acc
      | Some _ => acc
      end
  end.

(** The result of a poll, read off the log source. *)
Definition poll_result (L : Lib) (env : Env) (since : Z) : list investigation :=
  match logs env with
  | LogGroup events =>
      gather L (filter (fun ev => (since_timestamp_of since <=? timestamp ev)
                                  && filter_matches L (message ev)) events) []
  | _ => []
  end.

(** The log events the query hands to the scan. *)
Definition returned (L : Lib) (env : Env) (since : Z) : list log_event :=
  match logs env with
  | LogGroup events =>
      filter (fun ev => (since_timestamp_of since <=? timestamp ev)
                        && filter_matches L (message ev)) events
  | _ => []
  end.

(** A message that is JSON but not an object: [investigation_data.get]
    raises on it, past the handler for [JSONDecodeError]. *)
Definition ends_scan (L : Lib) (event : log_event) : bool :=
  match json_loads L (message event) with
  | None | Some (JObj _) => false
  | Some _ => true
  end.

(** The events before the first one that ends the scan. *)
Fixpoint scanned (L : Lib) (events : list log_event) : list log_event :=
  match events with
  | [] => []
  | event :: rest => if ends_scan L event then [] else event :: scanned L rest
  end.

(** The investigation a scanned event contributes, if any. *)
Definition completed_of (L : Lib) (event : log_event) : option investigation :=
  match json_loads L (message event) with
  | Some (JObj d) =>
      if eq_str (dict_get d "status" JNull) "COMPLETED"
      then Some (investigation_of d (timestamp event))
      else None
  | _ => None
  end.

Definition contributions (L : Lib) (events : list log_event) : list investigation :=
  flat_map (fun ev => match completed_of L ev with
                      | Some inv => [inv]
                      | None => []
                      end) events.

Definition is_accepted (c : string * put_reply) : bool :=
  match snd c with PutAccepted => true | _ => false end.

(** The number of calls the bus accepted. *)
Definition accepted (calls : list (string * put_reply)) : nat :=
  List.length (filter is_accepted calls).

(** The answer of a cycle that went through the loop. *)
Definition processed (cfg : Config) (processed_count : nat) : response :=
  {| statusCode := 200;
     body := JObj [ ("message", JStr ("Processed " +++ str_nat processed_count
                                      +++ " investigations"));
                    ("client", JStr (CLIENT_NAME cfg));
                    ("processed_count", JNum (Z.of_nat processed_count)) ] |}.

(** The watermark a cycle works from. *)
Definition since_read (env : Env) (st : State) : Z :=
  match ssm_param st with
  | Some v => v
  | None => now env - one_hour
  end.

(** Calls made and count reached by the loop from [st] on. *)
Definition counted (st : State) (count : nat) (bound : nat)
    (r : result nat) (st' : State) : Prop :=
  ssm_param st' = ssm_param st
  /\ exists calls,
       bus st' = bus st ++ calls
       /\ (List.length calls <= bound)%nat
       /\ r = inr (count + accepted calls)%nat.

(** The outcome of one invocation, case by case. *)
Definition cycle_cases (cfg : Config) (L : Lib) (env : Env) (st : State)
    (r : result response) (st' : State) : Prop :=
  match ssm_get_fault env with
  | Some msg =>
      r = inl (ClientError msg) /\ ssm_param st' = ssm_param st /\ bus st' = bus st
  | None =>
      match poll_result L env (since_read env st) with
      | [] =>
          r = inr (no_new_investigations cfg)
          /\ ssm_param st' = ssm_param st /\ bus st' = bus st
      | first :: rest =>
          exists calls,
            bus st' = bus st ++ calls
            /\ (List.length calls <= List.length (first :: rest))%nat
            /\ match ssm_put_fault env with
               | Some msg =>
                   r = inl (ClientError msg) /\ ssm_param st' = ssm_param st
               | None =>
                   r = inr (processed cfg (accepted calls))
                   /\ ssm_param st' = Some (max_completed_at first rest)
               end
      end
  end.

End MonitorOutcome.

Module MoreSamples.

(** An investigation whose message carried [root_cause: null]. *)
Definition inv_null_cause : InvestigationMonitor.investigation :=
  {| InvestigationMonitor.investigation_id := JStr "inv-3";
     InvestigationMonitor.severity := JStr "LOW";
     InvestigationMonitor.root_cause := JNull;
     InvestigationMonitor.affected_resources := JArr [];
     InvestigationMonitor.completed_at := Sample.noon;
     InvestigationMonitor.duration_minutes := JNum 1 |}.

(** An investigation with seven affected resources. *)
Definition inv_seven : InvestigationMonitor.investigation :=
  {| InvestigationMonitor.investigation_id := JStr "inv-7";
     InvestigationMonitor.severity := JStr "LOW";
     InvestigationMonitor.root_cause := JStr "Disk full";
     InvestigationMonitor.affected_resources :=
       JArr [JStr "r1"; JStr "r2"; JStr "r3"; JStr "r4"; JStr "r5"; JStr "r6"; JStr "r7"];
     InvestigationMonitor.completed_at := Sample.noon;
     InvestigationMonitor.duration_minutes := JNum 1 |}.

(** A log message that is JSON, matches the filter, and is a list. *)
Definition list_doc : json := JArr [JStr "investigation_completed"].

Definition lib_with_list : InvestigationMonitor.Lib :=
  {| InvestigationMonitor.json_loads :=
       Sample.loads_from [Sample.doc1; Sample.doc2; list_doc];
     InvestigationMonitor.json_dumps := Sample.dumps;
     InvestigationMonitor.py_str := Sample.py_str;
     InvestigationMonitor.isoformat := Sample.iso;
     InvestigationMonitor.re_sub := fun _ _ text => text;
     InvestigationMonitor.filter_matches := str_in "investigation_completed" |}.

(** Such a message sits between two completed investigations. *)
Definition env_list_between : InvestigationMonitor.Env :=
  Sample.monitor_env
    (InvestigationMonitor.LogGroup
       [ Sample.log_of Sample.noon_ms Sample.doc1;
         Sample.log_of (Sample.noon_ms + 1000) list_doc;
         Sample.log_of Sample.noon_01_ms Sample.doc2 ])
    (fun _ => InvestigationMonitor.PutAccepted).

(** The parameter store refuses the read. *)
Definition env_store_down : InvestigationMonitor.Env :=
  {| InvestigationMonitor.now := Sample.noon + 5 * 60 * 1000000;
     InvestigationMonitor.logs :=
       InvestigationMonitor.LogGroup [Sample.log_of Sample.noon_01_ms Sample.doc1];
     InvestigationMonitor.put_events_reply := fun _ => InvestigationMonitor.PutAccepted;
     InvestigationMonitor.ssm_get_fault := Some "ThrottlingException";
     InvestigationMonitor.ssm_put_fault := None |}.

End MoreSamples.

Module RouterOutcome.
Import SimpleRouting.

(** The ticketing channel alone, as the MEDIUM branch uses it. *)
Definition ticket_calls (cfg : Config) : list call :=
  if nonempty (JIRA_SECRET_NAME cfg) then [GetSecretValue (JIRA_SECRET_NAME cfg)] else [].

Definition ticket_actions (cfg : Config) : list string :=
  if nonempty (JIRA_SECRET_NAME cfg) then ["created_ticket"] else [].

Definition is_high (severity : json) : bool :=
  eq_str severity "CRITICAL" || eq_str severity "HIGH".

(** The entries [store_investigation] reads with [investigation[...]]. *)
Definition REQUIRED_KEYS : list string :=
  [ "investigation_id"; "timestamp"; "client_account_id"; "client_name";
    "severity"; "status"; "summary"; "links" ].

Definition has_key (d : list (string * json)) (k : string) : bool :=
  match dict_lookup d k with Some _ => true | None => false end.

(** The outcome of routing an event whose detail is the dict [d], case by
    case. *)
Definition route_cases (cfg : Config) (L : Lib) (env : Env) (d : list (string * json))
    (st : State) (r : result response) (st' : State) : Prop :=
  let id := dict_get d "investigation_id" JNull in
  let severity := dict_get d "severity" (JStr "MEDIUM") in
  if negb (truthy id) then
    r = inl (ValueError "No investigation_id in event") /\ calls st' = calls st
  else
    match build_item cfg env (JObj d) with
    | inl e => r = inl e /\ calls st' = calls st
    | inr item =>
        match put_item_fault env with
        | Some e => r = inl e /\ calls st' = calls st ++ [PutItem item]
        | None =>
            if is_high severity then
              match alert_texts L (JObj d) with
              | inl e =>
                  r = inl e
                  /\ calls st' = calls st ++ [PutItem item] ++ channel_calls cfg
              | inr texts =>
                  calls st'
                  = calls st ++ [PutItem item] ++ channel_calls cfg
                    ++ [SnsPublish (ALERT_TOPIC_ARN cfg) (fst texts) (snd texts)]
                  /\ r = match sns_publish_fault env with
                         | Some e => inl e
                         | None => inr (routing_successful id
                                          (channel_actions cfg ++ ["sent_alert"]))
                         end
              end
            else if eq_str severity "MEDIUM" then
              r = inr (routing_successful id (ticket_actions cfg))
              /\ calls st' = calls st ++ [PutItem item] ++ ticket_calls cfg
            else
              r = inr (routing_successful id [])
              /\ calls st' = calls st ++ [PutItem item]
        end
    end.

End RouterOutcome.

Module RouterSamples.

(** A detail without the [links] entry. *)
Definition detail_without_links : json :=
  JObj [ ("investigation_id", JStr "inv-5");
         ("client_account_id", JStr "111122223333");
         ("client_name", JStr "acme");
         ("timestamp", JStr "2024-05-01T12:01:00");
         ("severity", JStr "HIGH");
         ("status", JStr "ROOT_CAUSE_FOUND");
         ("summary", JObj []) ].

(** A detail that can be stored but whose summary has no excerpt. *)
Definition detail_without_brief : json :=
  JObj [ ("investigation_id", JStr "inv-6");
         ("client_account_id", JStr "111122223333");
         ("client_name", JStr "acme");
         ("timestamp", JStr "2024-05-01T12:01:00");
         ("severity", JStr "HIGH");
         ("status", JStr "ROOT_CAUSE_FOUND");
         ("summary", JObj [ ("resource_types", JArr []) ]);
         ("links", JObj []) ].

Definition fields_of (v : json) : list (string * json) :=
  match v with JObj d => d | _ => [] end.

Definition env_table_down : SimpleRouting.Env :=
  {| SimpleRouting.utcnow := "2024-05-01T12:05:00";
     SimpleRouting.put_item_fault := Some (ClientError "ProvisionedThroughputExceeded");
     SimpleRouting.get_secret_value := Sample.secrets;
     SimpleRouting.sns_publish_fault := None |}.

End RouterSamples.

Module PatternOutcome.
Import PatternDetector.

Definition ALERT_SUBJECT : string :=
  "[PATTERN DETECTED] Multiple Client Incident Correlation".

(** The outcome of a correlation pass on an event whose detail is the
    dict [d], case by case. *)
Definition pass_cases (cfg : Config) (L : Lib) (env : Env) (d : list (string * json))
    (st : State) (r : result response) (st' : State) : Prop :=
  let id := dict_get d "investigation_id" JNull in
  let scan := Scan (isoformat L (now env - hours 24)) in
  if negb (truthy id) then
    r = inl (ValueError "No investigation_id in event") /\ calls st' = calls st
  else
    match scan_fault env with
    | Some e => r = inl e /\ calls st' = calls st ++ [scan]
    | None =>
        if (List.length (recent L env) <? 3)%nat then
          r = inr insufficient_data /\ calls st' = calls st ++ [scan]
        else
          match build_analysis_prompt L (recent L env) with
          | inl e => r = inl e /\ calls st' = calls st ++ [scan]
          | inr prompt =>
              let invoke := InvokeModel (BEDROCK_MODEL_ID cfg) (request_body L prompt) in
              match analysis_of (classify L env prompt) with
              | JObj a =>
                  let answer :=
                    analysis_complete (dict_get a "patterns_detected" (JBool false)) id in
                  if truthy (dict_get a "patterns_detected" JNull) then
                    match pattern_alert_message L (JObj a) with
                    | inl e => r = inl e /\ calls st' = calls st ++ [scan; invoke]
                    | inr message =>
                        calls st'
                        = calls st
                          ++ [scan; invoke;
                              SnsPublish (ALERT_TOPIC_ARN cfg) ALERT_SUBJECT message]
                        /\ r = match sns_publish_fault env with
                               | Some e => inl e
                               | None => inr answer
                               end
                    end
                  else r = inr answer /\ calls st' = calls st ++ [scan; invoke]
              | _ =>
                  r = inl (AttributeError "object has no attribute 'get'")
                  /\ calls st' = calls st ++ [scan; invoke]
              end
          end
    end.

(** Values that [for x in v] and [sep.join(v)] refuse. *)
Definition not_iterable (v : json) : bool :=
  match v with JNull | JBool _ | JNum _ => true | _ => false end.

(** The calls a pass can make, in the order of the code: the scan of the
    store, the classifier call for [prompt], the publish of [message]. *)
Definition pass_calls (cfg : Config) (L : Lib) (env : Env) (prompt message : string)
  : list call :=
  [ Scan (isoformat L (now env - hours 24));
    InvokeModel (BEDROCK_MODEL_ID cfg) (request_body L prompt);
    SnsPublish (ALERT_TOPIC_ARN cfg) ALERT_SUBJECT message ].

(** A record from which an entry of the prompt can be made. *)
Definition summarizable (inv : json) : bool :=
  match summary_entry inv with inr _ => true | inl _ => false end.

(** A text without white space at either end. *)
Definition first_char_ok (s : string) : bool :=
  match s with
  | EmptyString => true
  | String c _ => negb (is_space c)
  end.

Definition trimmed (s : string) : bool :=
  first_char_ok s && first_char_ok (rev_str s EmptyString).

End PatternOutcome.

Module PatternSamples.

(** The classifier reports a pattern across two clients. *)
Definition pattern_found : json :=
  JObj [ ("patterns_detected", JBool true);
         ("pattern_description", JStr "Same database timeout at two clients");
         ("affected_clients", JArr [JStr "acme"; JStr "globex"]);
         ("recommended_actions", JArr [JStr "Check the shared database"]);
         ("escalation_needed", JBool true);
         ("confidence", JStr "HIGH") ].

(** Its answer, the analysis wrapped in a code fence. *)
Definition fenced (text : string) : string :=
  "```json" +++ nl +++ text +++ nl +++ "```".

Definition found_response : json :=
  JObj [ ("content", JArr [ JObj [ ("type", JStr "text");
                                   ("text", JStr (fenced (Sample.dumps pattern_found))) ] ]) ].

Definition lib : PatternDetector.Lib :=
  {| PatternDetector.json_loads := Sample.loads_from [found_response; pattern_found];
     PatternDetector.json_dumps := Sample.dumps;
     PatternDetector.json_dumps_indent2 := Sample.dumps;
     PatternDetector.py_str := Sample.py_str;
     PatternDetector.isoformat := Sample.iso |}.

Definition env_pattern_found : PatternDetector.Env :=
  Sample.pattern_env Sample.three_recent (fun _ => inr (Sample.dumps found_response)).

Definition env_scan_down : PatternDetector.Env :=
  {| PatternDetector.now := Sample.noon + 300000000;
     PatternDetector.table := Sample.three_recent;
     PatternDetector.scan_fault := Some (ClientError "ProvisionedThroughputExceeded");
     PatternDetector.invoke_model_reply := fun _ => inl (ClientError "unused");
     PatternDetector.sns_publish_fault := None |}.



End PatternSamples.

(* ===================================================================== *)
(** * Properties                                                          *)
(* ===================================================================== *)

(** ** Rules for [wp] *)

Module MonadFacts.
Section Rules.
Context {S : Type}.

Lemma wp_ret {A} (a : A) (s : S) Q : Q (inr a) s -> wp (ret a) s Q.
Proof. exact (fun H => H). Qed.

Lemma wp_raise {A} (e : exn) (s : S) (Q : result A -> S -> Prop) :
  Q (inl e) s -> wp (raise e) s Q.
Proof. exact (fun H => H). Qed.

Lemma wp_lift {A} (r : result A) (s : S) Q : Q r s -> wp (lift r) s Q.
Proof. exact (fun H => H). Qed.

Lemma wp_modify (f : S -> S) (s : S) Q : Q (inr tt) (f s) -> wp (modify f) s Q.
Proof. exact (fun H => H). Qed.

Lemma wp_gets {A} (f : S -> A) (s : S) Q : Q (inr (f s)) s -> wp (gets f) s Q.
Proof. exact (fun H => H). Qed.

Lemma wp_bind {A B} (c : M S A) (k : A -> M S B) (s : S)
    (Q : result B -> S -> Prop) :
  wp c s (fun r s' => match r with
                      | inr a => wp (k a) s' Q
                      | inl e => Q (inl e) s'
                      end) ->
  wp (bind c k) s Q.
Proof.
  unfold wp, bind. destruct (c s) as [[e | a] s']; simpl; auto.
Qed.

Lemma wp_try {A} (c : M S A) (sel : exn -> bool) (h : exn -> M S A) (s : S)
    (Q : result A -> S -> Prop) :
  wp c s (fun r s' => match r with
                      | inr a => Q (inr a) s'
                      | inl e => if sel e then wp (h e) s' Q else Q (inl e) s'
                      end) ->
  wp (try_except c sel h) s Q.
Proof.
  unfold wp, try_except. destruct (c s) as [[e | a] s']; simpl; auto.
  destruct (sel e); auto.
Qed.

Lemma wp_mono {A} (c : M S A) (s : S) (Q Q' : result A -> S -> Prop) :
  wp c s Q -> (forall r s', Q r s' -> Q' r s') -> wp c s Q'.
Proof. unfold wp. auto. Qed.

Lemma wp_run {A} (c : M S A) (s : S) Q :
  wp c s Q -> Q (fst (c s)) (snd (c s)).
Proof. exact (fun H => H). Qed.

End Rules.
End MonadFacts.

Import MonadFacts.

(** ** Root-cause categorization *)

Module CategorizeFacts.
Import InvestigationMonitor.

Lemma lower_upper_char (c : ascii) : lower_char (upper_char c) = lower_char c.
Proof. destruct c as [[] [] [] [] [] [] [] []]; reflexivity. Qed.

Lemma lower_lower_char (c : ascii) : lower_char (lower_char c) = lower_char c.
Proof. destruct c as [[] [] [] [] [] [] [] []]; reflexivity. Qed.

Lemma lower_upper (s : string) : lower (upper s) = lower s.
Proof.
  induction s as [| c s IH]; simpl; [reflexivity |].
  now rewrite lower_upper_char, IH.
Qed.

Lemma lower_lower (s : string) : lower (lower s) = lower s.
Proof.
  induction s as [| c s IH]; simpl; [reflexivity |].
  now rewrite lower_lower_char, IH.
Qed.

(** The branches of the source and the table of the design agree. *)
Lemma categorize_root_cause_table (text : string) :
  categorize_root_cause text = Design.categorize text.
Proof.
  unfold categorize_root_cause, Design.categorize, Design.category_matches,
    Design.CATEGORY_TABLE.
  cbn [find snd fst].
  repeat match goal with
         | |- context [any_keyword_in ?k ?t] => destruct (any_keyword_in k t)
         end; reflexivity.
Qed.

(** C9.  Categorization is a function of the text alone that goes through
    the five keyword lists in the fixed order network_connectivity,
    resource_exhaustion, permissions_issue, deployment_issue,
    dependency_failure: the answer is the first category of the table one
    of whose keywords occurs in the lower-cased text, whatever later
    categories match as well; letter case does not matter; and the answer
    is [unknown] exactly when no keyword of any category occurs. *)
Theorem categorize_root_cause_first_match (text : string) :
  categorize_root_cause text = Design.categorize text
  /\ (forall before row after,
        Design.CATEGORY_TABLE = before ++ row :: after ->
        forallb (fun r => negb (Design.category_matches text r)) before = true ->
        Design.category_matches text row = true ->
        categorize_root_cause text = fst row)
  /\ categorize_root_cause (upper text) = categorize_root_cause text
  /\ categorize_root_cause (lower text) = categorize_root_cause text
  /\ (categorize_root_cause text = "unknown" <->
      forallb (fun r => negb (Design.category_matches text r)) Design.CATEGORY_TABLE
      = true).
Proof.
  split; [apply categorize_root_cause_table |].
  split.
  { intros before row after Htable Hbefore Hrow.
    rewrite categorize_root_cause_table. unfold Design.categorize.
    rewrite Htable. clear Htable.
    induction before as [| r before IH]; simpl in *.
    - now rewrite Hrow.
    - apply andb_true_iff in Hbefore as [Hr Hbefore].
      apply negb_true_iff in Hr. rewrite Hr. auto. }
  split; [unfold categorize_root_cause; now rewrite lower_upper |].
  split; [unfold categorize_root_cause; now rewrite lower_lower |].
  unfold categorize_root_cause, Design.category_matches, Design.CATEGORY_TABLE.
  cbn [forallb snd].
  repeat match goal with
         | |- context [any_keyword_in ?k ?t] => destruct (any_keyword_in k t)
         end; cbn [negb andb]; split; intros H; try reflexivity; discriminate H.
Qed.

(** The rule applied at the second category of the table. *)
Lemma categorize_root_cause_first_match_witness :
  categorize_root_cause "Disk full; service restarted" = "resource_exhaustion".
Proof.
  apply (proj1 (proj2 (categorize_root_cause_first_match "Disk full; service restarted"))
           [("network_connectivity", ["connection"; "timeout"; "network"])]
           ("resource_exhaustion", ["memory"; "cpu"; "disk"; "capacity"])
           [("permissions_issue", ["permission"; "access"; "denied"; "unauthorized"]);
            ("deployment_issue", ["deployment"; "version"; "rollout"]);
            ("dependency_failure", ["dependency"; "service"; "downstream"])]);
    reflexivity.
Defined.

End CategorizeFacts.

(** ** Rules for the loop and for local objects *)

Module LoopFacts.

Lemma wp_on_snd {L S A} (c : M S A) (ls : L * S) (Q : result A -> L * S -> Prop) :
  wp c (snd ls) (fun r s' => Q r (fst ls, s')) -> wp (on_snd c) ls Q.
Proof.
  unfold wp, on_snd. destruct (c (snd ls)) as [r s']. simpl. auto.
Qed.

Lemma wp_with_local {L S A} (init : L) (c : M (L * S) A) (s : S)
    (Q : result A -> S -> Prop) :
  wp c (init, s) (fun r ls => Q r (snd ls)) -> wp (with_local init c) s Q.
Proof.
  unfold wp, with_local. destruct (c (init, s)) as [r ls]. simpl. auto.
Qed.

(** A loop keeps what every turn keeps, also when a turn raises. *)
Lemma wp_for_each {S A} (l : list A) (body : A -> M S unit) (I : S -> Prop) :
  (forall x s, In x l -> I s -> wp (body x) s (fun _ s' => I s')) ->
  forall s, I s -> wp (for_each l body) s (fun _ s' => I s').
Proof.
  induction l as [| x l IH]; intros Hbody s Hs; simpl.
  - apply wp_ret. exact Hs.
  - apply wp_bind.
    eapply wp_mono; [apply Hbody; [now left | exact Hs] |].
    intros [e | []] s' Hs'; [exact Hs' |].
    apply IH; [| exact Hs'].
    intros y s0 Hy. apply Hbody. now right.
Qed.

End LoopFacts.

Import LoopFacts.

(** ** Binary64 arithmetic of the timestamp conversion *)

Module Float64Facts.
Import InvestigationMonitor.























End Float64Facts.

(** ** Investigation monitor *)

Module MonitorFacts.
Import InvestigationMonitor.

Lemma same_store_refl st : same_store st st.
Proof. split; reflexivity. Qed.

Lemma same_store_trans st1 st2 st3 :
  same_store st1 st2 -> same_store st2 st3 -> same_store st1 st3.
Proof. intros [H1 H2] [H3 H4]. split; congruence. Qed.

Lemma monitor_wp_print (l : line) (st : State) (Q : result unit -> State -> Prop) :
  (forall st', same_store st st' -> out st' = out st ++ [l] -> Q (inr tt) st') ->
  wp (print l) st Q.
Proof.
  intros H. unfold print. apply wp_modify. apply H; [split |]; reflexivity.
Qed.

(** *** Reading the watermark *)

Lemma get_last_processed_time_spec (env : Env) (st : State) :
  wp (get_last_processed_time env) st
     (fun r st' =>
        st' = st /\
        match r with
        | inr w => match ssm_param st with
                   | Some v => w = v
                   | None => w = now env - one_hour
                   end
        | inl e => exists msg, ssm_get_fault env = Some msg /\ e = ClientError msg
        end).
Proof.
  unfold get_last_processed_time, ssm_get_parameter, try_except, wp.
  destruct (ssm_get_fault env) as [msg |]; simpl.
  - split; [reflexivity | eauto].
  - destruct (ssm_param st) as [v |]; simpl; auto.
Qed.

(** *** Polling *)

Lemma scan_event_spec (L : Lib) (start : Z) (st0 : State) (event : log_event)
    (ls : list investigation * State) :
  start <= timestamp event ->
  gathered_from start st0 ls ->
  wp (scan_event L event) ls (fun _ ls' => gathered_from start st0 ls').
Proof.
  intros Hts [Hst Hall]. unfold scan_event.
  apply wp_try. apply wp_bind.
  destruct (json_loads L (message event)) as [v |].
  - apply wp_ret. apply wp_bind. apply wp_lift.
    destruct v; simpl; try (split; assumption).
    destruct (eq_str _ _).
    + unfold append_investigation. apply wp_modify. split; [exact Hst |].
      simpl. apply Forall_app. split; [exact Hall |].
      constructor; [| constructor]. unfold after_ms, whole_ms, completed_at_of.
      simpl. split; [lia | eauto].
    + apply wp_ret. split; assumption.
  - apply wp_raise. simpl. apply wp_on_snd. apply monitor_wp_print.
    intros st' Hsame _. split; [| exact Hall]. simpl.
    eapply same_store_trans; eassumption.
Qed.

Lemma wp_print_polled (env : Env) (start : Z) (st0 : State) (l : line)
    (ls : list investigation * State) :
  polled env start st0 ls ->
  wp (on_snd (L := list investigation) (print l)) ls
     (fun r ls' => r = inr tt /\ polled env start st0 ls').
Proof.
  intros [[Hs Ha] Hq]. apply wp_on_snd. apply monitor_wp_print.
  intros st' Hsame _. split; [reflexivity |]. split; [| exact Hq].
  split; [| exact Ha]. simpl. eapply same_store_trans; eassumption.
Qed.

Lemma poll_handler_spec (env : Env) (start : Z) (st0 : State) (e : exn)
    (ls : list investigation * State) :
  polled env start st0 ls ->
  wp (if is_ResourceNotFoundException e
      then on_snd (print LogGroupNotFound) ;;; on_snd (print ExpectedIfNoLogsYet)
      else on_snd (print (ErrorQuerying e))) ls
     (fun r ls' => r = inr tt /\ polled env start st0 ls').
Proof.
  intros Hp. destruct (is_ResourceNotFoundException e).
  - apply wp_bind. eapply wp_mono; [apply wp_print_polled; exact Hp |].
    intros r ls1 [-> Hp1]. apply wp_print_polled. exact Hp1.
  - apply wp_print_polled. exact Hp.
Qed.

Lemma poll_try_spec (L : Lib) (env : Env) (since : Z) (st : State) :
  wp (try_except
        (let since_timestamp := since_timestamp_of since in
         events <- lift (filter_log_events L env since_timestamp) ;;
         for_each events (scan_event L))
        any_exception
        (fun e =>
           if is_ResourceNotFoundException e
           then on_snd (print LogGroupNotFound) ;;; on_snd (print ExpectedIfNoLogsYet)
           else on_snd (print (ErrorQuerying e))))
     ([], st)
     (fun r ls' => r = inr tt /\ polled env (since_timestamp_of since) st ls').
Proof.
  set (start := since_timestamp_of since).
  assert (Hinit : gathered_from start st ([], st)).
  { split; [apply same_store_refl | constructor]. }
  apply wp_try. cbv zeta. apply wp_bind. apply wp_lift.
  unfold filter_log_events.
  destruct (logs env) as [| e | events] eqn:Hlogs.
  - cbn [any_exception]. apply poll_handler_spec. split; [exact Hinit | reflexivity].
  - cbn [any_exception]. apply poll_handler_spec. split; [exact Hinit | reflexivity].
  - eapply wp_mono.
    + apply (wp_for_each _ (scan_event L) (gathered_from start st)); [| exact Hinit].
      intros ev ls Hin Hg. apply scan_event_spec; [| exact Hg].
      apply filter_In in Hin as [_ Hin]. apply andb_true_iff in Hin as [Hin _].
      lia.
    + assert (Hq : query_failed env = false) by (unfold query_failed; now rewrite Hlogs).
      intros [e | []] ls Hg; cbn [any_exception].
      * apply poll_handler_spec. split; [exact Hg | congruence].
      * split; [reflexivity |]. split; [exact Hg | congruence].
Qed.

Lemma get_completed_investigations_spec (L : Lib) (env : Env) (since : Z) (st : State) :
  wp (get_completed_investigations L env since) st
     (fun r st' =>
        same_store st st' /\
        exists invs, r = inr invs /\
          Forall (after_ms (since_timestamp_of since)) invs /\
          (query_failed env = true -> invs = [])).
Proof.
  unfold get_completed_investigations.
  apply wp_with_local. apply wp_bind.
  eapply wp_mono; [apply poll_try_spec |].
  intros r ls [-> [[Hs Ha] Hq]]. apply wp_gets.
  split; [exact Hs |]. exists (fst ls). auto.
Qed.

(** *** Formatting and sending *)

Lemma format_investigation_event_spec (cfg : Config) (L : Lib) (inv : investigation)
    (st : State) :
  wp (format_investigation_event cfg L inv) st
     (fun r st' =>
        same_store st st' /\
        match r with
        | inr event => build_event cfg L inv = inr event /\
                       len (json_dumps L event) <= MAX_SIZE
        | inl _ => True
        end).
Proof.
  unfold format_investigation_event.
  apply wp_bind. apply wp_lift.
  destruct (build_event cfg L inv) as [e | event]; [split; [apply same_store_refl | exact I] |].
  apply wp_bind.
  apply (wp_mono _ _ (fun r st' => r = inr tt /\ same_store st st')).
  { destruct (WARN_SIZE <? _).
    - apply monitor_wp_print. intros st' Hs _. auto.
    - apply wp_ret. split; [reflexivity | apply same_store_refl]. }
  intros r st1 [-> Hs1]. apply wp_bind.
  destruct (MAX_SIZE <? len (json_dumps L event)) eqn:Hmax.
  - apply wp_raise. split; [exact Hs1 | exact I].
  - apply wp_ret. apply wp_ret. split; [exact Hs1 |]. split; [reflexivity |].
    apply Z.ltb_ge. exact Hmax.
Qed.

Lemma send_to_central_eventbridge_spec (L : Lib) (env : Env) (event : json) (st : State) :
  wp (send_to_central_eventbridge L env event) st
     (fun _ st' =>
        ssm_param st' = ssm_param st /\
        bus st' = bus st ++ [(json_dumps L event,
                              put_events_reply env (List.length (bus st)))]).
Proof.
  unfold send_to_central_eventbridge. apply wp_bind.
  unfold wp at 1, put_events. cbn [fst snd].
  set (st1 := {| ssm_param := ssm_param st; bus := _; out := out st |}).
  assert (H1 : ssm_param st1 = ssm_param st /\
               bus st1 = bus st ++ [(json_dumps L event,
                                     put_events_reply env (List.length (bus st)))])
    by (split; reflexivity).
  clearbody st1.
  destruct (put_events_reply env (List.length (bus st))) as [| code | e].
  - apply wp_bind. apply wp_lift.
    destruct (py_getitem event "investigation_id") as [e | id]; [exact H1 |].
    apply wp_bind. apply monitor_wp_print. intros st2 [Hs2 Hb2] _.
    apply monitor_wp_print. intros st3 [Hs3 Hb3] _.
    destruct H1. split; congruence.
  - apply wp_raise. exact H1.
  - apply wp_raise. exact H1.
Qed.

Lemma bus_extends_refl st : bus_extends st st.
Proof. split; [reflexivity |]. exists []. now rewrite app_nil_r. Qed.

Lemma bus_extends_trans st1 st2 st3 :
  bus_extends st1 st2 -> bus_extends st2 st3 -> bus_extends st1 st3.
Proof.
  intros [H1 (c1 & Hb1 & Hf1)] [H2 (c2 & Hb2 & Hf2)].
  split; [congruence |]. exists (c1 ++ c2).
  split; [rewrite Hb2, Hb1; now rewrite app_assoc | now apply Forall_app].
Qed.

Lemma same_store_extends st st' : same_store st st' -> bus_extends st st'.
Proof.
  intros [H1 H2]. split; [exact H1 |]. exists []. now rewrite app_nil_r.
Qed.

Lemma process_one_spec (cfg : Config) (L : Lib) (env : Env) (inv : investigation)
    (count : nat) (st : State) :
  wp (try_except
        (formatted_event <- format_investigation_event cfg L inv ;;
         send_to_central_eventbridge L env formatted_event ;;;
         ret (S count))
        any_exception
        (fun e => print (ErrorProcessing (investigation_id inv) e) ;;; ret count))
     st
     (fun r st' => (exists n, r = inr n) /\ bus_extends st st').
Proof.
  assert (Hcatch : forall e st1, bus_extends st st1 ->
             wp (print (ErrorProcessing (investigation_id inv) e) ;;; ret count) st1
                (fun r st' => (exists n, r = inr n) /\ bus_extends st st')).
  { intros e st1 H1. apply wp_bind. apply monitor_wp_print. intros st2 Hs2 _.
    apply wp_ret. split; [eauto |].
    eapply bus_extends_trans; [exact H1 | now apply same_store_extends]. }
  apply wp_try. apply wp_bind.
  eapply wp_mono; [apply format_investigation_event_spec |].
  intros [e | event] st1 [Hs1 Hev]; cbn [any_exception].
  - apply Hcatch. now apply same_store_extends.
  - destruct Hev as [_ Hsize]. apply wp_bind.
    eapply wp_mono; [apply send_to_central_eventbridge_spec |].
    assert (Hext : forall st2,
               ssm_param st2 = ssm_param st1 /\
               bus st2 = bus st1 ++ [(json_dumps L event,
                                      put_events_reply env (List.length (bus st1)))] ->
               bus_extends st st2).
    { intros st2 [Hp Hb]. destruct Hs1 as [Hp1 Hb1]. split; [congruence |].
      exists [(json_dumps L event, put_events_reply env (List.length (bus st1)))].
      split; [congruence |]. constructor; [exact Hsize | constructor]. }
    intros [e | []] st2 H2.
    + apply Hcatch. now apply Hext.
    + apply wp_ret. split; [eauto | now apply Hext].
Qed.

Lemma process_investigations_spec (cfg : Config) (L : Lib) (env : Env)
    (invs : list investigation) :
  forall (count : nat) (st : State),
    wp (process_investigations cfg L env invs count) st
       (fun r st' => (exists n, r = inr n) /\ bus_extends st st').
Proof.
  induction invs as [| inv rest IH]; intros count st; cbn [process_investigations].
  - apply wp_ret. split; [eauto | apply bus_extends_refl].
  - apply wp_bind. eapply wp_mono; [apply process_one_spec |].
    intros r st1 [[n ->] H1].
    eapply wp_mono; [apply IH |].
    intros r st2 [Hn H2]. split; [exact Hn |].
    eapply bus_extends_trans; eassumption.
Qed.

(** *** One cycle *)



Lemma monitor_handler_spec (cfg : Config) (L : Lib) (env : Env) (st : State) :
  wp (handler cfg L env) st (cycle_outcome cfg env st).
Proof.
  assert (Hquiet : forall (r : result response) st',
             same_store st st' ->
             (query_failed env = true -> ssm_get_fault env = None ->
              r = inr (no_new_investigations cfg)) ->
             cycle_outcome cfg env st r st').
  { intros r st' [Hp Hb] Hr. split; [| split].
    - exists []. rewrite app_nil_r. split; [exact Hb | constructor].
    - now left.
    - intros Hq. auto. }
  assert (Hfail : forall e st1, same_store st st1 ->
             (query_failed env = true -> ssm_get_fault env = None -> False) ->
             wp (print (ErrorInMonitor e) ;;; raise e) st1 (cycle_outcome cfg env st)).
  { intros e st1 Hs Hq. apply wp_bind. apply monitor_wp_print. intros st2 Hs2 _.
    apply wp_raise. apply Hquiet.
    - eapply same_store_trans; eassumption.
    - intros H1 H2. destruct (Hq H1 H2). }
  unfold handler. apply wp_bind. apply monitor_wp_print. intros st0 Hs0 _.
  apply wp_try. apply wp_bind.
  eapply wp_mono; [apply get_last_processed_time_spec |].
  intros [e | since] st1 [-> Hread]; cbn [any_exception].
  { destruct Hread as (msg & Hmsg & ->).
    apply Hfail; [exact Hs0 | intros _ H; congruence]. }
  apply wp_bind. apply monitor_wp_print. intros st2 Hs2 _.
  apply wp_bind.
  eapply wp_mono; [apply get_completed_investigations_spec |].
  intros r st3 (Hs3 & invs & -> & Hinvs & Hempty).
  assert (Hs : same_store st st3).
  { eapply same_store_trans; [exact Hs0 |].
    eapply same_store_trans; eassumption. }
  destruct invs as [| first rest].
  - apply wp_bind. apply monitor_wp_print. intros st4 Hs4 _.
    apply wp_ret. apply Hquiet; [eapply same_store_trans; eassumption |].
    reflexivity.
  - assert (Hq : query_failed env = false).
    { destruct (query_failed env); [| reflexivity]. now specialize (Hempty eq_refl). }
    assert (Hsince : match ssm_param st with
                     | Some v => since = v
                     | None => since = now env - one_hour
                     end).
    { destruct Hs0 as [Hp0 _]. rewrite Hp0 in Hread. exact Hread. }
    apply wp_bind. apply monitor_wp_print. intros st4 Hs4 _.
    apply wp_bind.
    eapply wp_mono; [apply process_investigations_spec |].
    intros r st5 [[n ->] [Hp5 (calls & Hb5 & Hcalls)]].
    assert (Hbus : bus st5 = bus st ++ calls).
    { destruct Hs as [_ Hb], Hs4 as [_ Hb4]. congruence. }
    assert (Hparam : ssm_param st5 = ssm_param st).
    { destruct Hs as [Hp _], Hs4 as [Hp4 _]. congruence. }
    apply wp_bind.
    unfold update_last_processed_time, ssm_put_parameter, wp at 1.
    destruct (ssm_put_fault env) as [msg |]; cbn [fst snd any_exception].
    + apply wp_bind. apply monitor_wp_print. intros st6 [Hp6 Hb6] _.
      apply wp_raise. split; [| split].
      * exists calls. split; [congruence | exact Hcalls].
      * left. congruence.
      * intros H. congruence.
    + apply wp_ret. split; [| split].
      * exists calls. split; [exact Hbus | exact Hcalls].
      * right. exists since, first, rest. auto.
      * intros H. congruence.
Qed.

End MonitorFacts.
Module MonitorClaims.
Import InvestigationMonitor MonitorFacts.

(** C1.  At the sample cycle whose only investigation (completed 12:01:00)
    is rejected by the bus, the handler forwards nothing, answers
    [processed_count = 0], and still overwrites the watermark 12:00:00 with
    12:01:00: the watermark moves past an investigation whose publish
    failed, in a cycle that forwarded no event. *)
Theorem watermark_written_past_rejected_publish :
  let run := handler Sample.monitor_cfg Sample.monitor_lib Sample.env_bus_rejects
                     Sample.monitor_start in
  fst run = inr {| statusCode := 200;
                   body := JObj [ ("message", JStr "Processed 0 investigations");
                                  ("client", JStr "acme");
                                  ("processed_count", JNum 0) ] |}
  /\ forwarded (snd run) = []
  /\ ssm_param Sample.monitor_start = Some Sample.noon
  /\ ssm_param (snd run) = Some (Sample.noon + 60000000).
Proof. vm_compute. repeat split; reflexivity. Qed.

(** The same defect with two investigations in one poll, the earlier one
    rejected by the bus: one event is forwarded, the watermark moves to
    12:01:00, and a poll from that watermark returns the later
    investigation alone; the rejected one is left behind. *)
Lemma rejected_investigation_left_behind :
  let run := handler Sample.monitor_cfg Sample.monitor_lib Sample.env_first_rejected
                     Sample.monitor_start in
  List.length (bus (snd run)) = 2%nat
  /\ List.length (forwarded (snd run)) = 1%nat
  /\ ssm_param (snd run) = Some (Sample.noon + 60000000)
  /\ map investigation_id
         (match fst (get_completed_investigations Sample.monitor_lib
                       Sample.env_first_rejected (Sample.noon + 60000000) (snd run))
          with inr invs => invs | inl _ => [] end)
     = [JStr "inv-2"].
Proof. vm_compute. repeat split; reflexivity. Qed.

(** C3, as stated, fails: with the log query refused (an access-denied
    fault, not a missing log group) the invocation does not fail; it
    answers "No new investigations". *)
Lemma retrieval_fault_does_not_fail_invocation :
  logs Sample.env_logs_denied = LogsFault (ClientError "AccessDeniedException")
  /\ fst (handler Sample.monitor_cfg Sample.monitor_lib Sample.env_logs_denied
                  Sample.monitor_start)
     = inr {| statusCode := 200;
              body := JObj [ ("message", JStr "No new investigations");
                             ("client", JStr "acme") ] |}.
Proof. vm_compute. split; reflexivity. Qed.

(** C3, amended.  The poller never raises: a missing log group and every
    other fault of the log query alike end in an empty result (the fault is
    printed inside the poller); the invocation then answers "No new
    investigations" and leaves the watermark and the bus untouched. *)
Theorem poller_catches_every_query_fault
    (cfg : Config) (L : Lib) (env : Env) (st : State) :
  (forall since,
      exists invs, fst (get_completed_investigations L env since st) = inr invs)
  /\ (query_failed env = true ->
      (forall since, fst (get_completed_investigations L env since st) = inr [])
      /\ ssm_param (snd (handler cfg L env st)) = ssm_param st
      /\ bus (snd (handler cfg L env st)) = bus st
      /\ (ssm_get_fault env = None ->
          fst (handler cfg L env st) = inr (no_new_investigations cfg))).
Proof.
  split.
  - intros since.
    destruct (wp_run _ _ _ (get_completed_investigations_spec L env since st))
      as (_ & invs & Hr & _).
    eauto.
  - intros Hq. split; [| exact (proj2 (proj2 (wp_run _ _ _ (monitor_handler_spec cfg L env st))) Hq)].
    intros since.
    destruct (wp_run _ _ _ (get_completed_investigations_spec L env since st))
      as (_ & invs & Hr & _ & Hempty).
    rewrite Hr. now rewrite (Hempty Hq).
Qed.

Lemma poller_catches_every_query_fault_witness :
  fst (handler Sample.monitor_cfg Sample.monitor_lib Sample.env_logs_denied
               Sample.monitor_start)
  = inr (no_new_investigations Sample.monitor_cfg).
Proof.
  apply (proj2 (poller_catches_every_query_fault Sample.monitor_cfg Sample.monitor_lib
                  Sample.env_logs_denied Sample.monitor_start));
    reflexivity.
Defined.


(** Outside the range of [conversion_exact] the float product can fall
    short: for the watermark 2038-08-07T03:14:08.002 the query starts at
    the millisecond before, and the poll returns the investigation
    completed at 03:14:08.001, before the watermark. *)
Lemma start_time_short_in_2038 :
  since_timestamp_of Sample.in_2038 = 2164763648001
  /\ Sample.in_2038 / 1000 = 2164763648002
  /\ exists inv,
       fst (get_completed_investigations Sample.monitor_lib Sample.env_2038
              Sample.in_2038 Sample.start_2038) = inr [inv]
       /\ completed_at inv = 2164763648001000.
Proof.
  split; [vm_compute; reflexivity |]. split; [reflexivity |].
  eexists. split; [vm_compute; reflexivity | reflexivity].
Qed.



(** *** Monotone watermark *)


(** Outside the range of [conversion_exact] the stored watermark can
    decrease: from 2038-08-07T03:14:08.002 the cycle polls from the
    millisecond before and writes 03:14:08.001. *)
Lemma watermark_decreases_in_2038 :
  ssm_param (snd (handler Sample.monitor_cfg Sample.monitor_lib Sample.env_2038
                          Sample.start_2038))
  = Some 2164763648001000
  /\ 2164763648001000 < Sample.in_2038.
Proof. split; [vm_compute; reflexivity | reflexivity]. Qed.

Lemma watermark_le_refl (w : option Z) : watermark_le w w.
Proof. destruct w; simpl; [lia | exact I]. Qed.






(** *** Size cap *)

Lemma format_oversized (cfg : Config) (L : Lib) (inv : investigation) (event : json)
    (st : State) :
  build_event cfg L inv = inr event ->
  MAX_SIZE < len (json_dumps L event) ->
  format_investigation_event cfg L inv st
  = (inl (ValueError ("Event size " +++ str_Z (len (json_dumps L event))
                      +++ " bytes exceeds EventBridge limit")),
     logged (WarningLarge (len (json_dumps L event))) st).
Proof.
  intros Hbuild Hsize.
  unfold format_investigation_event, bind, lift, print, modify, raise, ret.
  rewrite Hbuild.
  assert (Hwarn : (WARN_SIZE <? len (json_dumps L event)) = true)
    by (apply Z.ltb_lt; unfold WARN_SIZE, MAX_SIZE in *; lia).
  assert (Hmax : (MAX_SIZE <? len (json_dumps L event)) = true)
    by (now apply Z.ltb_lt).
  rewrite Hwarn, Hmax. reflexivity.
Qed.

(** C5.  Whatever a cycle meets, every detail it hands to the bus is at
    most 256,000 bytes long.  An investigation whose event is longer makes
    [format_investigation_event] raise: the loop prints the warning and the
    error and goes on with the remaining investigations, with the same
    count and without a call on the bus for it.  An event longer than
    200,000 but not longer than 256,000 bytes is returned, with a warning
    printed and nothing else. *)
Theorem size_cap_enforced (cfg : Config) (L : Lib) (env : Env) :
  (forall st,
      exists calls,
        bus (snd (handler cfg L env st)) = bus st ++ calls
        /\ Forall (fun c => len (fst c) <= 256000) calls)
  /\ (forall inv rest event count st,
         build_event cfg L inv = inr event ->
         256000 < len (json_dumps L event) ->
         process_investigations cfg L env (inv :: rest) count st
         = process_investigations cfg L env rest count
             (logged (ErrorProcessing (investigation_id inv)
                        (ValueError ("Event size " +++ str_Z (len (json_dumps L event))
                                     +++ " bytes exceeds EventBridge limit")))
                (logged (WarningLarge (len (json_dumps L event))) st)))
  /\ (forall inv event st,
         build_event cfg L inv = inr event ->
         200000 < len (json_dumps L event) <= 256000 ->
         format_investigation_event cfg L inv st
         = (inr event, logged (WarningLarge (len (json_dumps L event))) st)).
Proof.
  split; [| split].
  - intros st. exact (proj1 (wp_run _ _ _ (monitor_handler_spec cfg L env st))).
  - intros inv rest event count st Hbuild Hsize.
    cbn [process_investigations]. unfold bind at 1, try_except, bind at 1.
    rewrite (format_oversized cfg L inv event st Hbuild Hsize).
    reflexivity.
  - intros inv event st Hbuild [Hlo Hhi].
    unfold format_investigation_event, bind, lift, print, modify, raise, ret.
    rewrite Hbuild.
    assert (Hwarn : (WARN_SIZE <? len (json_dumps L event)) = true)
      by (now apply Z.ltb_lt).
    assert (Hmax : (MAX_SIZE <? len (json_dumps L event)) = false)
      by (now apply Z.ltb_ge).
    rewrite Hwarn, Hmax. reflexivity.
Qed.

(** The oversized sample investigation is dropped, the one after it is
    sent. *)
Lemma size_cap_enforced_witness :
  process_investigations Sample.monitor_cfg Sample.monitor_lib Sample.env_two
    [Sample.inv_huge; Sample.inv_small] 0 Sample.monitor_start
  = process_investigations Sample.monitor_cfg Sample.monitor_lib Sample.env_two
      [Sample.inv_small] 0
      (logged (ErrorProcessing (JStr "inv-huge")
                 (ValueError ("Event size "
                              +++ str_Z (len (Sample.dumps Sample.event_huge))
                              +++ " bytes exceeds EventBridge limit")))
         (logged (WarningLarge (len (Sample.dumps Sample.event_huge)))
                 Sample.monitor_start)).
Proof.
  apply (proj1 (proj2 (size_cap_enforced Sample.monitor_cfg Sample.monitor_lib
                         Sample.env_two))
           Sample.inv_huge [Sample.inv_small] Sample.event_huge 0%nat
           Sample.monitor_start).
  - reflexivity.
  - vm_compute. reflexivity.
Defined.

End MonitorClaims.

(** ** Deterministic router *)

Module RouterFacts.
Import SimpleRouting.

Lemma router_wp_print (l : line) (st : State) (Q : result unit -> State -> Prop) :
  (forall st', calls st' = calls st -> Q (inr tt) st') -> wp (print l) st Q.
Proof. intros H. unfold print. apply wp_modify. apply H. reflexivity. Qed.

Lemma router_wp_record (c : call) (st : State) (Q : result unit -> State -> Prop) :
  (forall st', calls st' = calls st ++ [c] -> Q (inr tt) st') -> wp (record c) st Q.
Proof. intros H. unfold record. apply wp_modify. apply H. reflexivity. Qed.

Lemma load_secret_spec (L : Lib) (env : Env) (name : string) (st : State) :
  wp (load_secret L env name) st
     (fun _ st' => calls st' = calls st ++ [GetSecretValue name]).
Proof.
  unfold load_secret. apply wp_bind. apply router_wp_record. intros st1 H1.
  apply wp_bind. apply wp_lift.
  destruct (get_secret_value env name) as [e | secret]; [exact H1 |].
  destruct (json_loads L secret); [apply wp_ret | apply wp_raise]; exact H1.
Qed.

(** Paging is best effort: [page_engineer] returns whatever happens, after
    one look-up of the paging secret. *)
Lemma page_engineer_spec (cfg : Config) (L : Lib) (env : Env) (investigation : json)
    (st : State) :
  wp (page_engineer cfg L env investigation) st
     (fun r st' => r = inr tt /\
                   calls st' = calls st ++ [GetSecretValue (PAGERDUTY_SECRET_NAME cfg)]).
Proof.
  unfold page_engineer. apply wp_try. apply wp_bind.
  eapply wp_mono; [apply load_secret_spec |].
  intros r st1 H1.
  assert (Hcatch : forall e st2, calls st2 = calls st1 ->
             wp (print (ErrorPaging e)) st2
                (fun r st' => r = inr tt /\
                   calls st' = calls st ++ [GetSecretValue (PAGERDUTY_SECRET_NAME cfg)])).
  { intros e st2 H2. apply router_wp_print. intros st3 H3. split; [reflexivity | congruence]. }
  destruct r as [e | pagerduty_config]; cbn [any_exception];
    [now apply Hcatch |].
  apply wp_bind, wp_lift.
  destruct (py_getitem pagerduty_config "api_key") as [e | api_key];
    cbn [any_exception]; [now apply Hcatch |].
  apply wp_bind, wp_lift.
  destruct (py_getitem pagerduty_config "service_id") as [e | service_id];
    cbn [any_exception]; [now apply Hcatch |].
  apply wp_bind, wp_lift.
  destruct (py_getitem investigation "investigation_id") as [e | id];
    cbn [any_exception]; [now apply Hcatch |].
  apply wp_bind, router_wp_print. intros st2 H2.
  apply wp_bind, wp_lift.
  destruct (py_getitem investigation "severity") as [e | severity];
    cbn [any_exception]; [apply Hcatch; congruence |].
  apply wp_bind, router_wp_print. intros st3 H3.
  apply wp_bind, wp_lift.
  destruct (py_getitem investigation "client_name") as [e | client_name];
    cbn [any_exception]; [apply Hcatch; congruence |].
  apply router_wp_print. intros st4 H4. split; [reflexivity | congruence].
Qed.

(** Ticketing is best effort in the same way. *)
Lemma create_jira_ticket_spec (cfg : Config) (L : Lib) (env : Env) (investigation : json)
    (st : State) :
  wp (create_jira_ticket cfg L env investigation) st
     (fun r st' => r = inr tt /\
                   calls st' = calls st ++ [GetSecretValue (JIRA_SECRET_NAME cfg)]).
Proof.
  unfold create_jira_ticket. apply wp_try. apply wp_bind.
  eapply wp_mono; [apply load_secret_spec |].
  intros r st1 H1.
  assert (Hcatch : forall e st2, calls st2 = calls st1 ->
             wp (print (ErrorCreatingTicket e)) st2
                (fun r st' => r = inr tt /\
                   calls st' = calls st ++ [GetSecretValue (JIRA_SECRET_NAME cfg)])).
  { intros e st2 H2. apply router_wp_print. intros st3 H3. split; [reflexivity | congruence]. }
  destruct r as [e | jira_config]; cbn [any_exception];
    [now apply Hcatch |].
  apply wp_bind, wp_lift.
  destruct (py_getitem jira_config "api_token") as [e | api_token];
    cbn [any_exception]; [now apply Hcatch |].
  apply wp_bind, wp_lift.
  destruct (py_getitem jira_config "project_key") as [e | project_key];
    cbn [any_exception]; [now apply Hcatch |].
  apply wp_bind, wp_lift.
  destruct (py_getitem investigation "investigation_id") as [e | id];
    cbn [any_exception]; [now apply Hcatch |].
  apply wp_bind, router_wp_print. intros st2 H2.
  apply wp_bind, wp_lift.
  destruct (py_getitem investigation "summary") as [e | summary];
    cbn [any_exception]; [apply Hcatch; congruence |].
  apply wp_bind, wp_lift.
  destruct (py_getitem summary "root_cause_brief") as [e | brief];
    cbn [any_exception]; [apply Hcatch; congruence |].
  apply router_wp_print. intros st3 H3. split; [reflexivity | congruence].
Qed.

(** The broadcast alert has no handler of its own: a fault of the publish
    call leaves [send_sns_alert] as it is. *)
Lemma send_sns_alert_spec (cfg : Config) (L : Lib) (env : Env) (investigation : json)
    (texts : string * string) (st : State) :
  alert_texts L investigation = inr texts ->
  wp (send_sns_alert cfg L env investigation) st
     (fun r st' =>
        calls st' = calls st ++ [SnsPublish (ALERT_TOPIC_ARN cfg) (fst texts) (snd texts)]
        /\ match sns_publish_fault env with
           | Some e => r = inl e
           | None => r = inr tt
           end).
Proof.
  intros Htexts. unfold send_sns_alert. rewrite Htexts.
  apply wp_bind, wp_lift. apply wp_bind, router_wp_record. intros st1 H1.
  apply wp_bind. unfold fail_if.
  destruct (sns_publish_fault env) as [e |].
  - apply wp_raise. auto.
  - apply wp_ret. apply wp_bind, wp_lift.
    assert (Hid : exists id, py_getitem investigation "investigation_id" = inr id).
    { unfold alert_texts in Htexts.
      destruct (py_getitem investigation "severity"); [discriminate |].
      destruct (py_getitem investigation "client_name"); [discriminate |].
      destruct (py_getitem investigation "investigation_id"); [discriminate | eauto]. }
    destruct Hid as [id ->]. apply router_wp_print. intros st2 H2.
    split; [congruence | reflexivity].
Qed.

Lemma store_investigation_spec (cfg : Config) (env : Env) (investigation item : json)
    (st : State) :
  build_item cfg env investigation = inr item ->
  wp (store_investigation cfg env investigation) st
     (fun r st' =>
        calls st' = calls st ++ [PutItem item]
        /\ match put_item_fault env with
           | Some e => r = inl e
           | None => r = inr tt
           end).
Proof.
  intros Hitem. unfold store_investigation. rewrite Hitem.
  apply wp_bind, wp_lift. apply wp_bind, router_wp_record. intros st1 H1.
  apply wp_bind. unfold fail_if.
  destruct (put_item_fault env) as [e |].
  - apply wp_raise. auto.
  - apply wp_ret. apply wp_bind, wp_lift.
    assert (Hid : exists id, py_getitem investigation "investigation_id" = inr id).
    { unfold build_item in Hitem.
      destruct (py_getitem investigation "investigation_id"); [discriminate | eauto]. }
    destruct Hid as [id ->]. apply router_wp_print. intros st2 H2.
    split; [congruence | reflexivity].
Qed.

(** A CRITICAL or HIGH event that is stored: the calls made, and the
    answer, which is the fault of the publish call when there is one. *)
Lemma high_event_spec
    (cfg : Config) (L : Lib) (env : Env) (ev d : list (string * json))
    (item : json) (texts : string * string) (st : State) :
  dict_get ev "detail" (JObj []) = JObj d ->
  truthy (dict_get d "investigation_id" JNull) = true ->
  eq_str (dict_get d "severity" (JStr "MEDIUM")) "CRITICAL"
  || eq_str (dict_get d "severity" (JStr "MEDIUM")) "HIGH" = true ->
  build_item cfg env (JObj d) = inr item ->
  put_item_fault env = None ->
  alert_texts L (JObj d) = inr texts ->
  wp (handler cfg L env (JObj ev)) st
     (fun r st' =>
        calls st'
        = calls st ++ [PutItem item] ++ channel_calls cfg
          ++ [SnsPublish (ALERT_TOPIC_ARN cfg) (fst texts) (snd texts)]
        /\ r = match sns_publish_fault env with
               | Some e => inl e
               | None => inr (routing_successful (dict_get d "investigation_id" JNull)
                                (channel_actions cfg ++ ["sent_alert"]))
               end).
Proof.
  intros Hdetail Hid Hsev Hitem Hput Htexts.
  unfold handler.
  apply wp_bind, router_wp_print. intros st1 H1.
  apply wp_bind, router_wp_print. intros st2 H2.
  apply wp_try. apply wp_bind, wp_lift. cbn [py_get]. rewrite Hdetail.
  apply wp_bind, wp_lift. cbn [py_get].
  apply wp_bind, wp_lift. cbn [py_get].
  apply wp_bind, wp_lift. cbn [py_get].
  rewrite Hid. cbn [negb].
  apply wp_bind, wp_ret. apply wp_bind.
  eapply wp_mono; [apply (store_investigation_spec cfg env (JObj d) item); exact Hitem |].
  rewrite Hput. intros r st3 [H3 ->].
  apply wp_bind. rewrite Hsev.
  unfold channel_calls, channel_actions.
  apply wp_bind.
  apply (wp_mono _ _
           (fun r st' =>
              r = inr (if nonempty (PAGERDUTY_SECRET_NAME cfg)
                       then ["paged_engineer"] else [])
              /\ calls st'
                 = calls st3
                   ++ (if nonempty (PAGERDUTY_SECRET_NAME cfg)
                       then [GetSecretValue (PAGERDUTY_SECRET_NAME cfg)] else []))).
  { destruct (nonempty (PAGERDUTY_SECRET_NAME cfg)).
    - apply wp_bind. eapply wp_mono; [apply page_engineer_spec |].
      intros r st4 [-> H4]. apply wp_ret. auto.
    - apply wp_ret. split; [reflexivity | now rewrite app_nil_r]. }
  intros r st4 [-> H4].
  apply wp_bind.
  apply (wp_mono _ _
           (fun r st' =>
              r = inr ((if nonempty (PAGERDUTY_SECRET_NAME cfg)
                        then ["paged_engineer"] else [])
                       ++ (if nonempty (JIRA_SECRET_NAME cfg)
                           then ["created_ticket"] else []))
              /\ calls st'
                 = calls st4
                   ++ (if nonempty (JIRA_SECRET_NAME cfg)
                       then [GetSecretValue (JIRA_SECRET_NAME cfg)] else []))).
  { destruct (nonempty (JIRA_SECRET_NAME cfg)).
    - apply wp_bind. eapply wp_mono; [apply create_jira_ticket_spec |].
      intros r st5 [-> H5]. apply wp_ret. auto.
    - apply wp_ret. split; [now rewrite app_nil_r | now rewrite app_nil_r]. }
  intros r st5 [-> H5].
  apply wp_bind.
  eapply wp_mono; [apply (send_sns_alert_spec cfg L env (JObj d) texts); exact Htexts |].
  intros r st6 [H6 Hr].
  assert (Hcalls : calls st6
                   = calls st ++ [PutItem item]
                     ++ ((if nonempty (PAGERDUTY_SECRET_NAME cfg)
                          then [GetSecretValue (PAGERDUTY_SECRET_NAME cfg)] else [])
                         ++ (if nonempty (JIRA_SECRET_NAME cfg)
                             then [GetSecretValue (JIRA_SECRET_NAME cfg)] else []))
                     ++ [SnsPublish (ALERT_TOPIC_ARN cfg) (fst texts) (snd texts)]).
  { rewrite H6, H5, H4, H3, H2, H1. now rewrite <- !app_assoc. }
  destruct (sns_publish_fault env) as [e |]; subst r; cbn [any_exception].
  - apply wp_bind, router_wp_print. intros st7 H7. apply wp_raise.
    split; [congruence | reflexivity].
  - apply wp_ret. apply wp_bind, router_wp_print. intros st7 H7. apply wp_ret.
    split; [congruence | reflexivity].
Qed.

(** The broadcast alert is not best effort: for such an event a fault of
    the publish call is the outcome of the invocation. *)
Lemma broadcast_fault_propagates
    (cfg : Config) (L : Lib) (env : Env) (ev d : list (string * json))
    (item : json) (texts : string * string) (st : State) (e : exn) :
  dict_get ev "detail" (JObj []) = JObj d ->
  truthy (dict_get d "investigation_id" JNull) = true ->
  eq_str (dict_get d "severity" (JStr "MEDIUM")) "CRITICAL"
  || eq_str (dict_get d "severity" (JStr "MEDIUM")) "HIGH" = true ->
  build_item cfg env (JObj d) = inr item ->
  put_item_fault env = None ->
  alert_texts L (JObj d) = inr texts ->
  sns_publish_fault env = Some e ->
  fst (handler cfg L env (JObj ev) st) = inl e.
Proof.
  intros Hdetail Hid Hsev Hitem Hput Htexts Hfault.
  destruct (wp_run _ _ _
              (high_event_spec cfg L env ev d item texts st
                 Hdetail Hid Hsev Hitem Hput Htexts)) as [_ Hr].
  rewrite Hr. now rewrite Hfault.
Qed.

End RouterFacts.

Module RouterClaims.
Import SimpleRouting RouterFacts.

(** C2.  At the sample HIGH event, with both secrets configured and the
    SNS publish call failing, the item is written, paging and ticketing
    are tried, and then the fault of the broadcast alert leaves the
    handler: the invocation fails although only a notification channel
    failed. *)
Theorem broadcast_failure_fails_the_event :
  let run := handler (Sample.router_cfg "pagerduty/api-key" "jira/api-key")
                     Sample.router_lib
                     (Sample.router_env (Some (ClientError "AuthorizationError")))
                     (Sample.event_of "inv-1" "HIGH") Sample.router_start in
  fst run = inl (ClientError "AuthorizationError")
  /\ map is_put_item (calls (snd run)) = [true; false; false; false]
  /\ map is_sns_publish (calls (snd run)) = [false; false; false; true].
Proof. vm_compute. repeat split; reflexivity. Qed.

(** C10.  For a CRITICAL or HIGH event that is stored, the calls made are:
    the write of the item, a look-up of the paging secret exactly when the
    paging secret name is non-empty, a look-up of the ticketing secret
    exactly when the ticketing secret name is non-empty, and the publish
    of the broadcast alert; and when the publish goes through, the actions
    answered are [paged_engineer] and [created_ticket] under the same two
    conditions, followed by [sent_alert]. *)
Theorem secret_names_gate_channels
    (cfg : Config) (L : Lib) (env : Env) (ev d : list (string * json))
    (item : json) (texts : string * string) (st : State) :
  dict_get ev "detail" (JObj []) = JObj d ->
  truthy (dict_get d "investigation_id" JNull) = true ->
  eq_str (dict_get d "severity" (JStr "MEDIUM")) "CRITICAL"
  || eq_str (dict_get d "severity" (JStr "MEDIUM")) "HIGH" = true ->
  build_item cfg env (JObj d) = inr item ->
  put_item_fault env = None ->
  alert_texts L (JObj d) = inr texts ->
  let run := handler cfg L env (JObj ev) st in
  calls (snd run)
  = calls st ++ [PutItem item] ++ channel_calls cfg
    ++ [SnsPublish (ALERT_TOPIC_ARN cfg) (fst texts) (snd texts)]
  /\ (sns_publish_fault env = None ->
      fst run = inr (routing_successful (dict_get d "investigation_id" JNull)
                       (channel_actions cfg ++ ["sent_alert"])))
  /\ (In (GetSecretValue (PAGERDUTY_SECRET_NAME cfg)) (channel_calls cfg)
      -> PAGERDUTY_SECRET_NAME cfg <> EmptyString)
  /\ (In (GetSecretValue (JIRA_SECRET_NAME cfg)) (channel_calls cfg)
      -> JIRA_SECRET_NAME cfg <> EmptyString)
  /\ (In "paged_engineer" (channel_actions cfg ++ ["sent_alert"])
      <-> PAGERDUTY_SECRET_NAME cfg <> EmptyString)
  /\ (In "created_ticket" (channel_actions cfg ++ ["sent_alert"])
      <-> JIRA_SECRET_NAME cfg <> EmptyString).
Proof.
  intros Hdetail Hid Hsev Hitem Hput Htexts run.
  destruct (wp_run _ _ _
              (high_event_spec cfg L env ev d item texts st
                 Hdetail Hid Hsev Hitem Hput Htexts)) as [Hcalls Hr].
  fold run in Hcalls, Hr.
  split; [exact Hcalls |].
  split; [intros Hnone; rewrite Hr; now rewrite Hnone |].
  unfold channel_calls, channel_actions, nonempty.
  destruct (String.eqb_spec (PAGERDUTY_SECRET_NAME cfg) EmptyString) as [Hp | Hp];
    destruct (String.eqb_spec (JIRA_SECRET_NAME cfg) EmptyString) as [Hj | Hj];
    cbn [negb app In]; repeat split; intros H; try assumption;
    repeat match goal with
           | H : _ \/ _ |- _ => destruct H
           | H : False |- _ => destruct H
           | H : GetSecretValue _ = GetSecretValue _ |- _ => injection H as H
           end;
    try congruence; try discriminate; auto.
Qed.

(** With both secret names empty the HIGH sample event is stored and
    broadcast, and nothing else is tried. *)
Lemma secret_names_gate_channels_witness :
  let run := handler (Sample.router_cfg EmptyString EmptyString) Sample.router_lib
                     (Sample.router_env None) (Sample.event_of "inv-1" "HIGH")
                     Sample.router_start in
  map is_put_item (calls (snd run)) = [true; false]
  /\ map is_sns_publish (calls (snd run)) = [false; true]
  /\ fst run = inr (routing_successful (JStr "inv-1") ["sent_alert"]).
Proof.
  pose proof (secret_names_gate_channels
                (Sample.router_cfg EmptyString EmptyString) Sample.router_lib
                (Sample.router_env None)
                [ ("source", JStr "devops.investigation");
                  ("detail-type", JStr "InvestigationCompleted");
                  ("detail", Sample.detail_of "inv-1" "HIGH") ]
                (match Sample.detail_of "inv-1" "HIGH" with JObj d => d | _ => [] end)
                (match build_item (Sample.router_cfg EmptyString EmptyString)
                         (Sample.router_env None) (Sample.detail_of "inv-1" "HIGH")
                 with inr item => item | inl _ => JNull end)
                (match alert_texts Sample.router_lib (Sample.detail_of "inv-1" "HIGH")
                 with inr texts => texts | inl _ => (EmptyString, EmptyString) end)
                Sample.router_start
                eq_refl eq_refl eq_refl eq_refl eq_refl eq_refl) as (Hcalls & Hrun & _).
  cbv zeta. unfold Sample.event_of. rewrite Hcalls, (Hrun eq_refl).
  repeat split; reflexivity.
Defined.

End RouterClaims.

(** ** Pattern correlator *)

Module PatternFacts.
Import PatternDetector.

Lemma pattern_wp_print (l : line) (st : State) (Q : result unit -> State -> Prop) :
  (forall st', calls st' = calls st -> Q (inr tt) st') -> wp (print l) st Q.
Proof. intros H. unfold print. apply wp_modify. apply H. reflexivity. Qed.

Lemma pattern_wp_record (c : call) (st : State) (Q : result unit -> State -> Prop) :
  (forall st', calls st' = calls st ++ [c] -> Q (inr tt) st') -> wp (record c) st Q.
Proof. intros H. unfold record. apply wp_modify. apply H. reflexivity. Qed.

Lemma query_recent_investigations_spec (L : Lib) (env : Env) (st : State) :
  wp (query_recent_investigations L env 24) st
     (fun r st' =>
        calls st' = calls st ++ [Scan (isoformat L (now env - hours 24))]
        /\ r = match scan_fault env with
               | Some e => inl e
               | None => inr (recent L env)
               end).
Proof.
  unfold query_recent_investigations. apply wp_bind, pattern_wp_record. intros st1 H1.
  apply wp_bind. unfold fail_if.
  destruct (scan_fault env) as [e |].
  - apply wp_raise. auto.
  - apply wp_ret. apply wp_ret. auto.
Qed.

(** Parsing never raises [JSONDecodeError]: a text that is not JSON gives
    the parse-failure analysis. *)
Lemma parse_bedrock_response_spec (L : Lib) (response_text : json) (st : State) :
  wp (parse_bedrock_response L response_text) st
     (fun r st' =>
        calls st' = calls st
        /\ r = match response_text with
               | JStr text => match json_loads L (clean_response_text text) with
                              | Some analysis => inr analysis
                              | None => inr parse_failure
                              end
               | _ => inl (AttributeError "object has no attribute 'strip'")
               end).
Proof.
  unfold parse_bedrock_response. apply wp_try. apply wp_bind, wp_lift.
  destruct response_text; cbn [is_JSONDecodeError]; try (split; reflexivity).
  destruct (json_loads L (clean_response_text s)) as [analysis |].
  - apply wp_ret. auto.
  - apply wp_raise. cbn [is_JSONDecodeError].
    apply wp_bind, pattern_wp_print. intros st1 H1.
    apply wp_bind, pattern_wp_print. intros st2 H2.
    apply wp_ret. split; [congruence | reflexivity].
Qed.

Lemma call_and_parse_spec (cfg : Config) (L : Lib) (env : Env) (prompt : string)
    (st : State) :
  wp (call_and_parse cfg L env prompt) st
     (fun r st' =>
        calls st' = calls st ++ [InvokeModel (BEDROCK_MODEL_ID cfg) (request_body L prompt)]
        /\ r = classify L env prompt).
Proof.
  unfold call_and_parse, classify, invoke_model.
  apply wp_bind, wp_bind, pattern_wp_record. intros st1 H1. apply wp_lift.
  destruct (invoke_model_reply env (request_body L prompt)) as [e | response];
    [auto |].
  apply wp_bind.
  destruct (json_loads L response) as [response_body |];
    [apply wp_ret | apply wp_raise; auto].
  apply wp_bind, wp_lift.
  destruct (py_getitem response_body "content") as [e | content]; [auto |].
  apply wp_bind, wp_lift.
  destruct (py_getitem0 content) as [e | first]; [auto |].
  apply wp_bind, wp_lift.
  destruct (py_getitem first "text") as [e | analysis_text]; [auto |].
  apply wp_bind.
  eapply wp_mono; [apply parse_bedrock_response_spec |].
  intros r st2 [H2 ->].
  destruct analysis_text; try (split; [congruence | reflexivity]).
  destruct (json_loads L (clean_response_text s)); apply wp_ret;
    (split; [congruence | reflexivity]).
Qed.

(** The analysis is total once the prompt is built: whatever the [try]
    block raises is turned into an analysis. *)
Lemma analyze_patterns_with_bedrock_spec (cfg : Config) (L : Lib) (env : Env)
    (investigations : list json) (prompt : string) (st : State) :
  build_analysis_prompt L investigations = inr prompt ->
  wp (analyze_patterns_with_bedrock cfg L env investigations) st
     (fun r st' =>
        calls st' = calls st ++ [InvokeModel (BEDROCK_MODEL_ID cfg) (request_body L prompt)]
        /\ r = inr (analysis_of (classify L env prompt))).
Proof.
  intros Hprompt. unfold analyze_patterns_with_bedrock. rewrite Hprompt.
  apply wp_bind, wp_lift. apply wp_try.
  eapply wp_mono; [apply call_and_parse_spec |].
  intros r st1 [H1 ->].
  destruct (classify L env prompt) as [e | analysis]; cbn [any_exception analysis_of].
  - apply wp_bind, pattern_wp_print. intros st2 H2. apply wp_ret.
    split; [congruence | reflexivity].
  - auto.
Qed.

Lemma degraded_fields (analysis : json) :
  degraded analysis ->
  py_get analysis "patterns_detected" JNull = inr (JBool false)
  /\ py_get analysis "patterns_detected" (JBool false) = inr (JBool false)
  /\ exists marker, py_getitem analysis "error" = inr (JStr marker).
Proof.
  intros [-> | [e ->]]; repeat split; eexists; reflexivity.
Qed.

Lemma alert_senior_engineer_spec (cfg : Config) (L : Lib) (env : Env) (analysis : json)
    (st : State) :
  wp (alert_senior_engineer cfg L env analysis) st
     (fun _ st' => exists rest, calls st' = calls st ++ rest
                                /\ Forall (fun c => is_invoke_model c = false) rest).
Proof.
  unfold alert_senior_engineer. apply wp_bind, wp_lift.
  destruct (pattern_alert_message L analysis) as [e | message].
  - exists []. split; [now rewrite app_nil_r | constructor].
  - apply wp_bind, pattern_wp_record. intros st1 H1.
    assert (Hdone : forall st2, calls st2 = calls st1 ->
               exists rest, calls st2 = calls st ++ rest
                            /\ Forall (fun c => is_invoke_model c = false) rest).
    { intros st2 H2. eexists. split; [rewrite H2; exact H1 |].
      constructor; [reflexivity | constructor]. }
    apply wp_bind. unfold fail_if.
    destruct (sns_publish_fault env) as [e |].
    + apply wp_raise. now apply Hdone.
    + apply wp_ret. apply pattern_wp_print. intros st2 H2. now apply Hdone.
Qed.

(** The pass on an event that carries an investigation id, when the scan
    goes through. *)
Lemma pattern_handler_spec (cfg : Config) (L : Lib) (env : Env) (ev d : list (string * json))
    (st : State) :
  dict_get ev "detail" (JObj []) = JObj d ->
  truthy (dict_get d "investigation_id" JNull) = true ->
  scan_fault env = None ->
  wp (handler cfg L env (JObj ev)) st
     (pass_outcome cfg L env (dict_get d "investigation_id" JNull) st).
Proof.
  intros Hdetail Hid Hscan. unfold handler.
  apply wp_bind, pattern_wp_print. intros st1 H1.
  apply wp_try. apply wp_bind, wp_lift. cbn [py_get]. rewrite Hdetail.
  apply wp_bind, wp_lift. cbn [py_get]. rewrite Hid. cbn [negb].
  apply wp_bind, wp_ret. apply wp_bind.
  eapply wp_mono; [apply query_recent_investigations_spec |].
  rewrite Hscan. intros r st2 [H2 ->].
  apply wp_bind, pattern_wp_print. intros st3 H3.
  destruct (List.length (recent L env) <? 3)%nat eqn:Hlen.
  - apply Nat.ltb_lt in Hlen.
    apply wp_bind, pattern_wp_print. intros st4 H4. apply wp_ret.
    split; [intros _; split; [reflexivity | congruence] | intros H; lia].
  - apply Nat.ltb_ge in Hlen.
    destruct (build_analysis_prompt L (recent L env)) as [e | prompt] eqn:Hprompt.
    { unfold analyze_patterns_with_bedrock. rewrite Hprompt.
      apply wp_bind, wp_bind, wp_lift. cbn [any_exception].
      apply wp_bind, pattern_wp_print. intros st4 H4. apply wp_raise.
      split; [intros H; lia |]. intros _ prompt H. rewrite Hprompt in H.
      discriminate H. }
    apply wp_bind.
    eapply wp_mono;
      [apply (analyze_patterns_with_bedrock_spec cfg L env _ prompt); exact Hprompt |].
    intros r st4 [H4 ->].
    set (analysis := analysis_of (classify L env prompt)).
    set (scan := Scan (isoformat L (now env - hours 24))).
    set (invoke := InvokeModel (BEDROCK_MODEL_ID cfg) (request_body L prompt)).
    assert (Hcalls4 : calls st4 = calls st ++ [scan; invoke]).
    { rewrite H4, H3, H2, H1. now rewrite <- app_assoc. }
    assert (Hout : forall (r : result response) st5 rest,
               calls st5 = calls st4 ++ rest ->
               Forall (fun c => is_invoke_model c = false) rest ->
               (degraded analysis ->
                r = inr (analysis_complete (JBool false)
                           (dict_get d "investigation_id" JNull))
                /\ rest = []) ->
               pass_outcome cfg L env (dict_get d "investigation_id" JNull) st r st5).
    { intros r st5 rest H5 Hrest Hdeg.
      split; [intros H; lia |]. intros _ prompt0 Heq.
      rewrite Hprompt in Heq. injection Heq as <-.
      split.
      - exists rest. split; [| exact Hrest].
        rewrite H5, Hcalls4. now rewrite <- app_assoc.
      - intros Hd. destruct (Hdeg Hd) as [-> ->]. split; [reflexivity |].
        rewrite H5, app_nil_r. exact Hcalls4. }
    assert (Hraise : forall e st5 rest,
               calls st5 = calls st4 ++ rest ->
               Forall (fun c => is_invoke_model c = false) rest ->
               ~ degraded analysis ->
               wp (print (ErrorInDetection e) ;;; raise e) st5
                  (pass_outcome cfg L env (dict_get d "investigation_id" JNull) st)).
    { intros e st5 rest H5 Hrest Hnot.
      apply wp_bind, pattern_wp_print. intros st6 H6. apply wp_raise.
      apply (Hout _ _ rest); [congruence | exact Hrest |].
      intros Hd. destruct (Hnot Hd). }
    apply wp_bind, wp_lift.
    destruct (py_get analysis "patterns_detected" JNull) as [e | detected] eqn:Hdet;
      cbn [any_exception].
    { apply (Hraise e st4 []); [now rewrite app_nil_r | constructor |].
      intros Hdeg. destruct (degraded_fields _ Hdeg) as [Hd _]. congruence. }
    apply wp_bind.
    apply (wp_mono _ _
             (fun r st' =>
                (exists rest, calls st' = calls st4 ++ rest
                              /\ Forall (fun c => is_invoke_model c = false) rest)
                /\ (degraded analysis -> r = inr tt /\ calls st' = calls st4))).
    { destruct (truthy detected) eqn:Htruthy.
      - eapply wp_mono; [apply alert_senior_engineer_spec |].
        intros r st5 Hrest. split; [exact Hrest |].
        intros Hdeg. destruct (degraded_fields _ Hdeg) as [Hd _].
        rewrite Hd in Hdet. injection Hdet as <-. discriminate Htruthy.
      - apply wp_ret. split; [| auto].
        exists []. split; [now rewrite app_nil_r | constructor]. }
    intros r st5 [(rest & H5 & Hrest) Hdeg5].
    destruct r as [e | []]; cbn [any_exception].
    { apply (Hraise e st5 rest); [exact H5 | exact Hrest |].
      intros Hdeg. destruct (Hdeg5 Hdeg) as [H _]. discriminate H. }
    apply wp_bind, wp_lift.
    destruct (py_get analysis "patterns_detected" (JBool false)) as [e | pd] eqn:Hpd;
      cbn [any_exception].
    { apply (Hraise e st5 rest); [exact H5 | exact Hrest |].
      intros Hdeg. destruct (degraded_fields _ Hdeg) as (_ & Hd & _). congruence. }
    apply wp_ret. apply (Hout _ _ rest); [exact H5 | exact Hrest |].
    intros Hdeg. destruct (degraded_fields _ Hdeg) as (_ & Hd & _).
    rewrite Hd in Hpd. injection Hpd as <-.
    split; [reflexivity |].
    destruct (Hdeg5 Hdeg) as [_ Hsame]. rewrite H5 in Hsame.
    rewrite <- (app_nil_r (calls st4)) in Hsame at 2.
    now apply app_inv_head in Hsame.
Qed.

(** A response text that is prose: the parse failure is printed and the
    pass completes with [patterns_detected] false. *)
Lemma garbled_response_completes :
  fst (handler Sample.pattern_cfg Sample.pattern_lib Sample.env_classifier_garbled
               (Sample.event_of "inv-2" "LOW") Sample.pattern_start)
  = inr (analysis_complete (JBool false) (JStr "inv-2")).
Proof. vm_compute. reflexivity. Qed.

(** Not a failure of the call or of the parse: a response text that is
    JSON of another shape is handed on as it is, and the handler then
    raises on [analysis.get]. *)
Lemma analysis_of_another_shape_raises :
  fst (handler Sample.pattern_cfg Sample.pattern_lib Sample.env_classifier_list
               (Sample.event_of "inv-2" "LOW") Sample.pattern_start)
  = inl (AttributeError "object has no attribute 'get'").
Proof. vm_compute. reflexivity. Qed.

End PatternFacts.

Module PatternClaims.
Import PatternDetector PatternFacts.

(** C6, as stated, fails on the answer: with two records in the window the
    pass makes no classifier call, but what it returns carries a message
    only; there is no [patterns_detected] entry, neither false nor true. *)
Lemma insufficient_data_has_no_patterns_detected :
  let run := handler Sample.pattern_cfg Sample.pattern_lib Sample.env_two_recent
                     (Sample.event_of "inv-2" "LOW") Sample.pattern_start in
  List.length (recent Sample.pattern_lib Sample.env_two_recent) = 2%nat
  /\ exists fields,
       fst run = inr {| statusCode := 200; body := JObj fields |}
       /\ dict_lookup fields "patterns_detected" = None
       /\ dict_lookup fields "patterns_detected" <> Some (JBool false).
Proof.
  split; [vm_compute; reflexivity |].
  eexists. split; [vm_compute; reflexivity |].
  split; [reflexivity | discriminate].
Qed.

(** C6, amended.  On an event that carries an investigation id, with the
    scan answered: when fewer than 3 records lie in the trailing 24 hours,
    the pass returns the "Insufficient data for pattern detection" answer,
    which has no [patterns_detected] entry, after the scan alone (no
    classifier call, no alert); when 3 or more do and the prompt can be
    built from them, the classifier is invoked, exactly once, right after
    the scan. *)
Theorem correlation_threshold
    (cfg : Config) (L : Lib) (env : Env) (ev d : list (string * json)) (st : State) :
  dict_get ev "detail" (JObj []) = JObj d ->
  truthy (dict_get d "investigation_id" JNull) = true ->
  scan_fault env = None ->
  let run := handler cfg L env (JObj ev) st in
  let scan := Scan (isoformat L (now env - hours 24)) in
  ((List.length (recent L env) < 3)%nat ->
   fst run = inr insufficient_data
   /\ calls (snd run) = calls st ++ [scan]
   /\ classifier_calls (snd run) = classifier_calls st)
  /\ py_get (body insufficient_data) "patterns_detected" JNull = inr JNull
  /\ ((3 <= List.length (recent L env))%nat ->
      forall prompt,
        build_analysis_prompt L (recent L env) = inr prompt ->
        (exists rest,
            calls (snd run)
            = calls st ++ [scan; InvokeModel (BEDROCK_MODEL_ID cfg) (request_body L prompt)]
              ++ rest
            /\ Forall (fun c => is_invoke_model c = false) rest)
        /\ classifier_calls (snd run) = S (classifier_calls st)).
Proof.
  intros Hdetail Hid Hscan run scan.
  destruct (wp_run _ _ _ (pattern_handler_spec cfg L env ev d st Hdetail Hid Hscan))
    as [Hfew Hmany].
  fold run in Hfew, Hmany.
  split; [| split; [reflexivity |]].
  - intros Hlen. destruct (Hfew Hlen) as [Hr Hc]. split; [exact Hr |].
    split; [exact Hc |].
    unfold classifier_calls. rewrite Hc, filter_app. cbn [filter is_invoke_model].
    now rewrite app_nil_r.
  - intros Hlen prompt Hprompt.
    destruct (Hmany Hlen prompt Hprompt) as [(rest & Hc & Hrest) _].
    split; [exists rest; split; assumption |].
    unfold classifier_calls. rewrite Hc, !filter_app. cbn [filter is_invoke_model].
    assert (Hnone : filter is_invoke_model rest = []).
    { clear Hc. induction Hrest as [| c rest Hc Hrest IH]; [reflexivity |].
      cbn [filter]. now rewrite Hc. }
    rewrite Hnone, !length_app. cbn [List.length]. lia.
Qed.

Lemma correlation_threshold_witness :
  let run := handler Sample.pattern_cfg Sample.pattern_lib Sample.env_two_recent
                     (Sample.event_of "inv-2" "LOW") Sample.pattern_start in
  fst run = inr insufficient_data /\ classifier_calls (snd run) = 0%nat.
Proof.
  destruct (correlation_threshold Sample.pattern_cfg Sample.pattern_lib
              Sample.env_two_recent
              [ ("source", JStr "devops.investigation");
                ("detail-type", JStr "InvestigationCompleted");
                ("detail", Sample.detail_of "inv-2" "LOW") ]
              (match Sample.detail_of "inv-2" "LOW" with JObj d => d | _ => [] end)
              Sample.pattern_start eq_refl eq_refl eq_refl) as [Hfew _].
  assert (Hlen : (List.length (recent Sample.pattern_lib Sample.env_two_recent) < 3)%nat)
    by (vm_compute; repeat constructor).
  destruct (Hfew Hlen) as (Hr & _ & Hc).
  split; [exact Hr | exact Hc].
Defined.

(** The failures the code does catch.  Once the prompt is built,
    [analyze_patterns_with_bedrock] always returns an analysis.  Whatever
    the classifier call or the decoding of its response raises is turned
    into an analysis with [patterns_detected] false and the text of the
    exception under [error]; a response text that is not JSON gives,
    inside [parse_bedrock_response], the analysis with [patterns_detected]
    false and the marker "Failed to parse Bedrock response".  With such an
    analysis the pass answers "Pattern analysis complete", with
    [patterns_detected] false, after the scan and the classifier call and
    without an alert. *)
Theorem classifier_failure_degrades (cfg : Config) (L : Lib) (env : Env) :
  (forall investigations prompt st,
      build_analysis_prompt L investigations = inr prompt ->
      (exists analysis,
          fst (analyze_patterns_with_bedrock cfg L env investigations st) = inr analysis)
      /\ (forall e,
             fst (call_and_parse cfg L env prompt st) = inl e ->
             fst (analyze_patterns_with_bedrock cfg L env investigations st)
             = inr (call_failure e))
      /\ (forall e,
             invoke_model_reply env (request_body L prompt) = inl e ->
             fst (analyze_patterns_with_bedrock cfg L env investigations st)
             = inr (call_failure e)))
  /\ (forall text st,
         json_loads L (clean_response_text text) = None ->
         fst (parse_bedrock_response L (JStr text) st) = inr parse_failure)
  /\ (forall analysis,
         degraded analysis ->
         py_get analysis "patterns_detected" JNull = inr (JBool false)
         /\ exists marker, py_getitem analysis "error" = inr (JStr marker))
  /\ (forall ev d prompt st,
         dict_get ev "detail" (JObj []) = JObj d ->
         truthy (dict_get d "investigation_id" JNull) = true ->
         scan_fault env = None ->
         (3 <= List.length (recent L env))%nat ->
         build_analysis_prompt L (recent L env) = inr prompt ->
         degraded (analysis_of (classify L env prompt)) ->
         fst (handler cfg L env (JObj ev) st)
         = inr (analysis_complete (JBool false) (dict_get d "investigation_id" JNull))
         /\ calls (snd (handler cfg L env (JObj ev) st))
            = calls st ++ [ Scan (isoformat L (now env - hours 24));
                            InvokeModel (BEDROCK_MODEL_ID cfg) (request_body L prompt) ]).
Proof.
  split; [| split; [| split]].
  - intros investigations prompt st Hprompt.
    destruct (wp_run _ _ _
                (analyze_patterns_with_bedrock_spec cfg L env investigations prompt st
                   Hprompt)) as [_ Hr].
    destruct (wp_run _ _ _ (call_and_parse_spec cfg L env prompt st)) as [_ Hc].
    split; [eauto |]. split.
    + intros e He. rewrite Hr. rewrite Hc in He. now rewrite He.
    + intros e He. rewrite Hr. unfold classify. now rewrite He.
  - intros text st Hnone.
    destruct (wp_run _ _ _ (parse_bedrock_response_spec L (JStr text) st)) as [_ Hr].
    rewrite Hr. now rewrite Hnone.
  - intros analysis Hdeg.
    destruct (degraded_fields analysis Hdeg) as (H1 & _ & H3). auto.
  - intros ev d prompt st Hdetail Hid Hscan Hlen Hprompt Hdeg.
    destruct (wp_run _ _ _ (pattern_handler_spec cfg L env ev d st Hdetail Hid Hscan))
      as [_ Hmany].
    exact (proj2 (Hmany Hlen prompt Hprompt) Hdeg).
Qed.

(** The throttled classifier of the sample: the analysis carries the
    error, and the pass completes. *)
Lemma classifier_failure_degrades_witness :
  fst (analyze_patterns_with_bedrock Sample.pattern_cfg Sample.pattern_lib
         Sample.env_classifier_down Sample.three_recent Sample.pattern_start)
  = inr (call_failure (ClientError "ThrottlingException")).
Proof.
  apply (proj2 (proj2 (proj1 (classifier_failure_degrades Sample.pattern_cfg
                                Sample.pattern_lib Sample.env_classifier_down)
                         Sample.three_recent
                         (match build_analysis_prompt Sample.pattern_lib Sample.three_recent
                          with inr p => p | inl _ => EmptyString end)
                         Sample.pattern_start eq_refl))).
  reflexivity.
Defined.

(** C8 fails on a response text that is JSON of another shape than the
    analysis object, here the text of an empty list.
    [parse_bedrock_response] decodes it without an error and hands the
    list on, so [analyze_patterns_with_bedrock] returns the list itself:
    no analysis with [patterns_detected] false and an error marker is
    made.  The handler then raises [AttributeError] on [analysis.get],
    after the scan and the classifier call: the parse failure leaves the
    pass as a crash. *)
Theorem response_of_another_shape_crashes_pass :
  let run := handler Sample.pattern_cfg Sample.pattern_lib Sample.env_classifier_list
                     (Sample.event_of "inv-2" "LOW") Sample.pattern_start in
  fst (parse_bedrock_response Sample.pattern_lib (JStr "[]") Sample.pattern_start)
  = inr (JArr [])
  /\ fst (analyze_patterns_with_bedrock Sample.pattern_cfg Sample.pattern_lib
            Sample.env_classifier_list Sample.three_recent Sample.pattern_start)
     = inr (JArr [])
  /\ ~ degraded (JArr [])
  /\ py_get (JArr []) "patterns_detected" JNull
     = inl (AttributeError "object has no attribute 'get'")
  /\ fst run = inl (AttributeError "object has no attribute 'get'")
  /\ map is_invoke_model (calls (snd run)) = [false; true].
Proof.
  cbv zeta. split; [vm_compute; reflexivity |]. split; [vm_compute; reflexivity |].
  split.
  - intros [H | [e H]]; discriminate H.
  - split; [reflexivity |]. split; vm_compute; reflexivity.
Qed.

End PatternClaims.

(* ===================================================================== *)
(** * Further properties of the handlers                                *)
(* ===================================================================== *)

(** ** More on the investigation monitor *)

Module MonitorBehaviour.
Import InvestigationMonitor MonitorFacts MonitorOutcome.

(** *** Resource types *)

Lemma existsb_eqb_In (x : string) (l : list string) :
  existsb (String.eqb x) l = true <-> In x l.
Proof.
  rewrite existsb_exists. split.
  - intros (y & Hy & Heq). apply String.eqb_eq in Heq. now subst.
  - intros H. exists x. split; [exact H | apply String.eqb_refl].
Qed.

Lemma set_add_spec (x : string) (types : list string) :
  NoDup types ->
  NoDup (set_add x types) /\ forall t, In t (set_add x types) <-> t = x \/ In t types.
Proof.
  intros Hnd. unfold set_add.
  destruct (existsb (String.eqb x) types) eqn:Hex.
  - apply existsb_eqb_In in Hex. split; [exact Hnd |].
    intros t. split; [auto | intros [-> | H]; assumption].
  - assert (Hnot : ~ In x types).
    { intros H. apply existsb_eqb_In in H. congruence. }
    split.
    + apply NoDup_app; [exact Hnd | repeat constructor; intros [] | ].
      intros a Ha [<- | []]. exact (Hnot Ha).
    + intros t. rewrite in_app_iff. cbn [In]. intuition (subst; auto).
Qed.

Lemma add_resource_type_spec (types : list string) (resource : json) :
  NoDup types ->
  NoDup (add_resource_type types resource)
  /\ forall t, In t (add_resource_type types resource)
               <-> In t types
                   \/ exists r, resource = JStr r /\ resource_type_of r = Some t.
Proof.
  intros Hnd.
  assert (Hskip : (forall r t, resource = JStr r -> resource_type_of r <> Some t) ->
                  add_resource_type types resource = types ->
                  NoDup (add_resource_type types resource)
                  /\ forall t, In t (add_resource_type types resource)
                               <-> In t types
                                   \/ exists r, resource = JStr r
                                                /\ resource_type_of r = Some t).
  { intros Hnone ->. split; [exact Hnd |]. intros t. split; [auto |].
    intros [H | (r & Hr & Ht)]; [exact H | destruct (Hnone r t Hr Ht)]. }
  destruct resource as [| b | n | r | l | d];
    try (apply Hskip; [intros r t Hr; discriminate Hr | reflexivity]).
  destruct (resource_type_of r) as [ty |] eqn:Hty.
  - assert (Hadd : add_resource_type types (JStr r) = set_add ty types).
    { unfold resource_type_of in Hty. unfold add_resource_type.
      destruct (String.prefix "arn:" r); [| discriminate Hty].
      destruct (6 <=? List.length (split_on ":" r))%nat; [| discriminate Hty].
      now injection Hty as <-. }
    rewrite Hadd. destruct (set_add_spec ty types Hnd) as [Hnd' Hin].
    split; [exact Hnd' |]. intros t. rewrite Hin. split.
    + intros [-> | H]; [right; exists r; split; [reflexivity | exact Hty] | now left].
    + intros [H | (r' & Hr' & Ht)]; [now right |].
      injection Hr' as <-. left. congruence.
  - apply Hskip.
    + intros r' t Hr'. injection Hr' as <-. congruence.
    + unfold resource_type_of in Hty. unfold add_resource_type.
      destruct (String.prefix "arn:" r); [| reflexivity].
      destruct (6 <=? List.length (split_on ":" r))%nat; [discriminate Hty | reflexivity].
Qed.

Lemma fold_add_resource_type_spec (items : list json) :
  forall types,
    NoDup types ->
    NoDup (fold_left add_resource_type items types)
    /\ forall t, In t (fold_left add_resource_type items types)
                 <-> In t types
                     \/ exists r, In (JStr r) items /\ resource_type_of r = Some t.
Proof.
  induction items as [| item items IH]; intros types Hnd; cbn [fold_left].
  - split; [exact Hnd |]. intros t. split; [auto |].
    intros [H | (r & [] & _)]. exact H.
  - destruct (add_resource_type_spec types item Hnd) as [Hnd1 Hin1].
    destruct (IH _ Hnd1) as [Hnd2 Hin2].
    split; [exact Hnd2 |]. intros t. rewrite Hin2, Hin1. cbn [In]. split.
    + intros [[H | (r & -> & Ht)] | (r & Hr & Ht)]; eauto.
    + intros [H | (r & [-> | Hr] & Ht)]; eauto.
Qed.

(** X1.  [extract_resource_types] answers exactly when its argument can
    be iterated; the answer lists no type twice, and a type is listed
    exactly when it is the upper-cased service segment of some string item
    that starts with [arn:] and has at least six colon-separated
    segments.  Items that are not strings, or not of that form, are passed
    over without an error. *)
Theorem extract_resource_types_exact (resources : json) (items : list json) :
  py_iter resources = inr items ->
  exists types,
    extract_resource_types resources = inr (JArr (map JStr types))
    /\ NoDup types
    /\ forall t, In t types
                 <-> exists r, In (JStr r) items /\ resource_type_of r = Some t.
Proof.
  intros Hiter. unfold extract_resource_types. rewrite Hiter.
  destruct (fold_add_resource_type_spec items [] (NoDup_nil _)) as [Hnd Hin].
  eexists. split; [reflexivity |]. split; [exact Hnd |].
  intros t. rewrite Hin. cbn [In]. tauto.
Qed.

Lemma extract_resource_types_exact_witness :
  exists types,
    extract_resource_types
      (JArr [ JStr "arn:aws:lambda:us-east-1:111122223333:function:foo";
              JNum 7;
              JStr "arn:aws:lambda:us-east-1:111122223333:function:bar";
              JStr "i-0123456789" ])
    = inr (JArr (map JStr types))
    /\ NoDup types.
Proof.
  destruct (extract_resource_types_exact
              (JArr [ JStr "arn:aws:lambda:us-east-1:111122223333:function:foo";
                      JNum 7;
                      JStr "arn:aws:lambda:us-east-1:111122223333:function:bar";
                      JStr "i-0123456789" ])
              _ eq_refl) as (types & Hr & Hnd & _).
  exists types. split; assumption.
Defined.

(** *** The formatted event *)

Lemma str_take_length (n : nat) (s : string) : (String.length (str_take n s) <= n)%nat.
Proof.
  revert s. induction n as [| n IH]; intros [| c s]; simpl; try lia.
  specialize (IH s). lia.
Qed.

Lemma str_take_prefix (n : nat) (s : string) : String.prefix (str_take n s) s = true.
Proof.
  revert s. induction n as [| n IH]; intros [| c s]; simpl; try reflexivity.
  rewrite IH. destruct (ascii_dec c c); [reflexivity | congruence].
Qed.

(** X2.  A formatted event keeps a bounded summary: at most the first
    five affected resources, in the order received; the category computed
    from the whole root-cause text; and as excerpt the redaction of the
    first 200 characters of that text at most. *)
Theorem summary_is_bounded (cfg : Config) (L : Lib) (inv : investigation) (event : json) :
  build_event cfg L inv = inr event ->
  exists first5 types text,
    root_cause inv = JStr text
    /\ py_getitem event "summary"
       = inr (JObj [ ("affected_resources", first5);
                     ("resource_types", types);
                     ("duration_minutes", duration_minutes inv);
                     ("root_cause_category", JStr (categorize_root_cause text));
                     ("root_cause_brief",
                        JStr (redact_sensitive_data L (str_take 200 text)));
                     ("mitigation_status", JStr "plan_generated") ])
    /\ (String.length (str_take 200 text) <= 200)%nat
    /\ String.prefix (str_take 200 text) text = true
    /\ match affected_resources inv with
       | JArr l => first5 = JArr (firstn 5 l) /\ (List.length (firstn 5 l) <= 5)%nat
       | JStr s => first5 = JStr (str_take 5 s)
       | _ => False
       end.
Proof.
  unfold build_event. intros H.
  destruct (py_slice_to 5 (affected_resources inv)) as [e | first5] eqn:Hslice;
    [discriminate H |].
  destruct (extract_resource_types (affected_resources inv)) as [e | types];
    [discriminate H |].
  destruct (root_cause inv) as [| b | n | text | l | d]; try discriminate H.
  cbn [as_str] in H. injection H as <-.
  exists first5, types, text.
  split; [reflexivity |]. split; [reflexivity |].
  split; [apply str_take_length |]. split; [apply str_take_prefix |].
  destruct (affected_resources inv) as [| b | n | s | l | d]; try discriminate Hslice.
  - cbn [py_slice_to] in Hslice. now injection Hslice as <-.
  - cbn [py_slice_to] in Hslice. injection Hslice as <-.
    split; [reflexivity |]. apply firstn_le_length.
Qed.

Lemma summary_is_bounded_witness :
  exists event,
    build_event Sample.monitor_cfg Sample.monitor_lib MoreSamples.inv_seven = inr event
    /\ exists summary,
         py_getitem event "summary" = inr (JObj summary)
         /\ dict_lookup summary "affected_resources"
            = Some (JArr [JStr "r1"; JStr "r2"; JStr "r3"; JStr "r4"; JStr "r5"]).
Proof.
  destruct (build_event Sample.monitor_cfg Sample.monitor_lib MoreSamples.inv_seven)
    as [e | event] eqn:Hbuild; [discriminate Hbuild |].
  exists event. split; [reflexivity |].
  destruct (summary_is_bounded Sample.monitor_cfg Sample.monitor_lib
              MoreSamples.inv_seven event Hbuild)
    as (first5 & types & text & _ & Hsummary & _ & _ & Hfirst).
  cbn [MoreSamples.inv_seven affected_resources] in Hfirst. destruct Hfirst as [-> _].
  eexists. split; [exact Hsummary | reflexivity].
Defined.

(** X3.  The event of an investigation can be built (the step of
    [format_investigation_event] before its size check) exactly when its
    affected resources are a list or a text and its root cause is a text;
    a [null] or a number in either place makes
    [format_investigation_event] raise.  An investigation that cannot be formatted is passed over: the
    loop prints the error and goes on, with the same count and without a
    call on the bus. *)
Theorem unformattable_is_dropped (cfg : Config) (L : Lib) (env : Env)
    (inv : investigation) :
  ((exists event, build_event cfg L inv = inr event)
   <-> is_list_or_str (affected_resources inv) = true /\ is_str (root_cause inv) = true)
  /\ (forall e rest count st,
         build_event cfg L inv = inl e ->
         process_investigations cfg L env (inv :: rest) count st
         = process_investigations cfg L env rest count
             (logged (ErrorProcessing (investigation_id inv) e) st)).
Proof.
  split.
  - unfold build_event, is_list_or_str, is_str, extract_resource_types.
    destruct (affected_resources inv) as [| b | n | s | l | d];
      destruct (root_cause inv) as [| b' | n' | text | l' | d'];
      cbn [py_slice_to py_iter as_str];
      split;
      try (intros [event H]; discriminate H);
      try (intros [H1 H2]; discriminate);
      try (intros _; split; reflexivity);
      try (intros _; eexists; reflexivity).
  - intros e rest count st Hbuild.
    cbn [process_investigations]. unfold bind at 1, try_except, bind at 1.
    unfold format_investigation_event, bind at 1, lift. rewrite Hbuild.
    reflexivity.
Qed.

Lemma unformattable_is_dropped_witness :
  process_investigations Sample.monitor_cfg Sample.monitor_lib Sample.env_two
    [MoreSamples.inv_null_cause; Sample.inv_small] 0 Sample.monitor_start
  = process_investigations Sample.monitor_cfg Sample.monitor_lib Sample.env_two
      [Sample.inv_small] 0
      (logged (ErrorProcessing (JStr "inv-3")
                 (AttributeError "object has no attribute 'lower'"))
              Sample.monitor_start).
Proof.
  apply (proj2 (unformattable_is_dropped Sample.monitor_cfg Sample.monitor_lib
                  Sample.env_two MoreSamples.inv_null_cause)).
  reflexivity.
Defined.

(** *** The poll *)

Lemma scan_event_run (L : Lib) (event : log_event) (acc : list investigation)
    (st : State) :
  scan_event L event (acc, st)
  = match json_loads L (message event) with
    | None => (inr tt, (acc, logged (CouldNotParse (message event)) st))
    | Some (JObj d) =>
        if eq_str (dict_get d "status" JNull) "COMPLETED"
        then (inr tt, (acc ++ [investigation_of d (timestamp event)], st))
        else (inr tt, (acc, st))
    | Some _ => (inl (AttributeError "object has no attribute 'get'"), (acc, st))
    end.
Proof.
  unfold scan_event, try_except, bind, lift, ret, raise.
  destruct (json_loads L (message event)) as [v |]; [| reflexivity].
  destruct v as [| b | n | s | l | d]; try reflexivity.
  cbn [py_get]. destruct (eq_str (dict_get d "status" JNull) "COMPLETED"); reflexivity.
Qed.

Lemma scan_gathers (L : Lib) (events : list log_event) :
  forall (acc : list investigation) (st : State),
    fst (snd (for_each events (scan_event L) (acc, st))) = gather L events acc.
Proof.
  induction events as [| event rest IH]; intros acc st; cbn [for_each gather].
  - reflexivity.
  - unfold bind. rewrite scan_event_run.
    destruct (json_loads L (message event)) as [v |]; [| apply IH].
    destruct v as [| b | n | s | l | d]; try reflexivity.
    destruct (eq_str (dict_get d "status" JNull) "COMPLETED"); apply IH.
Qed.

Lemma poll_result_correct (L : Lib) (env : Env) (since : Z) (st : State) :
  fst (get_completed_investigations L env since st) = inr (poll_result L env since).
Proof.
  unfold get_completed_investigations, with_local, poll_result, filter_log_events.
  unfold bind at 1, try_except, bind at 1, lift.
  destruct (logs env) as [| e | events].
  - reflexivity.
  - cbn [any_exception]. destruct (is_ResourceNotFoundException e); reflexivity.
  - pose proof (scan_gathers L
                  (filter (fun ev => (since_timestamp_of since <=? timestamp ev)
                                     && filter_matches L (message ev)) events) [] st)
      as Hscan.
    destruct (for_each _ (scan_event L) ([], st)) as [[e | []] [acc st1]].
    + cbn [fst snd] in Hscan. subst acc. cbn [any_exception].
      destruct (is_ResourceNotFoundException e); reflexivity.
    + cbn [fst snd] in Hscan. subst acc. reflexivity.
Qed.

Lemma gather_contributions (L : Lib) (events : list log_event) :
  forall acc, gather L events acc = acc ++ contributions L (scanned L events).
Proof.
  induction events as [| event rest IH]; intros acc; cbn [gather scanned].
  - cbn [contributions flat_map]. now rewrite app_nil_r.
  - unfold ends_scan.
    destruct (json_loads L (message event)) as [[| b | n | s | l | d] |] eqn:Hload;
      try (cbn [contributions flat_map]; now rewrite app_nil_r).
    + cbn [contributions flat_map]. unfold completed_of at 1. rewrite Hload.
      destruct (eq_str (dict_get d "status" JNull) "COMPLETED").
      * rewrite IH, <- app_assoc. reflexivity.
      * apply IH.
    + cbn [contributions flat_map]. unfold completed_of at 1. rewrite Hload.
      apply IH.
Qed.

Lemma poll_result_contributions (L : Lib) (env : Env) (since : Z) :
  poll_result L env since = contributions L (scanned L (returned L env since)).
Proof.
  unfold poll_result, returned. destruct (logs env); try reflexivity.
  apply gather_contributions.
Qed.

Lemma scanned_all (L : Lib) (events : list log_event) :
  forallb (fun ev => negb (ends_scan L ev)) events = true -> scanned L events = events.
Proof.
  induction events as [| event rest IH]; cbn [forallb scanned]; [reflexivity |].
  intros H. apply andb_true_iff in H. destruct H as [Hev Hrest].
  destruct (ends_scan L event); [discriminate Hev |]. now rewrite IH.
Qed.

Lemma scanned_stops (L : Lib) (before after : list log_event) (event : log_event) :
  forallb (fun ev => negb (ends_scan L ev)) before = true ->
  ends_scan L event = true ->
  scanned L (before ++ event :: after) = before.
Proof.
  intros Hbefore Hev. induction before as [| b before IH]; cbn [app scanned].
  - now rewrite Hev.
  - cbn [forallb] in Hbefore. apply andb_true_iff in Hbefore.
    destruct Hbefore as [Hb Hrest].
    destruct (ends_scan L b); [discriminate Hb |]. now rewrite IH.
Qed.

Lemma scanned_length (L : Lib) (events : list log_event) :
  (List.length (scanned L events) <= List.length events)%nat.
Proof.
  induction events as [| event rest IH]; cbn [scanned List.length]; [lia |].
  destruct (ends_scan L event); cbn [List.length]; lia.
Qed.

Lemma contributions_length (L : Lib) (events : list log_event) :
  (List.length (contributions L events) <= List.length events)%nat.
Proof.
  induction events as [| event rest IH]; cbn [contributions flat_map List.length];
    [lia |].
  rewrite length_app. fold (contributions L rest).
  destruct (completed_of L event); cbn [List.length]; lia.
Qed.

(** X4.  A poll never raises, whatever state it starts from.  It goes
    through the log events the query returns, in log order, up to the
    first one whose message is JSON but not an object: on such a message
    [investigation_data.get] raises past the handler for
    [JSONDecodeError], which ends the scan, and the events after it are
    lost.  The result holds, in that order, one investigation for each
    scanned event whose message decodes to an object with status
    [COMPLETED]; a message that is not JSON, or an object with another
    status, contributes nothing.  When no returned message is such a
    value every returned event is scanned; a missing log group or a failed
    query returns no event; and there are never more investigations than
    returned events. *)
Theorem poll_gathers_completed (L : Lib) (env : Env) (since : Z) (st : State) :
  let events := returned L env since in
  fst (get_completed_investigations L env since st)
  = inr (contributions L (scanned L events))
  /\ (query_failed env = true -> events = [])
  /\ (forallb (fun ev => negb (ends_scan L ev)) events = true ->
      scanned L events = events)
  /\ (forall before event after,
         events = before ++ event :: after ->
         forallb (fun ev => negb (ends_scan L ev)) before = true ->
         ends_scan L event = true ->
         scanned L events = before)
  /\ (List.length (contributions L (scanned L events)) <= List.length events)%nat.
Proof.
  intros events.
  split; [rewrite poll_result_correct; f_equal; apply poll_result_contributions |].
  split; [unfold events, query_failed, returned; destruct (logs env); congruence |].
  split; [apply scanned_all |].
  split.
  - intros before event after -> Hbefore Hev. now apply scanned_stops.
  - pose proof (contributions_length L (scanned L events)).
    pose proof (scanned_length L events). lia.
Qed.

(** A list between two completed investigations: the second one is
    lost. *)
Lemma poll_gathers_completed_witness :
  scanned MoreSamples.lib_with_list
          (returned MoreSamples.lib_with_list MoreSamples.env_list_between Sample.noon)
  = [Sample.log_of Sample.noon_ms Sample.doc1]
  /\ List.length (contributions MoreSamples.lib_with_list
                     (returned MoreSamples.lib_with_list MoreSamples.env_list_between
                        Sample.noon)) = 2%nat.
Proof.
  split; [| vm_compute; reflexivity].
  apply (proj1 (proj2 (proj2 (proj2 (poll_gathers_completed MoreSamples.lib_with_list
                                       MoreSamples.env_list_between Sample.noon
                                       Sample.monitor_start))))
           [Sample.log_of Sample.noon_ms Sample.doc1]
           (Sample.log_of (Sample.noon_ms + 1000) MoreSamples.list_doc)
           [Sample.log_of Sample.noon_01_ms Sample.doc2]);
    vm_compute; reflexivity.
Defined.

(** *** The loop and the cycle *)

Lemma build_event_id (cfg : Config) (L : Lib) (inv : investigation) (event : json) :
  build_event cfg L inv = inr event ->
  py_getitem event "investigation_id" = inr (investigation_id inv).
Proof.
  unfold build_event. intros H.
  destruct (py_slice_to 5 (affected_resources inv)); [discriminate H |].
  destruct (extract_resource_types (affected_resources inv)); [discriminate H |].
  destruct (as_str "lower" (root_cause inv)); [discriminate H |].
  injection H as <-. reflexivity.
Qed.

Lemma accepted_app (c1 c2 : list (string * put_reply)) :
  accepted (c1 ++ c2) = (accepted c1 + accepted c2)%nat.
Proof. unfold accepted. now rewrite filter_app, length_app. Qed.

Lemma send_exact (L : Lib) (env : Env) (event id : json) (st : State) :
  py_getitem event "investigation_id" = inr id ->
  wp (send_to_central_eventbridge L env event) st
     (fun r st' =>
        let reply := put_events_reply env (List.length (bus st)) in
        ssm_param st' = ssm_param st
        /\ bus st' = bus st ++ [(json_dumps L event, reply)]
        /\ (r = inr tt <-> reply = PutAccepted)).
Proof.
  intros Hid. unfold send_to_central_eventbridge. apply wp_bind.
  unfold wp at 1, put_events. cbn [fst snd].
  set (st1 := {| ssm_param := ssm_param st; bus := _; out := out st |}).
  assert (H1 : ssm_param st1 = ssm_param st /\
               bus st1 = bus st ++ [(json_dumps L event,
                                     put_events_reply env (List.length (bus st)))])
    by (split; reflexivity).
  clearbody st1. destruct H1 as [Hp Hb].
  destruct (put_events_reply env (List.length (bus st))) as [| code | e].
  - rewrite Hid. apply wp_bind, wp_lift.
    apply wp_bind, monitor_wp_print. intros st2 [Hp2 Hb2] _.
    apply monitor_wp_print. intros st3 [Hp3 Hb3] _.
    split; [congruence |]. split; [congruence |]. split; reflexivity.
  - apply wp_raise. split; [exact Hp |]. split; [exact Hb |].
    split; intros H; discriminate H.
  - apply wp_raise. split; [exact Hp |]. split; [exact Hb |].
    split; intros H; discriminate H.
Qed.

Lemma counted_nothing (st st' : State) (count bound : nat) :
  same_store st st' -> counted st count bound (inr count) st'.
Proof.
  intros [Hp Hb]. split; [exact Hp |]. exists [].
  rewrite app_nil_r. split; [exact Hb |]. split; [cbn; lia |].
  unfold accepted. cbn. now rewrite Nat.add_0_r.
Qed.

Lemma process_one_counts (cfg : Config) (L : Lib) (env : Env) (inv : investigation)
    (count : nat) (st : State) :
  wp (try_except
        (formatted_event <- format_investigation_event cfg L inv ;;
         send_to_central_eventbridge L env formatted_event ;;;
         ret (S count))
        any_exception
        (fun e => print (ErrorProcessing (investigation_id inv) e) ;;; ret count))
     st (counted st count 1).
Proof.
  apply wp_try. apply wp_bind.
  eapply wp_mono; [apply format_investigation_event_spec |].
  intros [e | event] st1 [Hs1 Hev]; cbn [any_exception].
  - apply wp_bind, monitor_wp_print. intros st2 Hs2 _. apply wp_ret.
    apply counted_nothing. eapply same_store_trans; eassumption.
  - destruct Hev as [Hbuild _]. apply wp_bind.
    eapply wp_mono;
      [apply (send_exact L env event _ st1 (build_event_id cfg L inv event Hbuild)) |].
    intros r st2 (Hp2 & Hb2 & Hr).
    destruct Hs1 as [Hp1 Hb1].
    cbv zeta in Hb2, Hr.
    remember (put_events_reply env (List.length (bus st1))) as reply eqn:Hreply.
    clear Hreply.
    assert (Hcalls : forall st3, same_store st2 st3 ->
               forall n, n = (count + accepted [(json_dumps L event, reply)])%nat ->
               counted st count 1 (inr n) st3).
    { intros st3 [Hp3 Hb3] n ->. split; [congruence |].
      exists [(json_dumps L event, reply)].
      split; [congruence |]. split; [cbn; lia | reflexivity]. }
    destruct r as [e | []]; cbn [any_exception].
    + apply wp_bind, monitor_wp_print. intros st3 Hs3 _. apply wp_ret.
      apply Hcalls; [exact Hs3 |].
      unfold accepted, is_accepted. cbn [filter snd].
      destruct reply; [| cbn; lia | cbn; lia].
      discriminate (proj2 Hr eq_refl).
    + apply wp_ret. apply Hcalls; [apply same_store_refl |].
      rewrite (proj1 Hr eq_refl). unfold accepted. cbn. lia.
Qed.

Lemma process_investigations_counts (cfg : Config) (L : Lib) (env : Env)
    (invs : list investigation) :
  forall (count : nat) (st : State),
    wp (process_investigations cfg L env invs count) st
       (counted st count (List.length invs)).
Proof.
  induction invs as [| inv rest IH]; intros count st; cbn [process_investigations].
  - apply wp_ret. apply counted_nothing. apply same_store_refl.
  - apply wp_bind. eapply wp_mono; [apply process_one_counts |].
    intros r st1 (Hp1 & c1 & Hb1 & Hl1 & ->).
    eapply wp_mono; [apply IH |].
    intros r st2 (Hp2 & c2 & Hb2 & Hl2 & ->).
    split; [congruence |]. exists (c1 ++ c2).
    split; [rewrite Hb2, Hb1; now rewrite app_assoc |].
    split; [rewrite length_app; cbn [List.length]; lia |].
    rewrite accepted_app. f_equal. lia.
Qed.

Lemma get_completed_investigations_exact (L : Lib) (env : Env) (since : Z) (st : State) :
  wp (get_completed_investigations L env since) st
     (fun r st' => r = inr (poll_result L env since) /\ same_store st st').
Proof.
  unfold wp. split; [apply poll_result_correct |].
  exact (proj1 (wp_run _ _ _ (get_completed_investigations_spec L env since st))).
Qed.

Lemma get_last_processed_time_run (env : Env) (st : State) :
  get_last_processed_time env st
  = match ssm_get_fault env with
    | Some msg => (inl (ClientError msg), st)
    | None => (inr (since_read env st), st)
    end.
Proof.
  unfold get_last_processed_time, ssm_get_parameter, try_except, since_read.
  destruct (ssm_get_fault env); [reflexivity |].
  destruct (ssm_param st); reflexivity.
Qed.

Lemma handler_cycle_cases (cfg : Config) (L : Lib) (env : Env) (st : State) :
  wp (handler cfg L env) st (cycle_cases cfg L env st).
Proof.
  unfold handler, cycle_cases.
  apply wp_bind, monitor_wp_print. intros st0 [Hp0 Hb0] _.
  apply wp_try. apply wp_bind.
  unfold wp at 1. rewrite get_last_processed_time_run.
  destruct (ssm_get_fault env) as [msg |]; cbn [fst snd any_exception].
  { apply wp_bind, monitor_wp_print. intros st2 [Hp2 Hb2] _. apply wp_raise.
    split; [reflexivity |]. split; congruence. }
  assert (Hsince : since_read env st0 = since_read env st).
  { unfold since_read. now rewrite Hp0. }
  rewrite Hsince.
  apply wp_bind, monitor_wp_print. intros st2 [Hp2 Hb2] _.
  apply wp_bind.
  eapply wp_mono; [apply get_completed_investigations_exact |].
  intros r st3 [-> [Hp3 Hb3]].
  destruct (poll_result L env (since_read env st)) as [| first rest].
  - apply wp_bind, monitor_wp_print. intros st4 [Hp4 Hb4] _. apply wp_ret.
    split; [reflexivity |]. split; congruence.
  - apply wp_bind, monitor_wp_print. intros st4 [Hp4 Hb4] _.
    apply wp_bind.
    eapply wp_mono; [apply process_investigations_counts |].
    intros r st5 (Hp5 & calls & Hb5 & Hlen & ->).
    apply wp_bind.
    unfold update_last_processed_time, ssm_put_parameter, wp at 1.
    destruct (ssm_put_fault env) as [msg |]; cbn [fst snd any_exception].
    + apply wp_bind, monitor_wp_print. intros st6 [Hp6 Hb6] _. apply wp_raise.
      exists calls. split; [congruence |]. split; [exact Hlen |].
      split; [reflexivity | congruence].
    + apply wp_ret. exists calls. split; [cbn [bus]; congruence |].
      split; [exact Hlen |]. split; reflexivity.
Qed.

(** X5.  The loop over the polled investigations never raises and never
    touches the watermark; it makes at most one call on the bus for each
    investigation, and the count it returns is the count it started from
    plus the number of calls the bus accepted. *)
Theorem processed_count_is_accepted (cfg : Config) (L : Lib) (env : Env)
    (invs : list investigation) (count : nat) (st : State) :
  let run := process_investigations cfg L env invs count st in
  ssm_param (snd run) = ssm_param st
  /\ exists calls,
       bus (snd run) = bus st ++ calls
       /\ (List.length calls <= List.length invs)%nat
       /\ fst run = inr (count + accepted calls)%nat.
Proof.
  exact (wp_run _ _ _ (process_investigations_counts cfg L env invs count st)).
Qed.

(** X6.  When the parameter can be read and the poll returns nothing, the
    invocation answers "No new investigations" and neither writes the
    watermark nor calls the bus. *)
Theorem empty_poll_changes_nothing (cfg : Config) (L : Lib) (env : Env) (st : State) :
  ssm_get_fault env = None ->
  poll_result L env (since_read env st) = [] ->
  fst (handler cfg L env st) = inr (no_new_investigations cfg)
  /\ ssm_param (snd (handler cfg L env st)) = ssm_param st
  /\ bus (snd (handler cfg L env st)) = bus st.
Proof.
  intros Hfault Hpoll.
  pose proof (wp_run _ _ _ (handler_cycle_cases cfg L env st)) as H.
  unfold cycle_cases in H. rewrite Hfault, Hpoll in H. exact H.
Qed.

Lemma empty_poll_changes_nothing_witness :
  fst (handler Sample.monitor_cfg Sample.monitor_lib
               (Sample.monitor_env (LogGroup []) (fun _ => PutAccepted))
               Sample.monitor_start)
  = inr (no_new_investigations Sample.monitor_cfg).
Proof.
  apply (empty_poll_changes_nothing Sample.monitor_cfg Sample.monitor_lib
           (Sample.monitor_env (LogGroup []) (fun _ => PutAccepted))
           Sample.monitor_start); reflexivity.
Defined.

(** X7.  When the parameter can be read and written and the poll returns
    at least one investigation, the invocation makes at most one call on
    the bus per polled investigation, answers with the number of calls the
    bus accepted as [processed_count], and writes as watermark the largest
    [completed_at] of the polled investigations. *)
Theorem cycle_writes_latest_polled (cfg : Config) (L : Lib) (env : Env) (st : State)
    (first : investigation) (rest : list investigation) :
  ssm_get_fault env = None ->
  ssm_put_fault env = None ->
  poll_result L env (since_read env st) = first :: rest ->
  exists calls,
    bus (snd (handler cfg L env st)) = bus st ++ calls
    /\ (List.length calls <= S (List.length rest))%nat
    /\ fst (handler cfg L env st) = inr (processed cfg (accepted calls))
    /\ ssm_param (snd (handler cfg L env st)) = Some (max_completed_at first rest).
Proof.
  intros Hget Hput Hpoll.
  pose proof (wp_run _ _ _ (handler_cycle_cases cfg L env st)) as H.
  unfold cycle_cases in H. rewrite Hget, Hpoll, Hput in H.
  destruct H as (calls & Hb & Hl & Hr & Hp). exists calls. auto.
Qed.

Lemma cycle_writes_latest_polled_witness :
  exists calls,
    fst (handler Sample.monitor_cfg Sample.monitor_lib Sample.env_two
                 Sample.monitor_start)
    = inr (processed Sample.monitor_cfg (accepted calls))
    /\ ssm_param (snd (handler Sample.monitor_cfg Sample.monitor_lib Sample.env_two
                               Sample.monitor_start))
       = Some (Sample.noon + 60000000).
Proof.
  destruct (cycle_writes_latest_polled Sample.monitor_cfg Sample.monitor_lib
              Sample.env_two Sample.monitor_start
              (investigation_of
                 (match Sample.doc1 with JObj d => d | _ => [] end) Sample.noon_ms)
              [investigation_of
                 (match Sample.doc2 with JObj d => d | _ => [] end) Sample.noon_01_ms]
              eq_refl eq_refl eq_refl) as (calls & _ & _ & Hr & Hp).
  exists calls. split; [exact Hr | exact Hp].
Defined.



(** X9.  An invocation of the monitor fails only on a fault of the
    parameter store: whatever the log source holds or raises and whatever
    the bus answers, an invocation that can read and write the parameter
    returns normally. *)
Theorem cycle_fails_only_on_store_fault (cfg : Config) (L : Lib) (env : Env) (st : State)
    (e : exn) :
  fst (handler cfg L env st) = inl e ->
  exists msg, e = ClientError msg
              /\ (ssm_get_fault env = Some msg \/ ssm_put_fault env = Some msg).
Proof.
  intros He.
  pose proof (wp_run _ _ _ (handler_cycle_cases cfg L env st)) as H.
  unfold cycle_cases in H. rewrite He in H.
  destruct (ssm_get_fault env) as [msg |].
  - destruct H as [H _]. injection H as ->. eauto.
  - destruct (poll_result L env (since_read env st)) as [| first rest].
    + destruct H as [H _]. discriminate H.
    + destruct H as (calls & _ & _ & H).
      destruct (ssm_put_fault env) as [msg |].
      * destruct H as [H _]. injection H as ->. eauto.
      * destruct H as [H _]. discriminate H.
Qed.

Lemma cycle_fails_only_on_store_fault_witness :
  exists msg,
    ClientError "ThrottlingException" = ClientError msg
    /\ (ssm_get_fault MoreSamples.env_store_down = Some msg
        \/ ssm_put_fault MoreSamples.env_store_down = Some msg).
Proof.
  apply (cycle_fails_only_on_store_fault Sample.monitor_cfg Sample.monitor_lib
           MoreSamples.env_store_down Sample.monitor_start).
  reflexivity.
Defined.

End MonitorBehaviour.

(** ** More on the deterministic router *)

Module RouterBehaviour.
Import SimpleRouting RouterFacts RouterOutcome.

Lemma paging_step (cfg : Config) (L : Lib) (env : Env) (detail : json) (st : State) :
  wp (if nonempty (PAGERDUTY_SECRET_NAME cfg)
      then page_engineer cfg L env detail ;;; ret ["paged_engineer"]
      else ret []) st
     (fun r st' =>
        r = inr (if nonempty (PAGERDUTY_SECRET_NAME cfg) then ["paged_engineer"] else [])
        /\ calls st'
           = calls st ++ (if nonempty (PAGERDUTY_SECRET_NAME cfg)
                          then [GetSecretValue (PAGERDUTY_SECRET_NAME cfg)] else [])).
Proof.
  destruct (nonempty (PAGERDUTY_SECRET_NAME cfg)).
  - apply wp_bind. eapply wp_mono; [apply page_engineer_spec |].
    intros r st1 [-> H1]. apply wp_ret. auto.
  - apply wp_ret. split; [reflexivity | now rewrite app_nil_r].
Qed.

Lemma ticket_step (cfg : Config) (L : Lib) (env : Env) (detail : json)
    (before : list string) (st : State) :
  wp (if nonempty (JIRA_SECRET_NAME cfg)
      then create_jira_ticket cfg L env detail ;;; ret (before ++ ["created_ticket"])
      else ret before) st
     (fun r st' =>
        r = inr (before ++ ticket_actions cfg)
        /\ calls st' = calls st ++ ticket_calls cfg).
Proof.
  unfold ticket_actions, ticket_calls.
  destruct (nonempty (JIRA_SECRET_NAME cfg)).
  - apply wp_bind. eapply wp_mono; [apply create_jira_ticket_spec |].
    intros r st1 [-> H1]. apply wp_ret. auto.
  - apply wp_ret. now rewrite !app_nil_r.
Qed.

Lemma store_investigation_run (cfg : Config) (env : Env) (investigation : json)
    (st : State) :
  wp (store_investigation cfg env investigation) st
     (fun r st' =>
        match build_item cfg env investigation with
        | inl e => r = inl e /\ calls st' = calls st
        | inr item =>
            calls st' = calls st ++ [PutItem item]
            /\ r = match put_item_fault env with
                   | Some e => inl e
                   | None => inr tt
                   end
        end).
Proof.
  destruct (build_item cfg env investigation) as [e | item] eqn:Hitem.
  - unfold store_investigation. rewrite Hitem. apply wp_bind, wp_lift. auto.
  - eapply wp_mono; [apply (store_investigation_spec cfg env investigation item); exact Hitem |].
    intros r st1 [H1 Hr]. split; [exact H1 |].
    destruct (put_item_fault env); exact Hr.
Qed.

Lemma send_sns_alert_run (cfg : Config) (L : Lib) (env : Env) (investigation : json)
    (st : State) :
  wp (send_sns_alert cfg L env investigation) st
     (fun r st' =>
        match alert_texts L investigation with
        | inl e => r = inl e /\ calls st' = calls st
        | inr texts =>
            calls st'
            = calls st ++ [SnsPublish (ALERT_TOPIC_ARN cfg) (fst texts) (snd texts)]
            /\ r = match sns_publish_fault env with
                   | Some e => inl e
                   | None => inr tt
                   end
        end).
Proof.
  destruct (alert_texts L investigation) as [e | texts] eqn:Htexts.
  - unfold send_sns_alert. rewrite Htexts. apply wp_bind, wp_lift. auto.
  - eapply wp_mono; [apply (send_sns_alert_spec cfg L env investigation texts); exact Htexts |].
    intros r st1 [H1 Hr]. split; [exact H1 |].
    destruct (sns_publish_fault env); exact Hr.
Qed.

Lemma handler_route_cases (cfg : Config) (L : Lib) (env : Env)
    (ev d : list (string * json)) (st : State) :
  dict_get ev "detail" (JObj []) = JObj d ->
  wp (handler cfg L env (JObj ev)) st (route_cases cfg L env d st).
Proof.
  intros Hdetail. unfold handler, route_cases. cbv zeta.
  assert (Hfail : forall e st1 extra,
             calls st1 = calls st ++ extra ->
             wp (print (ErrorInRouting e) ;;; raise e) st1
                (fun (r : result response) st' =>
                   r = inl e /\ calls st' = calls st ++ extra)).
  { intros e st1 extra H1. apply wp_bind, router_wp_print. intros st2 H2.
    apply wp_raise. split; [reflexivity | congruence]. }
  assert (Hdone : forall id actions st1 extra,
             calls st1 = calls st ++ extra ->
             wp (print (RoutingComplete id actions) ;;;
                 ret {| statusCode := 200;
                        body := JObj [ ("message", JStr "Routing successful");
                                       ("investigation_id", id);
                                       ("actions", JArr (map JStr actions)) ] |}) st1
                (fun r st' =>
                   match r with
                   | inr resp => resp = routing_successful id actions
                                 /\ calls st' = calls st ++ extra
                   | inl _ => False
                   end)).
  { intros id actions st1 extra H1. apply wp_bind, router_wp_print. intros st2 H2.
    apply wp_ret. split; [reflexivity | congruence]. }
  apply wp_bind, router_wp_print. intros st1 H1.
  apply wp_bind, router_wp_print. intros st2 H2.
  assert (H2' : calls st2 = calls st ++ []) by (rewrite app_nil_r; congruence).
  apply wp_try. apply wp_bind, wp_lift. cbn [py_get]. rewrite Hdetail.
  apply wp_bind, wp_lift. cbn [py_get].
  apply wp_bind, wp_lift. cbn [py_get].
  apply wp_bind, wp_lift. cbn [py_get].
  apply wp_bind.
  destruct (negb (truthy (dict_get d "investigation_id" JNull))).
  { apply wp_raise. cbn [any_exception].
    eapply wp_mono; [apply (Hfail _ _ []); exact H2' |].
    intros r st3 [-> H3]. split; [reflexivity | now rewrite app_nil_r in H3]. }
  apply wp_ret. apply wp_bind.
  eapply wp_mono; [apply store_investigation_run |].
  intros r st3 H3.
  destruct (build_item cfg env (JObj d)) as [e | item].
  { destruct H3 as [-> H3]. cbn [any_exception].
    eapply wp_mono; [apply (Hfail _ _ []); rewrite app_nil_r; congruence |].
    intros r st4 [-> H4]. split; [reflexivity | now rewrite app_nil_r in H4]. }
  destruct H3 as [H3 ->].
  assert (H3' : calls st3 = calls st ++ [PutItem item]) by congruence.
  destruct (put_item_fault env) as [e |]; cbn [any_exception].
  { apply (Hfail _ _ [PutItem item]). exact H3'. }
  apply wp_bind. unfold is_high.
  destruct (eq_str (dict_get d "severity" (JStr "MEDIUM")) "CRITICAL"
            || eq_str (dict_get d "severity" (JStr "MEDIUM")) "HIGH").
  - apply wp_bind. eapply wp_mono; [apply paging_step |].
    intros r st4 [-> H4]. apply wp_bind.
    eapply wp_mono; [apply ticket_step |].
    intros r st5 [-> H5].
    assert (H5' : calls st5 = calls st ++ [PutItem item] ++ channel_calls cfg).
    { unfold channel_calls. fold (ticket_calls cfg).
      rewrite H5, H4, H3'. now rewrite <- !app_assoc. }
    apply wp_bind. eapply wp_mono; [apply send_sns_alert_run |].
    intros r st6 H6.
    destruct (alert_texts L (JObj d)) as [e | texts].
    + destruct H6 as [-> H6]. cbn [any_exception].
      apply (Hfail _ _ ([PutItem item] ++ channel_calls cfg)). congruence.
    + destruct H6 as [H6 ->].
      assert (H6' : calls st6
                    = calls st ++ [PutItem item] ++ channel_calls cfg
                      ++ [SnsPublish (ALERT_TOPIC_ARN cfg) (fst texts) (snd texts)]).
      { rewrite H6, H5'. now rewrite <- !app_assoc. }
      destruct (sns_publish_fault env) as [e |]; cbn [any_exception].
      * eapply wp_mono; [apply (Hfail _ _ _ H6') |].
        intros r st7 [-> H7]. split; [exact H7 | reflexivity].
      * apply wp_ret.
        eapply wp_mono; [apply (Hdone _ _ _ _ H6') |].
        intros [e | resp] st7 H7; [destruct H7 |]. destruct H7 as [-> H7].
        split; [exact H7 |]. unfold channel_actions. fold (ticket_actions cfg).
        reflexivity.
  - destruct (eq_str (dict_get d "severity" (JStr "MEDIUM")) "MEDIUM").
    + eapply wp_mono; [apply (ticket_step cfg L env (JObj d) []) |].
      intros r st4 [-> H4].
      eapply wp_mono;
        [apply (Hdone _ _ _ ([PutItem item] ++ ticket_calls cfg));
         rewrite H4, H3'; now rewrite <- app_assoc |].
      intros [e | resp] st5 H5; [destruct H5 |]. destruct H5 as [-> H5].
      split; [reflexivity | exact H5].
    + apply wp_ret.
      eapply wp_mono; [apply (Hdone _ _ _ _ H3') |].
      intros [e | resp] st5 H5; [destruct H5 |]. destruct H5 as [-> H5].
      split; [reflexivity | exact H5].
Qed.

(** X10.  An event without a usable investigation id (no [detail], no
    [investigation_id], or one that is [null], empty, zero or false) is
    rejected with [ValueError] before any call is made: nothing is stored
    and no channel is tried. *)
Theorem event_without_id_is_rejected (cfg : Config) (L : Lib) (env : Env)
    (ev d : list (string * json)) (st : State) :
  dict_get ev "detail" (JObj []) = JObj d ->
  truthy (dict_get d "investigation_id" JNull) = false ->
  fst (handler cfg L env (JObj ev) st) = inl (ValueError "No investigation_id in event")
  /\ calls (snd (handler cfg L env (JObj ev) st)) = calls st.
Proof.
  intros Hdetail Hid.
  pose proof (wp_run _ _ _ (handler_route_cases cfg L env ev d st Hdetail)) as H.
  unfold route_cases in H. cbv zeta in H. rewrite Hid in H. exact H.
Qed.

Lemma event_without_id_is_rejected_witness :
  fst (handler (Sample.router_cfg "pagerduty/api-key" "jira/api-key") Sample.router_lib
               (Sample.router_env None)
               (JObj [ ("source", JStr "devops.investigation") ]) Sample.router_start)
  = inl (ValueError "No investigation_id in event").
Proof.
  apply (event_without_id_is_rejected
           (Sample.router_cfg "pagerduty/api-key" "jira/api-key") Sample.router_lib
           (Sample.router_env None) [ ("source", JStr "devops.investigation") ] []
           Sample.router_start); reflexivity.
Defined.

(** X11.  The item for the store can be built exactly when the detail
    carries all eight entries [investigation_id], [timestamp],
    [client_account_id], [client_name], [severity], [status], [summary] and
    [links]; the default severity that the handler reads does not help an
    event that has no [severity] entry.  When an entry is missing, the
    invocation fails with the [KeyError] without any call; when the write
    itself fails, the invocation fails with that fault after the write
    alone, and no notification channel is tried. *)
Theorem store_failure_stops_routing (cfg : Config) (L : Lib) (env : Env)
    (ev d : list (string * json)) (st : State) :
  ((exists item, build_item cfg env (JObj d) = inr item)
   <-> forallb (has_key d) REQUIRED_KEYS = true)
  /\ (dict_get ev "detail" (JObj []) = JObj d ->
      truthy (dict_get d "investigation_id" JNull) = true ->
      (forall e,
          build_item cfg env (JObj d) = inl e ->
          fst (handler cfg L env (JObj ev) st) = inl e
          /\ calls (snd (handler cfg L env (JObj ev) st)) = calls st)
      /\ (forall item e,
             build_item cfg env (JObj d) = inr item ->
             put_item_fault env = Some e ->
             fst (handler cfg L env (JObj ev) st) = inl e
             /\ calls (snd (handler cfg L env (JObj ev) st)) = calls st ++ [PutItem item])).
Proof.
  split.
  - unfold build_item, REQUIRED_KEYS, has_key. cbn [forallb py_getitem py_get].
    repeat match goal with
           | |- context [dict_lookup d ?k] => destruct (dict_lookup d k)
           end;
      cbn [andb]; split;
      try (intros [item H]; discriminate H);
      try (intros H; discriminate H);
      try (intros _; reflexivity);
      try (intros _; eexists; reflexivity).
  - intros Hdetail Hid.
    pose proof (wp_run _ _ _ (handler_route_cases cfg L env ev d st Hdetail)) as H.
    unfold route_cases in H. cbv zeta in H. rewrite Hid in H. cbn [negb] in H.
    split.
    + intros e He. rewrite He in H. exact H.
    + intros item e Hitem Hput. rewrite Hitem, Hput in H. exact H.
Qed.

Lemma store_failure_stops_routing_witness :
  fst (handler (Sample.router_cfg "pagerduty/api-key" "jira/api-key") Sample.router_lib
               (Sample.router_env None)
               (JObj [ ("detail", RouterSamples.detail_without_links) ])
               Sample.router_start)
  = inl (KeyError "links").
Proof.
  apply (proj1 (proj2 (store_failure_stops_routing
                         (Sample.router_cfg "pagerduty/api-key" "jira/api-key")
                         Sample.router_lib (Sample.router_env None)
                         [ ("detail", RouterSamples.detail_without_links) ]
                         (RouterSamples.fields_of RouterSamples.detail_without_links)
                         Sample.router_start) eq_refl eq_refl));
    reflexivity.
Defined.

(** X12.  A stored MEDIUM event gets the ticketing channel and nothing
    else: after the write, the ticketing secret is looked up exactly when
    its name is configured, no alert is published, and the invocation
    succeeds whatever the look-up and the ticket do, answering
    [created_ticket] under that same condition. *)
Theorem medium_event_is_ticketed (cfg : Config) (L : Lib) (env : Env)
    (ev d : list (string * json)) (item : json) (st : State) :
  dict_get ev "detail" (JObj []) = JObj d ->
  truthy (dict_get d "investigation_id" JNull) = true ->
  eq_str (dict_get d "severity" (JStr "MEDIUM")) "MEDIUM" = true ->
  build_item cfg env (JObj d) = inr item ->
  put_item_fault env = None ->
  fst (handler cfg L env (JObj ev) st)
  = inr (routing_successful (dict_get d "investigation_id" JNull) (ticket_actions cfg))
  /\ calls (snd (handler cfg L env (JObj ev) st))
     = calls st ++ [PutItem item] ++ ticket_calls cfg
  /\ Forall (fun c => is_sns_publish c = false) ([PutItem item] ++ ticket_calls cfg).
Proof.
  intros Hdetail Hid Hsev Hitem Hput.
  pose proof (wp_run _ _ _ (handler_route_cases cfg L env ev d st Hdetail)) as H.
  unfold route_cases in H. cbv zeta in H.
  rewrite Hid, Hitem, Hput, Hsev in H. cbn [negb] in H.
  assert (Hhigh : is_high (dict_get d "severity" (JStr "MEDIUM")) = false).
  { unfold is_high. destruct (dict_get d "severity" (JStr "MEDIUM")); try reflexivity.
    cbn [eq_str] in *. apply String.eqb_eq in Hsev. subst. reflexivity. }
  rewrite Hhigh in H. destruct H as [Hr Hc]. split; [exact Hr |]. split; [exact Hc |].
  unfold ticket_calls. destruct (nonempty (JIRA_SECRET_NAME cfg)); repeat constructor.
Qed.

Lemma medium_event_is_ticketed_witness :
  fst (handler (Sample.router_cfg "pagerduty/api-key" "jira/api-key") Sample.router_lib
               (Sample.router_env (Some (ClientError "AuthorizationError")))
               (Sample.event_of "inv-4" "MEDIUM") Sample.router_start)
  = inr (routing_successful (JStr "inv-4") ["created_ticket"]).
Proof.
  apply (medium_event_is_ticketed
           (Sample.router_cfg "pagerduty/api-key" "jira/api-key") Sample.router_lib
           (Sample.router_env (Some (ClientError "AuthorizationError")))
           (RouterSamples.fields_of (Sample.event_of "inv-4" "MEDIUM"))
           (RouterSamples.fields_of (Sample.detail_of "inv-4" "MEDIUM"))
           (match build_item (Sample.router_cfg "pagerduty/api-key" "jira/api-key")
                    (Sample.router_env (Some (ClientError "AuthorizationError")))
                    (Sample.detail_of "inv-4" "MEDIUM")
            with inr item => item | inl _ => JNull end)
           Sample.router_start); reflexivity.
Defined.

(** X13.  A stored event of any other severity (LOW, an unknown text, a
    value that is not a text) is persisted and nothing else: the write is
    the only call, and the answer lists no action. *)
Theorem other_severity_is_persisted_only (cfg : Config) (L : Lib) (env : Env)
    (ev d : list (string * json)) (item : json) (st : State) :
  dict_get ev "detail" (JObj []) = JObj d ->
  truthy (dict_get d "investigation_id" JNull) = true ->
  is_high (dict_get d "severity" (JStr "MEDIUM")) = false ->
  eq_str (dict_get d "severity" (JStr "MEDIUM")) "MEDIUM" = false ->
  build_item cfg env (JObj d) = inr item ->
  put_item_fault env = None ->
  fst (handler cfg L env (JObj ev) st)
  = inr (routing_successful (dict_get d "investigation_id" JNull) [])
  /\ calls (snd (handler cfg L env (JObj ev) st)) = calls st ++ [PutItem item].
Proof.
  intros Hdetail Hid Hhigh Hsev Hitem Hput.
  pose proof (wp_run _ _ _ (handler_route_cases cfg L env ev d st Hdetail)) as H.
  unfold route_cases in H. cbv zeta in H.
  rewrite Hid, Hitem, Hput, Hhigh, Hsev in H. exact H.
Qed.

Lemma other_severity_is_persisted_only_witness :
  fst (handler (Sample.router_cfg "pagerduty/api-key" "jira/api-key") Sample.router_lib
               (Sample.router_env None) (Sample.event_of "inv-8" "LOW")
               Sample.router_start)
  = inr (routing_successful (JStr "inv-8") []).
Proof.
  apply (other_severity_is_persisted_only
           (Sample.router_cfg "pagerduty/api-key" "jira/api-key") Sample.router_lib
           (Sample.router_env None)
           (RouterSamples.fields_of (Sample.event_of "inv-8" "LOW"))
           (RouterSamples.fields_of (Sample.detail_of "inv-8" "LOW"))
           (match build_item (Sample.router_cfg "pagerduty/api-key" "jira/api-key")
                    (Sample.router_env None) (Sample.detail_of "inv-8" "LOW")
            with inr item => item | inl _ => JNull end)
           Sample.router_start); reflexivity.
Defined.

(** X14.  For a stored CRITICAL or HIGH event whose alert text cannot be
    built (the summary lacks [root_cause_brief], [resource_types] or
    [duration_minutes], the links lack an entry, or the resource types
    cannot be joined), the invocation fails with that error after the
    write and the enabled paging and ticketing look-ups, and nothing is
    published. *)
Theorem unbuildable_alert_fails_event (cfg : Config) (L : Lib) (env : Env)
    (ev d : list (string * json)) (item : json) (e : exn) (st : State) :
  dict_get ev "detail" (JObj []) = JObj d ->
  truthy (dict_get d "investigation_id" JNull) = true ->
  is_high (dict_get d "severity" (JStr "MEDIUM")) = true ->
  build_item cfg env (JObj d) = inr item ->
  put_item_fault env = None ->
  alert_texts L (JObj d) = inl e ->
  fst (handler cfg L env (JObj ev) st) = inl e
  /\ calls (snd (handler cfg L env (JObj ev) st))
     = calls st ++ [PutItem item] ++ channel_calls cfg.
Proof.
  intros Hdetail Hid Hhigh Hitem Hput Htexts.
  pose proof (wp_run _ _ _ (handler_route_cases cfg L env ev d st Hdetail)) as H.
  unfold route_cases in H. cbv zeta in H.
  rewrite Hid, Hitem, Hput, Hhigh, Htexts in H. exact H.
Qed.

Lemma unbuildable_alert_fails_event_witness :
  fst (handler (Sample.router_cfg EmptyString EmptyString) Sample.router_lib
               (Sample.router_env None)
               (JObj [ ("detail", RouterSamples.detail_without_brief) ])
               Sample.router_start)
  = inl (KeyError "root_cause_brief").
Proof.
  apply (unbuildable_alert_fails_event
           (Sample.router_cfg EmptyString EmptyString) Sample.router_lib
           (Sample.router_env None)
           [ ("detail", RouterSamples.detail_without_brief) ]
           (RouterSamples.fields_of RouterSamples.detail_without_brief)
           (match build_item (Sample.router_cfg EmptyString EmptyString)
                    (Sample.router_env None) RouterSamples.detail_without_brief
            with inr item => item | inl _ => JNull end)
           (KeyError "root_cause_brief") Sample.router_start); reflexivity.
Defined.

(** X15.  Paging and ticketing are best effort: whatever the secret store
    answers, whatever the secret text decodes to and whatever the detail
    lacks, [page_engineer] and [create_jira_ticket] return normally, after
    exactly one look-up of their secret. *)
Theorem paging_and_ticketing_never_raise (cfg : Config) (L : Lib) (env : Env)
    (investigation : json) (st : State) :
  (fst (page_engineer cfg L env investigation st) = inr tt
   /\ calls (snd (page_engineer cfg L env investigation st))
      = calls st ++ [GetSecretValue (PAGERDUTY_SECRET_NAME cfg)])
  /\ (fst (create_jira_ticket cfg L env investigation st) = inr tt
      /\ calls (snd (create_jira_ticket cfg L env investigation st))
         = calls st ++ [GetSecretValue (JIRA_SECRET_NAME cfg)]).
Proof.
  split.
  - exact (wp_run _ _ _ (page_engineer_spec cfg L env investigation st)).
  - exact (wp_run _ _ _ (create_jira_ticket_spec cfg L env investigation st)).
Qed.

(** X16.  Whatever the event, no channel is tried before the write of
    the item: the calls of an invocation are either none, or the write of
    the item that [store_investigation] builds followed by calls that are
    no writes; and an invocation that answers normally has made that
    write. *)
Theorem nothing_is_notified_unstored (cfg : Config) (L : Lib) (env : Env)
    (ev d : list (string * json)) (st : State) :
  dict_get ev "detail" (JObj []) = JObj d ->
  exists extra,
    calls (snd (handler cfg L env (JObj ev) st)) = calls st ++ extra
    /\ (extra = []
        \/ exists item rest,
             build_item cfg env (JObj d) = inr item
             /\ extra = PutItem item :: rest
             /\ Forall (fun c => is_put_item c = false) rest)
    /\ (forall resp, fst (handler cfg L env (JObj ev) st) = inr resp -> extra <> []).
Proof.
  intros Hdetail.
  pose proof (wp_run _ _ _ (handler_route_cases cfg L env ev d st Hdetail)) as H.
  unfold route_cases in H. cbv zeta in H.
  assert (Hchan : Forall (fun c => is_put_item c = false) (channel_calls cfg)).
  { unfold channel_calls.
    destruct (nonempty (PAGERDUTY_SECRET_NAME cfg)), (nonempty (JIRA_SECRET_NAME cfg));
      repeat constructor. }
  assert (Hticket : Forall (fun c => is_put_item c = false) (ticket_calls cfg)).
  { unfold ticket_calls. destruct (nonempty (JIRA_SECRET_NAME cfg)); repeat constructor. }
  destruct (negb (truthy (dict_get d "investigation_id" JNull))).
  { destruct H as [Hr Hc]. exists []. rewrite app_nil_r.
    split; [exact Hc |]. split; [now left |]. intros resp Hresp. congruence. }
  destruct (build_item cfg env (JObj d)) as [e | item].
  { destruct H as [Hr Hc]. exists []. rewrite app_nil_r.
    split; [exact Hc |]. split; [now left |]. intros resp Hresp. congruence. }
  assert (Hstored : forall rest,
             calls (snd (handler cfg L env (JObj ev) st))
             = calls st ++ [PutItem item] ++ rest ->
             Forall (fun c => is_put_item c = false) rest ->
             exists extra,
               calls (snd (handler cfg L env (JObj ev) st)) = calls st ++ extra
               /\ (extra = []
                   \/ exists item0 rest0,
                        @inr exn json item = inr item0
                        /\ extra = PutItem item0 :: rest0
                        /\ Forall (fun c => is_put_item c = false) rest0)
               /\ (forall resp, fst (handler cfg L env (JObj ev) st) = inr resp ->
                                extra <> [])).
  { intros rest Hc Hrest. exists ([PutItem item] ++ rest).
    split; [exact Hc |]. split; [right; exists item, rest; auto |].
    intros _ _ Hnil. discriminate Hnil. }
  destruct (put_item_fault env) as [e |].
  { destruct H as [_ Hc]. apply (Hstored []); [exact Hc | constructor]. }
  destruct (is_high (dict_get d "severity" (JStr "MEDIUM"))).
  - destruct (alert_texts L (JObj d)) as [e | texts].
    + destruct H as [_ Hc]. apply (Hstored (channel_calls cfg)); assumption.
    + destruct H as [Hc _].
      apply (Hstored (channel_calls cfg
                      ++ [SnsPublish (ALERT_TOPIC_ARN cfg) (fst texts) (snd texts)]));
        [exact Hc |].
      apply Forall_app. split; [exact Hchan | repeat constructor].
  - destruct (eq_str (dict_get d "severity" (JStr "MEDIUM")) "MEDIUM").
    + destruct H as [_ Hc]. apply (Hstored (ticket_calls cfg)); assumption.
    + destruct H as [_ Hc]. apply (Hstored []); [exact Hc | constructor].
Qed.

Lemma nothing_is_notified_unstored_witness :
  exists extra,
    calls (snd (handler (Sample.router_cfg "pagerduty/api-key" "jira/api-key")
                        Sample.router_lib RouterSamples.env_table_down
                        (Sample.event_of "inv-1" "HIGH") Sample.router_start))
    = calls Sample.router_start ++ extra.
Proof.
  destruct (nothing_is_notified_unstored
              (Sample.router_cfg "pagerduty/api-key" "jira/api-key")
              Sample.router_lib RouterSamples.env_table_down
              (RouterSamples.fields_of (Sample.event_of "inv-1" "HIGH"))
              (RouterSamples.fields_of (Sample.detail_of "inv-1" "HIGH"))
              Sample.router_start eq_refl) as (extra & Hc & _).
  exists extra. exact Hc.
Defined.

End RouterBehaviour.

(** ** More on the pattern correlator *)

Module PatternBehaviour.
Import PatternDetector PatternFacts PatternOutcome.

Lemma alert_senior_engineer_run (cfg : Config) (L : Lib) (env : Env) (analysis : json)
    (st : State) :
  wp (alert_senior_engineer cfg L env analysis) st
     (fun r st' =>
        match pattern_alert_message L analysis with
        | inl e => r = inl e /\ calls st' = calls st
        | inr message =>
            calls st'
            = calls st ++ [SnsPublish (ALERT_TOPIC_ARN cfg) ALERT_SUBJECT message]
            /\ r = match sns_publish_fault env with
                   | Some e => inl e
                   | None => inr tt
                   end
        end).
Proof.
  unfold alert_senior_engineer. apply wp_bind, wp_lift.
  destruct (pattern_alert_message L analysis) as [e | message]; [auto |].
  apply wp_bind, pattern_wp_record. intros st1 H1.
  apply wp_bind. unfold fail_if.
  destruct (sns_publish_fault env) as [e |].
  - apply wp_raise. split; [rewrite H1 |]; reflexivity.
  - apply wp_ret. apply pattern_wp_print. intros st2 H2.
    split; [rewrite H2, H1 |]; reflexivity.
Qed.

Lemma handler_pass_cases (cfg : Config) (L : Lib) (env : Env)
    (ev d : list (string * json)) (st : State) :
  dict_get ev "detail" (JObj []) = JObj d ->
  wp (handler cfg L env (JObj ev)) st (pass_cases cfg L env d st).
Proof.
  intros Hdetail. unfold handler, pass_cases. cbv zeta.
  set (scan := Scan (isoformat L (now env - hours 24))).
  assert (Hfail : forall e st1 extra,
             calls st1 = calls st ++ extra ->
             wp (print (ErrorInDetection e) ;;; raise e) st1
                (fun (r : result response) st' =>
                   r = inl e /\ calls st' = calls st ++ extra)).
  { intros e st1 extra H1. apply wp_bind, pattern_wp_print. intros st2 H2.
    apply wp_raise. split; [reflexivity | congruence]. }
  apply wp_bind, pattern_wp_print. intros st1 H1.
  apply wp_try. apply wp_bind, wp_lift. cbn [py_get]. rewrite Hdetail.
  apply wp_bind, wp_lift. cbn [py_get].
  apply wp_bind.
  destruct (negb (truthy (dict_get d "investigation_id" JNull))).
  { apply wp_raise. cbn [any_exception].
    eapply wp_mono; [apply (Hfail _ _ []); rewrite app_nil_r; exact H1 |].
    intros r st2 [-> H2]. split; [reflexivity | now rewrite app_nil_r in H2]. }
  apply wp_ret. apply wp_bind.
  eapply wp_mono; [apply query_recent_investigations_spec |].
  fold scan. intros r st2 [H2 ->].
  assert (H2' : calls st2 = calls st ++ [scan]) by congruence.
  destruct (scan_fault env) as [e |]; cbn [any_exception].
  { apply (Hfail _ _ [scan]). exact H2'. }
  apply wp_bind, pattern_wp_print. intros st3 H3.
  destruct (List.length (recent L env) <? 3)%nat.
  { apply wp_bind, pattern_wp_print. intros st4 H4. apply wp_ret.
    split; [reflexivity | congruence]. }
  destruct (build_analysis_prompt L (recent L env)) as [e | prompt] eqn:Hprompt.
  { unfold analyze_patterns_with_bedrock. rewrite Hprompt.
    apply wp_bind, wp_bind, wp_lift. cbn [any_exception].
    apply (Hfail _ _ [scan]). congruence. }
  apply wp_bind.
  eapply wp_mono;
    [apply (analyze_patterns_with_bedrock_spec cfg L env _ prompt); exact Hprompt |].
  intros r st4 [H4 ->].
  set (invoke := InvokeModel (BEDROCK_MODEL_ID cfg) (request_body L prompt)) in *.
  assert (H4' : calls st4 = calls st ++ [scan; invoke]).
  { rewrite H4, H3, H2'. now rewrite <- app_assoc. }
  apply wp_bind, wp_lift.
  destruct (analysis_of (classify L env prompt)) as [| b | n | s | l | a];
    cbn [py_get any_exception];
    try (apply (Hfail _ _ [scan; invoke]); exact H4').
  apply wp_bind.
  destruct (truthy (dict_get a "patterns_detected" JNull)).
  - eapply wp_mono; [apply alert_senior_engineer_run |].
    intros r st5 H5.
    destruct (pattern_alert_message L (JObj a)) as [e | message].
    + destruct H5 as [-> H5]. cbn [any_exception].
      apply (Hfail _ _ [scan; invoke]). congruence.
    + destruct H5 as [H5 ->].
      assert (H5' : calls st5
                    = calls st ++ [scan; invoke;
                                   SnsPublish (ALERT_TOPIC_ARN cfg) ALERT_SUBJECT message]).
      { rewrite H5, H4'. now rewrite <- app_assoc. }
      destruct (sns_publish_fault env) as [e |]; cbn [any_exception].
      * eapply wp_mono; [apply (Hfail _ _ _ H5') |].
        intros r st6 [-> H6]. split; [exact H6 | reflexivity].
      * apply wp_bind, wp_lift. apply wp_ret. split; [exact H5' | reflexivity].
  - apply wp_ret. apply wp_bind, wp_lift. apply wp_ret.
    split; [reflexivity | exact H4'].
Qed.

(** X17.  A pass on an event without a usable investigation id is
    rejected with [ValueError] before the store is scanned. *)
Theorem pass_without_id_is_rejected (cfg : Config) (L : Lib) (env : Env)
    (ev d : list (string * json)) (st : State) :
  dict_get ev "detail" (JObj []) = JObj d ->
  truthy (dict_get d "investigation_id" JNull) = false ->
  fst (handler cfg L env (JObj ev) st) = inl (ValueError "No investigation_id in event")
  /\ calls (snd (handler cfg L env (JObj ev) st)) = calls st.
Proof.
  intros Hdetail Hid.
  pose proof (wp_run _ _ _ (handler_pass_cases cfg L env ev d st Hdetail)) as H.
  unfold pass_cases in H. cbv zeta in H. rewrite Hid in H. exact H.
Qed.

Lemma pass_without_id_is_rejected_witness :
  fst (handler Sample.pattern_cfg Sample.pattern_lib Sample.env_classifier_down
               (JObj [ ("detail", JObj [ ("investigation_id", JStr EmptyString) ]) ])
               Sample.pattern_start)
  = inl (ValueError "No investigation_id in event").
Proof.
  apply (pass_without_id_is_rejected Sample.pattern_cfg Sample.pattern_lib
           Sample.env_classifier_down
           [ ("detail", JObj [ ("investigation_id", JStr EmptyString) ]) ]
           [ ("investigation_id", JStr EmptyString) ]
           Sample.pattern_start); reflexivity.
Defined.




(** X19.  With 3 or more recent records and a prompt, what the pass does
    after the classifier call depends on the analysis alone.  For an
    object whose [patterns_detected] is true (or any other value Python
    takes as true), the alert text is built first: when that succeeds,
    exactly one alert is published after the scan and the classifier call,
    and a fault of that publish call is the outcome of the pass; when it
    raises, as it does for an [affected_clients] that is [null], a boolean
    or a number, the pass fails with that error and nothing is
    published.  For an object
    whose [patterns_detected] is false, null or absent, nothing is
    published.  A pass that completes answers with the [patterns_detected]
    of the analysis, false when absent.  An analysis that is not an object
    makes the pass fail with [AttributeError]. *)
Theorem alert_follows_analysis (cfg : Config) (L : Lib) (env : Env)
    (ev d : list (string * json)) (prompt : string) (st : State) :
  dict_get ev "detail" (JObj []) = JObj d ->
  truthy (dict_get d "investigation_id" JNull) = true ->
  scan_fault env = None ->
  (3 <= List.length (recent L env))%nat ->
  build_analysis_prompt L (recent L env) = inr prompt ->
  let run := handler cfg L env (JObj ev) st in
  let scan := Scan (isoformat L (now env - hours 24)) in
  let invoke := InvokeModel (BEDROCK_MODEL_ID cfg) (request_body L prompt) in
  let id := dict_get d "investigation_id" JNull in
  (forall a message,
      analysis_of (classify L env prompt) = JObj a ->
      truthy (dict_get a "patterns_detected" JNull) = true ->
      pattern_alert_message L (JObj a) = inr message ->
      calls (snd run)
      = calls st ++ [scan; invoke; SnsPublish (ALERT_TOPIC_ARN cfg) ALERT_SUBJECT message]
      /\ fst run = match sns_publish_fault env with
                   | Some e => inl e
                   | None => inr (analysis_complete
                                    (dict_get a "patterns_detected" (JBool false)) id)
                   end)
  /\ (forall a e,
         analysis_of (classify L env prompt) = JObj a ->
         truthy (dict_get a "patterns_detected" JNull) = true ->
         pattern_alert_message L (JObj a) = inl e ->
         fst run = inl e /\ calls (snd run) = calls st ++ [scan; invoke])
  /\ (forall a,
         not_iterable (dict_get a "affected_clients" (JArr [])) = true ->
         exists e, pattern_alert_message L (JObj a) = inl e)
  /\ (forall a,
         analysis_of (classify L env prompt) = JObj a ->
         truthy (dict_get a "patterns_detected" JNull) = false ->
         fst run = inr (analysis_complete (dict_get a "patterns_detected" (JBool false)) id)
         /\ calls (snd run) = calls st ++ [scan; invoke])
  /\ ((forall a, analysis_of (classify L env prompt) <> JObj a) ->
      fst run = inl (AttributeError "object has no attribute 'get'")
      /\ calls (snd run) = calls st ++ [scan; invoke]).
Proof.
  intros Hdetail Hid Hscan Hlen Hprompt run scan invoke id.
  pose proof (wp_run _ _ _ (handler_pass_cases cfg L env ev d st Hdetail)) as H.
  fold run in H. unfold pass_cases in H. cbv zeta in H.
  apply Nat.ltb_ge in Hlen.
  rewrite Hid, Hscan, Hlen, Hprompt in H. cbn [negb] in H.
  fold scan invoke id in H.
  split; [| split; [| split; [| split]]].
  - intros a message Ha Hdet Hmsg. rewrite Ha, Hdet, Hmsg in H. exact H.
  - intros a e Ha Hdet Hmsg. rewrite Ha, Hdet, Hmsg in H. exact H.
  - intros a Hnot. unfold pattern_alert_message. cbn [py_get].
    destruct (dict_get a "affected_clients" (JArr [])); try discriminate Hnot;
      eexists; reflexivity.
  - intros a Ha Hdet. rewrite Ha, Hdet in H. exact H.
  - intros Hnot.
    destruct (analysis_of (classify L env prompt)) as [| b | n | s | l | a];
      try exact H.
    destruct (Hnot a eq_refl).
Qed.

Lemma alert_follows_analysis_witness :
  let run := handler Sample.pattern_cfg PatternSamples.lib PatternSamples.env_pattern_found
                     (Sample.event_of "inv-2" "LOW") Sample.pattern_start in
  fst run = inr (analysis_complete (JBool true) (JStr "inv-2"))
  /\ map is_invoke_model (calls (snd run)) = [false; true; false].
Proof.
  destruct (alert_follows_analysis Sample.pattern_cfg PatternSamples.lib
              PatternSamples.env_pattern_found
              (RouterSamples.fields_of (Sample.event_of "inv-2" "LOW"))
              (RouterSamples.fields_of (Sample.detail_of "inv-2" "LOW"))
              (match build_analysis_prompt PatternSamples.lib Sample.three_recent
               with inr p => p | inl _ => EmptyString end)
              Sample.pattern_start eq_refl eq_refl eq_refl)
    as [Halert _].
  - vm_compute. repeat constructor.
  - reflexivity.
  - destruct (Halert (RouterSamples.fields_of PatternSamples.pattern_found)
                (match pattern_alert_message PatternSamples.lib PatternSamples.pattern_found
                 with inr m => m | inl _ => EmptyString end))
      as [Hcalls Hrun]; [vm_compute; reflexivity | reflexivity | reflexivity |].
    cbv zeta. split.
    + exact Hrun.
    + unfold Sample.event_of in Hcalls |- *.
      cbn [RouterSamples.fields_of] in Hcalls. rewrite Hcalls. reflexivity.
Defined.

(** X20.  Whatever the event and the environment, the calls of a pass
    are the first [n] of: the scan of the store, the classifier call, the
    publish of an alert.  So a pass scans the store at most once, calls
    the classifier at most once and only after the scan, and publishes at
    most one alert and only after the classifier call; and the classifier
    is called only when the scan found 3 or more records, with the prompt
    built from them. *)
Theorem pass_is_frugal (cfg : Config) (L : Lib) (env : Env)
    (ev d : list (string * json)) (st : State) :
  dict_get ev "detail" (JObj []) = JObj d ->
  exists (n : nat) (prompt message : string),
    calls (snd (handler cfg L env (JObj ev) st))
    = calls st ++ firstn n (pass_calls cfg L env prompt message)
    /\ ((2 <= n)%nat ->
        (3 <= List.length (recent L env))%nat
        /\ build_analysis_prompt L (recent L env) = inr prompt).
Proof.
  intros Hdetail.
  pose proof (wp_run _ _ _ (handler_pass_cases cfg L env ev d st Hdetail)) as H.
  unfold pass_cases in H. cbv zeta in H.
  destruct (negb (truthy (dict_get d "investigation_id" JNull))).
  { destruct H as [_ Hc]. exists 0%nat, EmptyString, EmptyString.
    cbn [firstn]. rewrite app_nil_r. split; [exact Hc | lia]. }
  destruct (scan_fault env) as [e |].
  { destruct H as [_ Hc]. exists 1%nat, EmptyString, EmptyString.
    split; [exact Hc | lia]. }
  destruct (List.length (recent L env) <? 3)%nat eqn:Hlen.
  { destruct H as [_ Hc]. exists 1%nat, EmptyString, EmptyString.
    split; [exact Hc | lia]. }
  apply Nat.ltb_ge in Hlen.
  destruct (build_analysis_prompt L (recent L env)) as [e | prompt] eqn:Hprompt.
  { destruct H as [_ Hc]. exists 1%nat, EmptyString, EmptyString.
    split; [exact Hc | lia]. }
  assert (Htwo : calls (snd (handler cfg L env (JObj ev) st))
                 = calls st ++ [ Scan (isoformat L (now env - hours 24));
                                 InvokeModel (BEDROCK_MODEL_ID cfg)
                                             (request_body L prompt) ] ->
                 exists (n : nat) (prompt0 message : string),
                   calls (snd (handler cfg L env (JObj ev) st))
                   = calls st ++ firstn n (pass_calls cfg L env prompt0 message)
                   /\ ((2 <= n)%nat ->
                       (3 <= List.length (recent L env))%nat
                       /\ @inr exn string prompt = inr prompt0)).
  { intros Hc. exists 2%nat, prompt, EmptyString. split; [exact Hc | auto]. }
  destruct (analysis_of (classify L env prompt)) as [| b | n | s | l | a];
    try (destruct H as [_ Hc]; exact (Htwo Hc)).
  destruct (truthy (dict_get a "patterns_detected" JNull)).
  - destruct (pattern_alert_message L (JObj a)) as [e | message].
    + destruct H as [_ Hc]. exact (Htwo Hc).
    + destruct H as [Hc _]. exists 3%nat, prompt, message.
      split; [exact Hc | auto].
  - destruct H as [_ Hc]. exact (Htwo Hc).
Qed.

Lemma pass_is_frugal_witness :
  exists (n : nat) (prompt message : string),
    calls (snd (handler Sample.pattern_cfg PatternSamples.lib
                        PatternSamples.env_pattern_found
                        (Sample.event_of "inv-2" "LOW") Sample.pattern_start))
    = calls Sample.pattern_start
      ++ firstn n (pass_calls Sample.pattern_cfg PatternSamples.lib
                     PatternSamples.env_pattern_found prompt message).
Proof.
  destruct (pass_is_frugal Sample.pattern_cfg PatternSamples.lib
              PatternSamples.env_pattern_found
              (RouterSamples.fields_of (Sample.event_of "inv-2" "LOW"))
              (RouterSamples.fields_of (Sample.detail_of "inv-2" "LOW"))
              Sample.pattern_start eq_refl) as (n & prompt & message & Hc & _).
  exists n, prompt, message. exact Hc.
Defined.

(** *** The code fence *)

Lemma append_nil_r (s : string) : s +++ EmptyString = s.
Proof. induction s as [| c s IH]; simpl; [reflexivity | now rewrite IH]. Qed.

Lemma append_assoc (a b c : string) : (a +++ b) +++ c = a +++ (b +++ c).
Proof. induction a as [| x a IH]; simpl; [reflexivity | now rewrite IH]. Qed.

Lemma rev_str_acc (s acc : string) : rev_str s acc = rev_str s EmptyString +++ acc.
Proof.
  revert acc. induction s as [| c s IH]; intros acc; simpl; [reflexivity |].
  rewrite (IH (String c acc)), (IH (String c EmptyString)), append_assoc. reflexivity.
Qed.

Lemma rev_str_app (a b : string) :
  rev_str (a +++ b) EmptyString = rev_str b EmptyString +++ rev_str a EmptyString.
Proof.
  induction a as [| c a IH]; simpl.
  - now rewrite append_nil_r.
  - rewrite (rev_str_acc (a +++ b)), (rev_str_acc a), IH, append_assoc. reflexivity.
Qed.

Lemma rev_str_involutive (s : string) : rev_str (rev_str s EmptyString) EmptyString = s.
Proof.
  induction s as [| c s IH]; simpl; [reflexivity |].
  rewrite (rev_str_acc s (String c EmptyString)), rev_str_app, IH. reflexivity.
Qed.

Lemma lstrip_ok (s : string) : first_char_ok s = true -> lstrip s = s.
Proof.
  destruct s as [| c s]; simpl; [reflexivity |].
  intros H. apply negb_true_iff in H. now rewrite H.
Qed.

Lemma strip_trimmed (s : string) : trimmed s = true -> strip s = s.
Proof.
  unfold trimmed, strip, rstrip. intros H. apply andb_true_iff in H as [H1 H2].
  rewrite (lstrip_ok s H1), (lstrip_ok _ H2). apply rev_str_involutive.
Qed.

Lemma strip_between_newlines (s : string) :
  trimmed s = true -> strip (nl +++ s +++ nl) = s.
Proof.
  intros H. pose proof H as H'. unfold trimmed in H'.
  apply andb_true_iff in H' as [H1 H2].
  unfold strip. change (lstrip (nl +++ s +++ nl)) with (lstrip (s +++ nl)).
  destruct s as [| c s]; [reflexivity |].
  assert (Hl : lstrip (String c s +++ nl) = String c s +++ nl).
  { apply lstrip_ok. exact H1. }
  rewrite Hl. unfold rstrip. rewrite rev_str_app.
  change (rev_str nl EmptyString) with nl.
  change (lstrip (nl +++ rev_str (String c s) EmptyString))
    with (lstrip (rev_str (String c s) EmptyString)).
  rewrite (lstrip_ok _ H2). apply rev_str_involutive.
Qed.

Lemma str_take_app (a b : string) : str_take (String.length a) (a +++ b) = a.
Proof. induction a as [| c a IH]; simpl; [now destruct b | now rewrite IH]. Qed.

Lemma length_app_str (a b : string) :
  String.length (a +++ b) = (String.length a + String.length b)%nat.
Proof. induction a as [| c a IH]; simpl; [reflexivity | now rewrite IH]. Qed.

Lemma prefix_app (a b : string) : String.prefix a (a +++ b) = true.
Proof.
  induction a as [| c a IH]; simpl; [now destruct b |].
  destruct (ascii_dec c c); [exact IH | congruence].
Qed.

Lemma drop_fence (s : string) :
  endswith (s +++ FENCE) FENCE = true /\ drop_last 3 (s +++ FENCE) = s.
Proof.
  split.
  - unfold endswith. rewrite rev_str_app. apply prefix_app.
  - unfold drop_last. rewrite length_app_str.
    change (String.length FENCE) with 3%nat.
    replace (String.length s + 3 - 3)%nat with (String.length s) by lia.
    apply str_take_app.
Qed.

(** X21.  A response text without white space at its ends comes out of
    [clean_response_text] as it is when it is wrapped in a [json] code
    fence, and also when it is bare and neither starts nor ends with a
    fence: the fenced and the bare answer are decoded alike. *)
Theorem fenced_text_is_unwrapped (text : string) :
  trimmed text = true ->
  clean_response_text (FENCE_JSON +++ nl +++ text +++ nl +++ FENCE) = text
  /\ (startswith text FENCE_JSON = false ->
      endswith text FENCE = false ->
      clean_response_text text = text).
Proof.
  intros Htrim. split.
  - unfold clean_response_text.
    assert (Hfull : strip (FENCE_JSON +++ nl +++ text +++ nl +++ FENCE)
                    = FENCE_JSON +++ nl +++ text +++ nl +++ FENCE).
    { apply strip_trimmed. unfold trimmed. apply andb_true_iff. split; [reflexivity |].
      replace (FENCE_JSON +++ nl +++ text +++ nl +++ FENCE)
        with ((FENCE_JSON +++ nl +++ text +++ nl) +++ FENCE)
        by (now rewrite !append_assoc).
      rewrite rev_str_app. reflexivity. }
    rewrite Hfull.
    change (startswith (FENCE_JSON +++ nl +++ text +++ nl +++ FENCE) FENCE_JSON) with true.
    cbv iota.
    change (str_drop 7 (FENCE_JSON +++ nl +++ text +++ nl +++ FENCE))
      with (nl +++ text +++ nl +++ FENCE).
    replace (nl +++ text +++ nl +++ FENCE) with ((nl +++ text +++ nl) +++ FENCE)
      by (now rewrite !append_assoc).
    destruct (drop_fence (nl +++ text +++ nl)) as [-> ->].
    now apply strip_between_newlines.
  - intros Hstart Hend. unfold clean_response_text.
    rewrite (strip_trimmed text Htrim), Hstart, Hend.
    now apply strip_trimmed.
Qed.

Lemma fenced_text_is_unwrapped_witness :
  clean_response_text (PatternSamples.fenced (Sample.dumps PatternSamples.pattern_found))
  = Sample.dumps PatternSamples.pattern_found.
Proof.
  apply (proj1 (fenced_text_is_unwrapped (Sample.dumps PatternSamples.pattern_found)
                  eq_refl)).
Defined.

End PatternBehaviour.

(** ** From the monitor to the central handlers *)

Module PipelineBehaviour.

Lemma all_str_map (types : list string) : all_str (map JStr types) = inr types.
Proof.
  induction types as [| t types IH]; cbn [map all_str]; [reflexivity |].
  now rewrite IH.
Qed.

(** X22.  An event formatted by the monitor has every entry the central
    handlers read with a subscript, provided its detail arrives as it was
    formatted: the router can build the item for the store and the text of
    the broadcast alert from it, and the pattern correlator can make a
    prompt entry from the stored item. *)
Theorem formatted_event_is_routable
    (cfg : InvestigationMonitor.Config) (L : InvestigationMonitor.Lib)
    (inv : InvestigationMonitor.investigation) (event : json)
    (rcfg : SimpleRouting.Config) (rL : SimpleRouting.Lib) (renv : SimpleRouting.Env) :
  InvestigationMonitor.build_event cfg L inv = inr event ->
  (exists item,
      SimpleRouting.build_item rcfg renv event = inr item
      /\ PatternOutcome.summarizable item = true)
  /\ (exists texts, SimpleRouting.alert_texts rL event = inr texts).
Proof.
  unfold InvestigationMonitor.build_event. intros H.
  destruct (InvestigationMonitor.py_slice_to 5 (InvestigationMonitor.affected_resources inv))
    as [e | first5]; [discriminate H |].
  destruct (InvestigationMonitor.extract_resource_types
              (InvestigationMonitor.affected_resources inv)) as [e | types] eqn:Htypes;
    [discriminate H |].
  destruct (InvestigationMonitor.as_str "lower" (InvestigationMonitor.root_cause inv))
    as [e | text]; [discriminate H |].
  injection H as <-.
  unfold InvestigationMonitor.extract_resource_types in Htypes.
  destruct (py_iter (InvestigationMonitor.affected_resources inv)) as [e | items];
    [discriminate Htypes |].
  injection Htypes as <-.
  split.
  - eexists. split; reflexivity.
  - unfold SimpleRouting.alert_texts. cbn [py_getitem dict_lookup String.eqb Ascii.eqb Bool.eqb].
    unfold py_join. cbn [py_iter]. rewrite all_str_map.
    eexists. reflexivity.
Qed.

Lemma formatted_event_is_routable_witness :
  exists texts,
    SimpleRouting.alert_texts Sample.router_lib
      (match InvestigationMonitor.build_event Sample.monitor_cfg Sample.monitor_lib
               Sample.inv_small
       with inr event => event | inl _ => JNull end)
    = inr texts.
Proof.
  apply (proj2 (formatted_event_is_routable Sample.monitor_cfg Sample.monitor_lib
                  Sample.inv_small _ (Sample.router_cfg EmptyString EmptyString)
                  Sample.router_lib (Sample.router_env None) eq_refl)).
Defined.

End PipelineBehaviour.
